(** * INGRES groundwater assistant: the query-understanding pipeline

    A shallow embedding of [query_processor.py] (class [QueryProcessor]):
    intent classification over the static pattern table, entity extraction
    (locations, years, categories) and the per-intent resolution of a query
    against the relational store; and of [app.py]: the response formatter
    and the routes that keep the chat history.

    Conventions of the embedding.
    - Text is 7-bit ASCII: a Python [str] is a [string]; the character
      classes, [lower], [title] and [split] below are Python's on code
      points below 128 (code points above 127 are left unchanged and belong
      to no class).
    - An exception is a value: fallible code returns [Res].
    - SQLite REAL values, Python's [round(x, 2)] and the SQL aggregates AVG
      and SUM are operations of a [Numeric] structure; [Decimal] is an
      instance over thousandths, used to run the code on concrete stores.
    - A SELECT without ORDER BY yields its rows in nested-loop order of the
      FROM clause; ORDER BY is a stable insertion sort.
    - A row holds a value in every column: NULL arises only as the AVG or
      SUM over no rows, never as a stored value. *)

From Stdlib Require Import String Ascii List ZArith Lia Bool Arith.
From Stdlib Require Import Permutation Sorting.Sorted.
From Stdlib Require Import DecimalString.
Import ListNotations.

Local Open Scope string_scope.
Local Open Scope list_scope.

Set Implicit Arguments.

(* ------------------------------------------------------------------ *)
(** ** Python string methods *)

Module Py.

Definition ord (c : ascii) : nat := nat_of_ascii c.

Definition between (lo hi : nat) (c : ascii) : bool :=
  (lo <=? ord c)%nat && (ord c <=? hi)%nat.

Definition isupper (c : ascii) : bool := between 65 90 c.
Definition islower (c : ascii) : bool := between 97 122 c.
Definition isalpha (c : ascii) : bool := isupper c || islower c.
Definition isdigit (c : ascii) : bool := between 48 57 c.

(** [str.isspace] on one character: TAB, LF, VT, FF, CR, FS, GS, RS, US
    and the space. *)
Definition isspace (c : ascii) : bool := between 9 13 c || between 28 32 c.

Definition char_lower (c : ascii) : ascii :=
  if isupper c then ascii_of_nat (ord c + 32) else c.

Definition char_upper (c : ascii) : ascii :=
  if islower c then ascii_of_nat (ord c - 32) else c.

(** [s.lower()] *)
Fixpoint lower (s : string) : string :=
  match s with
  | EmptyString => EmptyString
  | String c s' => String (char_lower c) (lower s')
  end.

(** [s.title()]: a letter that follows a letter is lower-cased, any other
    letter is upper-cased. *)
Fixpoint title_from (prev_cased : bool) (s : string) : string :=
  match s with
  | EmptyString => EmptyString
  | String c s' =>
      if isalpha c
      then String (if prev_cased then char_lower c else char_upper c)
                  (title_from true s')
      else String c (title_from false s')
  end.

Definition title (s : string) : string := title_from false s.

(** [s.startswith(p)] *)
Fixpoint startswith (s p : string) : bool :=
  match p, s with
  | EmptyString, _ => true
  | String _ _, EmptyString => false
  | String a p', String b s' => Ascii.eqb a b && startswith s' p'
  end.

(** [needle in hay], for strings *)
Fixpoint contains (needle hay : string) : bool :=
  startswith hay needle ||
  match hay with
  | EmptyString => false
  | String _ hay' => contains needle hay'
  end.

(** [x in xs], for a list of strings *)
Definition mem (x : string) (xs : list string) : bool :=
  existsb (String.eqb x) xs.

(** [s.split()]: the maximal runs of non-whitespace characters. [cur] is
    the run being read. *)
Fixpoint split_from (cur : string) (s : string) : list string :=
  match s with
  | EmptyString => if String.eqb cur "" then [] else [cur]
  | String c s' =>
      if isspace c
      then (if String.eqb cur "" then split_from "" s'
            else cur :: split_from "" s')
      else split_from (cur ++ String c "") s'
  end.

Definition split (s : string) : list string := split_from "" s.

(** [int(s)] for a string of decimal digits *)
Definition digit_val (c : ascii) : Z := Z.of_nat (ord c - 48).

Fixpoint int_from (acc : Z) (s : string) : Z :=
  match s with
  | EmptyString => acc
  | String c s' => int_from (10 * acc + digit_val c)%Z s'
  end.

Definition int (s : string) : Z := int_from 0%Z s.

End Py.

(* ------------------------------------------------------------------ *)
(** ** Regular expressions: the fragment of Python's [re] the pattern
    table uses

    Literals, [.], the classes [\s], [\w] and [\d], groups, alternation,
    [*], [+] and [{n}].  None of the table's patterns has a back-reference,
    a look-around or an anchor, so [re.search] finds a match exactly when
    some substring of the text belongs to the pattern's language; the
    matcher below decides that with Brzozowski derivatives. *)

Module Re.

Inductive regex : Type :=
| Void                              (* matches nothing *)
| Eps                               (* the empty string *)
| Chr (p : ascii -> bool)           (* one character of a class *)
| Seq (a b : regex)
| Alt (a b : regex)
| Star (a : regex).

(** Character classes *)
Definition lit (c : ascii) : ascii -> bool := Ascii.eqb c.
(** [.] matches every character but the newline *)
Definition dot : ascii -> bool := fun c => negb (Ascii.eqb c "010"%char).
(** [\s] *)
Definition cls_s : ascii -> bool := Py.isspace.
(** [\d] *)
Definition cls_d : ascii -> bool := Py.isdigit.
(** [\w]: letters, digits and the underscore *)
Definition cls_w : ascii -> bool :=
  fun c => Py.isalpha c || Py.isdigit c || Ascii.eqb c "_"%char.

(** A literal string *)
Fixpoint str (s : string) : regex :=
  match s with
  | EmptyString => Eps
  | String c EmptyString => Chr (lit c)
  | String c s' => Seq (Chr (lit c)) (str s')
  end.

Definition plus (a : regex) : regex := Seq a (Star a).

Fixpoint rep (n : nat) (a : regex) : regex :=
  match n with
  | O => Eps
  | S O => a
  | S n' => Seq a (rep n' a)
  end.

Fixpoint alts (rs : list regex) : regex :=
  match rs with
  | [] => Void
  | [r] => r
  | r :: rs' => Alt r (alts rs')
  end.

Fixpoint seqs (rs : list regex) : regex :=
  match rs with
  | [] => Eps
  | [r] => r
  | r :: rs' => Seq r (seqs rs')
  end.

(** The language of a pattern *)
Inductive Matches : regex -> list ascii -> Prop :=
| MEps : Matches Eps []
| MChr p c : p c = true -> Matches (Chr p) [c]
| MSeq a b u v : Matches a u -> Matches b v -> Matches (Seq a b) (u ++ v)
| MAltL a b u : Matches a u -> Matches (Alt a b) u
| MAltR a b u : Matches b u -> Matches (Alt a b) u
| MStar0 a : Matches (Star a) []
| MStarS a u v : Matches a u -> Matches (Star a) v -> Matches (Star a) (u ++ v).

Fixpoint nullable (r : regex) : bool :=
  match r with
  | Void => false
  | Eps => true
  | Chr _ => false
  | Seq a b => nullable a && nullable b
  | Alt a b => nullable a || nullable b
  | Star _ => true
  end.

(** Constructors that drop dead branches, to keep derivatives small *)
Definition mkSeq (a b : regex) : regex :=
  match a, b with
  | Void, _ => Void
  | _, Void => Void
  | Eps, _ => b
  | _, _ => Seq a b
  end.

Definition mkAlt (a b : regex) : regex :=
  match a, b with
  | Void, _ => b
  | _, Void => a
  | _, _ => Alt a b
  end.

Fixpoint deriv (c : ascii) (r : regex) : regex :=
  match r with
  | Void => Void
  | Eps => Void
  | Chr p => if p c then Eps else Void
  | Seq a b =>
      if nullable a
      then mkAlt (mkSeq (deriv c a) b) (deriv c b)
      else mkSeq (deriv c a) b
  | Alt a b => mkAlt (deriv c a) (deriv c b)
  | Star a => mkSeq (deriv c a) (Star a)
  end.

(** Does a prefix of [s] match [r]? *)
Fixpoint match_prefix (r : regex) (s : list ascii) : bool :=
  nullable r ||
  match s with
  | [] => false
  | c :: s' => match_prefix (deriv c r) s'
  end.

(** Does a substring of [s] match [r]? *)
Fixpoint search_list (r : regex) (s : list ascii) : bool :=
  match_prefix r s ||
  match s with
  | [] => false
  | _ :: s' => search_list r s'
  end.

(** [re.search(r, s)] as a truth value (a match object is truthy) *)
Definition search (r : regex) (s : string) : bool :=
  search_list r (list_ascii_of_string s).

End Re.

(* ------------------------------------------------------------------ *)
(** ** Exceptions *)

Inductive exn : Type :=
| OperationalError     (* sqlite3: cannot open the file, no such table *)
| TypeError            (* round(None, 2) *)
| IndexError.          (* [][0] *)

Inductive Res (A : Type) : Type :=
| Ok (a : A)
| Raise (e : exn).

Arguments Ok {A} a.
Arguments Raise {A} e.

Definition bind {A B : Type} (m : Res A) (k : A -> Res B) : Res B :=
  match m with
  | Ok a => k a
  | Raise e => Raise e
  end.

Notation "x <- m ;; k" := (bind m (fun x => k))
  (at level 61, m at next level, right associativity).

Fixpoint mapM {A B : Type} (f : A -> Res B) (xs : list A) : Res (list B) :=
  match xs with
  | [] => Ok []
  | x :: xs' => y <- f x ;; ys <- mapM f xs' ;; Ok (y :: ys)
  end.

(* ------------------------------------------------------------------ *)
(** ** Numbers of the store *)

(** The REAL values of the store with the operations the code applies to
    them: Python's [round(x, 2)], the comparison of ORDER BY, and the
    aggregates AVG and SUM over a non-empty column. *)
Class Numeric : Type := {
  real : Type;
  round2 : real -> real;
  real_leb : real -> real -> bool;
  avg : list real -> real;
  sum : list real -> real
}.

(** What the results that speak of order assume of the comparison. *)
Class NumericOrder (N : Numeric) : Prop := {
  real_leb_total : forall x y : real, real_leb x y = true \/ real_leb y x = true;
  real_leb_trans : forall x y z : real,
      real_leb x y = true -> real_leb y z = true -> real_leb x z = true;
  round2_mono : forall x y : real,
      real_leb x y = true -> real_leb (round2 x) (round2 y) = true
}.

(** Decimal numbers in thousandths: [1234] is 1.234.  [round2] rounds to
    the nearest hundredth, ties to even; AVG truncates to a thousandth. *)
Module Decimal.

Definition round2 (x : Z) : Z :=
  let q := (x / 10)%Z in
  let r := (x mod 10)%Z in
  if (r <? 5)%Z then (10 * q)%Z
  else if (5 <? r)%Z then (10 * (q + 1))%Z
  else if Z.even q then (10 * q)%Z else (10 * (q + 1))%Z.

Definition sum (xs : list Z) : Z := fold_right Z.add 0%Z xs.

Definition avg (xs : list Z) : Z := (sum xs / Z.of_nat (length xs))%Z.

#[export] Instance numeric : Numeric :=
  Build_Numeric round2 Z.leb avg sum.

End Decimal.

(* ------------------------------------------------------------------ *)
(** ** The relational store *)

Module Sqlite.

(** [LOWER(x)]: SQLite folds the 26 ASCII letters only *)
Definition LOWER (s : string) : string := Py.lower s.

(** [x LIKE pat]: [%] stands for any run of characters, [_] for any one
    character, every other character for itself up to ASCII case.  No
    ESCAPE character is declared by the queries. *)
Fixpoint LIKE_pat (pat : string) : string -> bool :=
  match pat with
  | EmptyString =>
      fun s => match s with EmptyString => true | String _ _ => false end
  | String p pat' =>
      if Ascii.eqb p "%"%char then
        fix any (s : string) : bool :=
          LIKE_pat pat' s ||
          match s with
          | EmptyString => false
          | String _ s' => any s'
          end
      else if Ascii.eqb p "_"%char then
        fun s => match s with
                 | EmptyString => false
                 | String _ s' => LIKE_pat pat' s'
                 end
      else
        fun s => match s with
                 | EmptyString => false
                 | String c s' =>
                     Ascii.eqb (Py.char_lower p) (Py.char_lower c)
                     && LIKE_pat pat' s'
                 end
  end.

Definition LIKE (x pat : string) : bool := LIKE_pat pat x.

(** Stable insertion sort: ORDER BY *)
Fixpoint insert {A : Type} (le : A -> A -> bool) (x : A) (l : list A) : list A :=
  match l with
  | [] => [x]
  | y :: l' => if le x y then x :: y :: l' else y :: insert le x l'
  end.

Fixpoint ORDER_BY {A : Type} (le : A -> A -> bool) (l : list A) : list A :=
  match l with
  | [] => []
  | x :: l' => insert le x (ORDER_BY le l')
  end.

Definition LIMIT {A : Type} (n : nat) (l : list A) : list A := firstn n l.

(** [COUNT(DISTINCT x)] *)
Definition COUNT_DISTINCT (xs : list Z) : nat := length (nodup Z.eq_dec xs).

End Sqlite.

(** Rows of the four tables the processor reads.  The names are NOT NULL
    in the schema; the seeding script fills every other column. *)
Record state_row : Type := {
  state_id : Z;
  state_name : string
}.

Record district_row : Type := {
  district_id : Z;
  district_name : string;
  district_state_id : Z
}.

Record block_row : Type := {
  block_id : Z;
  block_name : string;
  block_district_id : Z
}.

Record assessment_row {N : Numeric} : Type := {
  assessment_id : Z;
  ga_block_id : Z;
  assessment_year : Z;
  annual_recharge_mcm : real;
  extractable_resources_mcm : real;
  total_extraction_mcm : real;
  stage_of_extraction : real;
  category : string;
  water_level_pre_monsoon : real;
  water_level_post_monsoon : real
}.

(** The database file: a table that is not there is [None]. *)
Record database {N : Numeric} : Type := {
  states : option (list state_row);
  districts : option (list district_row);
  blocks : option (list block_row);
  groundwater_assessment : option (list assessment_row)
}.

(** What [sqlite3.connect(self.db_path)] finds. *)
Inductive store {N : Numeric} : Type :=
| Unreachable
| Connected (db : database).

(** [cursor.execute("SELECT ... FROM t")]: no such table raises. *)
Definition table {A : Type} (t : option (list A)) : Res (list A) :=
  match t with
  | Some rows => Ok rows
  | None => Raise OperationalError
  end.

Definition connect {N : Numeric} (st : store) : Res database :=
  match st with
  | Unreachable => Raise OperationalError
  | Connected db => Ok db
  end.

(** A row of
    [groundwater_assessment ga JOIN blocks b JOIN districts d JOIN states s] *)
Record joined {N : Numeric} : Type := {
  ga : assessment_row;
  b : block_row;
  d : district_row;
  s : state_row
}.

Definition JOIN {N : Numeric} (db : database) : Res (list joined) :=
  gas <- table (groundwater_assessment db) ;;
  bs <- table (blocks db) ;;
  ds <- table (districts db) ;;
  ss <- table (states db) ;;
  Ok (flat_map (fun g =>
        flat_map (fun b0 =>
          if (ga_block_id g =? block_id b0)%Z then
            flat_map (fun d0 =>
              if (block_district_id b0 =? district_id d0)%Z then
                flat_map (fun s0 =>
                  if (district_state_id d0 =? state_id s0)%Z
                  then [ {| ga := g; b := b0; d := d0; s := s0 |} ]
                  else []) ss
              else []) ds
          else []) bs) gas).

(** [WHERE (LOWER(s.state_name) LIKE ? OR LOWER(d.district_name) LIKE ?)]
    with both parameters bound to [f'%{location.lower()}%']. *)
Definition like_param (location : string) : string :=
  "%" ++ Py.lower location ++ "%".

Definition location_filter {N : Numeric} (location : string) (r : joined) : bool :=
  Sqlite.LIKE (Sqlite.LOWER (state_name (s r))) (like_param location)
  || Sqlite.LIKE (Sqlite.LOWER (district_name (d r))) (like_param location).

(** [AVG(col)] and [SUM(col)]: NULL over no rows. *)
Definition AVG {N : Numeric} (xs : list real) : option real :=
  match xs with
  | [] => None
  | _ => Some (avg xs)
  end.

Definition SUM {N : Numeric} (xs : list real) : option real :=
  match xs with
  | [] => None
  | _ => Some (sum xs)
  end.

(** [round(x, 2)] on a fetched value: [None] is not a number. *)
Definition round {N : Numeric} (x : option real) : Res real :=
  match x with
  | Some v => Ok (round2 v)
  | None => Raise TypeError
  end.

(* ------------------------------------------------------------------ *)
(** ** Parsed queries *)

(** The [entities] dict: a key is present when its field is [Some]. *)
Record entities : Type := {
  locations : option (list string);
  years : option (list Z);
  categories : option (list string)
}.

(** Iteration order of a Python set of strings, as a function of the
    sequence it was built from: some enumeration without repetition of the
    elements.  Which one depends on the string hashes of the running
    interpreter. *)
Record SetOrder : Type := {
  iter : list string -> list string;
  iter_perm : forall xs, Permutation (iter xs) (nodup string_dec xs)
}.

(* ------------------------------------------------------------------ *)
(** ** QueryProcessor: the pattern table *)

Module Pat.
Import Re.

(** [.*] *)
Definition any : regex := Star (Chr dot).
(** [\s+] *)
Definition spaces : regex := plus (Chr cls_s).
(** [(\w+)] *)
Definition word : regex := plus (Chr cls_w).
(** [(a|b|c)] *)
Definition group (ws : list string) : regex := alts (map str ws).

End Pat.

(** [_initialize_patterns]: the dict literal, in its insertion order, which
    is the order [dict.items()] iterates in. *)
Definition _initialize_patterns : list (string * list (Re.regex * string)) :=
  let any := Pat.any in
  let spaces := Pat.spaces in
  let word := Pat.word in
  let group := Pat.group in
  let str := Re.str in
  let seqs := Re.seqs in
  [ ("groundwater_status",
     [ (* (what|show|tell).*(groundwater|water).*status.*(of|in|for)\s+(\w+) *)
       (seqs [group ["what"; "show"; "tell"]; any; group ["groundwater"; "water"];
              any; str "status"; any; group ["of"; "in"; "for"]; spaces; word],
        "location_query");
       (* status.*(of|in|for)\s+(\w+) *)
       (seqs [str "status"; any; group ["of"; "in"; "for"]; spaces; word],
        "location_query");
       (* groundwater.*(\w+)\s+(district|block|state) *)
       (seqs [str "groundwater"; any; word; spaces; group ["district"; "block"; "state"]],
        "location_query") ]);
    ("critical_areas",
     [ (* (show|list|which).*(critical|over-exploited|danger) *)
       (seqs [group ["show"; "list"; "which"]; any;
              group ["critical"; "over-exploited"; "danger"]],
        "critical_query");
       (* areas.*(critical|over-exploited|danger) *)
       (seqs [str "areas"; any; group ["critical"; "over-exploited"; "danger"]],
        "critical_query");
       (* (critical|over-exploited).*(areas|blocks|districts) *)
       (seqs [group ["critical"; "over-exploited"]; any;
              group ["areas"; "blocks"; "districts"]],
        "critical_query") ]);
    ("safe_areas",
     [ (* (show|list|which).*(safe|good).*areas *)
       (seqs [group ["show"; "list"; "which"]; any; group ["safe"; "good"]; any;
              str "areas"],
        "safe_query");
       (* areas.*safe *)
       (seqs [str "areas"; any; str "safe"], "safe_query");
       (* safe.*(areas|blocks|districts) *)
       (seqs [str "safe"; any; group ["areas"; "blocks"; "districts"]],
        "safe_query") ]);
    ("water_level",
     [ (* water level.*(of|in|for)\s+(\w+) *)
       (seqs [str "water level"; any; group ["of"; "in"; "for"]; spaces; word],
        "water_level_query");
       (* (depth|level).*water.*(of|in|for)\s+(\w+) *)
       (seqs [group ["depth"; "level"]; any; str "water"; any;
              group ["of"; "in"; "for"]; spaces; word],
        "water_level_query");
       (* how deep.*water.*(in|at)\s+(\w+) *)
       (seqs [str "how deep"; any; str "water"; any; group ["in"; "at"]; spaces; word],
        "water_level_query") ]);
    ("historical",
     [ (* (historical|history|trend|past).*(data|information|records) *)
       (seqs [group ["historical"; "history"; "trend"; "past"]; any;
              group ["data"; "information"; "records"]],
        "historical_query");
       (* (show|get).*(trend|historical) *)
       (seqs [group ["show"; "get"]; any; group ["trend"; "historical"]],
        "historical_query");
       (* data.*(from|between)\s+(\d{4}) *)
       (seqs [str "data"; any; group ["from"; "between"]; spaces;
              Re.rep 4 (Re.Chr Re.cls_d)],
        "historical_query") ]);
    ("recharge",
     [ (* (recharge|replenishment).*(rate|data|information) *)
       (seqs [group ["recharge"; "replenishment"]; any;
              group ["rate"; "data"; "information"]],
        "recharge_query");
       (* annual.*recharge *)
       (seqs [str "annual"; any; str "recharge"], "recharge_query");
       (* groundwater.*recharge *)
       (seqs [str "groundwater"; any; str "recharge"], "recharge_query") ]);
    ("extraction",
     [ (* (extraction|withdrawal|usage).*(rate|data|information) *)
       (seqs [group ["extraction"; "withdrawal"; "usage"]; any;
              group ["rate"; "data"; "information"]],
        "extraction_query");
       (* how much.*extract *)
       (seqs [str "how much"; any; str "extract"], "extraction_query");
       (* groundwater.*(extraction|usage) *)
       (seqs [str "groundwater"; any; group ["extraction"; "usage"]],
        "extraction_query") ]);
    ("comparison",
     [ (* compare.*(between|with) *)
       (seqs [str "compare"; any; group ["between"; "with"]], "comparison_query");
       (* difference.*between *)
       (seqs [str "difference"; any; str "between"], "comparison_query");
       (* (better|worse).*than *)
       (seqs [group ["better"; "worse"]; any; str "than"], "comparison_query") ]);
    ("help",
     [ (* (help|what can you do|features|capabilities) *)
       (group ["help"; "what can you do"; "features"; "capabilities"], "help_query");
       (* how.*(to use|does.*work) *)
       (seqs [str "how"; any;
              Re.Alt (str "to use") (seqs [str "does"; any; str "work"])],
        "help_query") ])
  ].

(** [self.intent_patterns], set once by [__init__] *)
Definition intent_patterns : list (string * list (Re.regex * string)) :=
  _initialize_patterns.

(* ------------------------------------------------------------------ *)
(** ** QueryProcessor: entity extraction *)

(** The three SELECTs of [_extract_locations], each column lower-cased. *)
Definition catalog {N : Numeric} (st : store)
  : Res (list string * list string * list string) :=
  db <- connect st ;;
  ss <- table (states db) ;;
  ds <- table (districts db) ;;
  bs <- table (blocks db) ;;
  Ok (map (fun r => Py.lower (state_name r)) ss,
      map (fun r => Py.lower (district_name r)) ds,
      map (fun r => Py.lower (block_name r)) bs).

(** [d.split()[0].lower()] *)
Definition first_word (d0 : string) : Res string :=
  match Py.split d0 with
  | w :: _ => Ok (Py.lower w)
  | [] => Raise IndexError
  end.

(** The loop over [query_words].  It returns the locations appended so far
    and the exception that ended it, if one did: the handler of
    [_extract_locations] keeps the list. *)
Fixpoint word_loop (states0 districts0 : list string) (query_words : list string)
    (locations0 : list string) : list string * option exn :=
  match query_words with
  | [] => (locations0, None)
  | word :: rest =>
      if Py.mem word states0 then
        word_loop states0 districts0 rest (locations0 ++ [Py.title word])
      else
        match mapM first_word districts0 with
        | Raise e => (locations0, Some e)
        | Ok firsts =>
            if Py.mem word firsts then
              match find (fun d0 => Py.startswith d0 word) districts0 with
              | Some d0 =>
                  word_loop states0 districts0 rest (locations0 ++ [Py.title d0])
              | None => word_loop states0 districts0 rest locations0
              end
            else word_loop states0 districts0 rest locations0
        end
  end.

(** [for name in names: if name in query_lower: locations.append(name.title())] *)
Definition named_in (names : list string) (query_lower : string) : list string :=
  map Py.title (filter (fun name => Py.contains name query_lower) names).

Definition _extract_locations {N : Numeric} (o : SetOrder) (st : store)
    (query : string) : list string :=
  let locations0 : list string := [] in
  let locations0 :=
    match catalog st with
    | Raise _ => locations0                   (* except ...: print(...) *)
    | Ok (states0, districts0, blocks0) =>
        let query_words := Py.split (Py.lower query) in
        match word_loop states0 districts0 query_words locations0 with
        | (locations1, Some _) => locations1  (* except Exception: print(...) *)
        | (locations1, None) =>
            let query_lower := Py.lower query in
            locations1 ++ named_in states0 query_lower
                       ++ named_in districts0 query_lower
                       ++ named_in blocks0 query_lower
        end
    end in
  iter o locations0.                          (* list(set(locations)) *)

(** [\b] before a word character: the start of the text or a character
    that is not [\w]; after one: the end of the text or such a character. *)
Definition boundary_before (prev : option ascii) : bool :=
  match prev with
  | None => true
  | Some c => negb (Re.cls_w c)
  end.

Definition boundary_after (rest : string) : bool :=
  match rest with
  | EmptyString => true
  | String c _ => negb (Re.cls_w c)
  end.

(** A match of [\b(20\d{2})\b] that starts at the head of [text], [prev]
    being the character before it: the group's text. *)
Definition year_here (prev : option ascii) (text : string) : option string :=
  match text with
  | String c1 (String c2 (String c3 (String c4 rest))) =>
      if boundary_before prev
         && Ascii.eqb c1 "2"%char && Ascii.eqb c2 "0"%char
         && Re.cls_d c3 && Re.cls_d c4
         && boundary_after rest
      then Some (String c1 (String c2 (String c3 (String c4 ""))))
      else None
  | _ => None
  end.

(** [re.findall(r'\b(20\d{2})\b', text)]: the scan goes left to right and
    resumes after each match ([skip] counts the characters of the match
    still to pass). *)
Fixpoint findall_years_from (skip : nat) (prev : option ascii) (text : string)
  : list string :=
  match text with
  | EmptyString => []
  | String c text' =>
      match skip with
      | S k => findall_years_from k (Some c) text'
      | O =>
          match year_here prev text with
          | Some y => y :: findall_years_from 3 (Some c) text'
          | None => findall_years_from 0 (Some c) text'
          end
      end
  end.

Definition findall_years (text : string) : list string :=
  findall_years_from 0 None text.

(** The four category checks, appended in this order. *)
Definition extract_categories (query : string) : list string :=
  (if Py.contains "safe" query then ["Safe"] else [])
  ++ (if Py.contains "critical" query then ["Critical"] else [])
  ++ (if Py.contains "semi" query || Py.contains "semi-critical" query
      then ["Semi-Critical"] else [])
  ++ (if Py.contains "over" query || Py.contains "exploited" query
      then ["Over-Exploited"] else []).

(** [entities[key] = xs] under [if xs:] *)
Definition if_nonempty {A : Type} (xs : list A) : option (list A) :=
  match xs with
  | [] => None
  | _ => Some xs
  end.

(** [_extract_entities(query, intent, match)]; neither [intent] nor
    [match] is read. *)
Definition _extract_entities {N : Numeric} (o : SetOrder) (st : store)
    (query : string) (intent : string) (re_match : option (Re.regex * string))
  : entities :=
  let locations0 := _extract_locations o st query in
  let years0 := findall_years query in
  let categories0 := extract_categories query in
  {| locations := if_nonempty locations0;
     years := if_nonempty (map Py.int years0);
     categories := if_nonempty categories0 |}.

(* ------------------------------------------------------------------ *)
(** ** QueryProcessor: intent classification *)

(** [for pattern, _ in patterns: if re.search(pattern, query_lower): return] *)
Fixpoint first_matching (patterns : list (Re.regex * string)) (query_lower : string)
  : option (Re.regex * string) :=
  match patterns with
  | [] => None
  | (pattern, tag) :: rest =>
      if Re.search pattern query_lower then Some (pattern, tag)
      else first_matching rest query_lower
  end.

(** [for intent, patterns in self.intent_patterns.items(): ...] *)
Fixpoint classify_loop (table0 : list (string * list (Re.regex * string)))
    (query_lower : string) : option (string * (Re.regex * string)) :=
  match table0 with
  | [] => None
  | (intent, patterns) :: rest =>
      match first_matching patterns query_lower with
      | Some m => Some (intent, m)
      | None => classify_loop rest query_lower
      end
  end.

Definition classify_intent {N : Numeric} (o : SetOrder) (st : store)
    (query : string) : string * entities :=
  let query_lower := Py.lower query in
  match classify_loop intent_patterns query_lower with
  | Some (intent, m) =>
      (intent, _extract_entities o st query_lower intent (Some m))
  | None =>
      ("general", _extract_entities o st query_lower "general" None)
  end.

(* ------------------------------------------------------------------ *)
(** ** QueryProcessor: resolution *)

Section Resolution.
Context {N : Numeric}.

(** The dicts built from the fetched rows *)
Record status_record : Type := {
  sr_block_name : string;
  sr_category : string;
  sr_stage_of_extraction : real;
  sr_water_level : real;
  sr_annual_recharge : real;
  sr_district : string;
  sr_state : string
}.

Record critical_record : Type := {
  cr_block : string;
  cr_district : string;
  cr_state : string;
  cr_category : string;
  cr_extraction_percentage : real
}.

Record safe_record : Type := {
  sf_block : string;
  sf_district : string;
  sf_state : string;
  sf_extraction_percentage : real;
  sf_annual_recharge : real
}.

Record level_record : Type := {
  lv_block : string;
  lv_pre_monsoon : real;
  lv_post_monsoon : real;
  lv_year : Z
}.

Record trend_record : Type := {
  tr_year : Z;
  tr_avg_extraction : real;
  tr_avg_water_level : real;
  tr_blocks_assessed : nat
}.

Record recharge_record : Type := {
  rc_block : string;
  rc_annual_recharge : real;
  rc_extractable_resources : real
}.

Record extraction_record : Type := {
  ex_block : string;
  ex_total_extraction : real;
  ex_extraction_stage : real;
  ex_category : string
}.

(** What [_get_response_data] returns, by the keys of the dict *)
Inductive response : Type :=
| Groundwater_status (location : string) (year : Z) (blocks0 : list status_record)
| Critical_areas (critical_areas : list critical_record)
| Safe_areas (safe_areas : list safe_record)
| Water_levels (location : string) (water_levels : list level_record)
| Average_water_levels (pre_monsoon post_monsoon : real)
| Historical_trends (historical_trends : list trend_record) (location : string)
| Recharge_data (location : string) (recharge_data : list recharge_record)
| National_recharge (average_annual_recharge average_extractable total_recharge : real)
| Extraction_data (location : string) (extraction_data : list extraction_record)
| National_extraction (average_extraction average_stage total_extraction : real)
| General_stats (states_covered districts_covered blocks_covered : nat)
                (average_extraction_stage : real)
| Help (help : list string).

(** [entities.get('locations', dflt)[0] if entities.get('locations') else None] *)
Definition first_location (e : entities) : option string :=
  match locations e with
  | Some (l :: _) => Some l
  | _ => None
  end.

Definition first_year (e : entities) : option Z :=
  match years e with
  | Some (y :: _) => Some y
  | _ => None
  end.

(** [if location:] — [None] and the empty string are false *)
Definition truthy (location : option string) : option string :=
  match location with
  | Some EmptyString => None
  | _ => location
  end.

Definition year_is (y : Z) (r : joined) : bool :=
  (assessment_year (ga r) =? y)%Z.

Definition ga_year_is (y : Z) (g : assessment_row) : bool :=
  (assessment_year g =? y)%Z.

(** The scoped SELECT shared by the location branches:
    [WHERE (... LIKE ? OR ... LIKE ?) AND ga.assessment_year = y LIMIT 10] *)
Definition scoped_rows (db : database) (location : string) (y : Z)
  : Res (list joined) :=
  rows <- JOIN db ;;
  Ok (Sqlite.LIMIT 10
        (filter (fun r => location_filter location r && year_is y r) rows)).

Definition status_of_row (r : joined) : status_record :=
  {| sr_block_name := block_name (b r);
     sr_category := category (ga r);
     sr_stage_of_extraction := round2 (stage_of_extraction (ga r));
     sr_water_level := round2 (water_level_pre_monsoon (ga r));
     sr_annual_recharge := round2 (annual_recharge_mcm (ga r));
     sr_district := district_name (d r);
     sr_state := state_name (s r) |}.

Definition _get_groundwater_status (db : database) (e : entities) : Res response :=
  let location := match first_location e with Some l => l | None => "Delhi" end in
  let year := match first_year e with Some y => y | None => 2024%Z end in
  results <- scoped_rows db location year ;;
  Ok (Groundwater_status location year (map status_of_row results)).

Definition critical_of_row (r : joined) : critical_record :=
  {| cr_block := block_name (b r);
     cr_district := district_name (d r);
     cr_state := state_name (s r);
     cr_category := category (ga r);
     cr_extraction_percentage := round2 (stage_of_extraction (ga r)) |}.

Definition stage_asc (r1 r2 : joined) : bool :=
  real_leb (stage_of_extraction (ga r1)) (stage_of_extraction (ga r2)).

Definition stage_desc (r1 r2 : joined) : bool :=
  real_leb (stage_of_extraction (ga r2)) (stage_of_extraction (ga r1)).

Definition critical_rows (db : database) : Res (list joined) :=
  rows <- JOIN db ;;
  Ok (Sqlite.LIMIT 15
        (Sqlite.ORDER_BY stage_desc
           (filter (fun r => (String.eqb (category (ga r)) "Critical"
                              || String.eqb (category (ga r)) "Over-Exploited")
                             && year_is 2024 r) rows))).

Definition _get_critical_areas (db : database) : Res response :=
  results <- critical_rows db ;;
  Ok (Critical_areas (map critical_of_row results)).

Definition safe_of_row (r : joined) : safe_record :=
  {| sf_block := block_name (b r);
     sf_district := district_name (d r);
     sf_state := state_name (s r);
     sf_extraction_percentage := round2 (stage_of_extraction (ga r));
     sf_annual_recharge := round2 (annual_recharge_mcm (ga r)) |}.

Definition safe_rows (db : database) : Res (list joined) :=
  rows <- JOIN db ;;
  Ok (Sqlite.LIMIT 15
        (Sqlite.ORDER_BY stage_asc
           (filter (fun r => String.eqb (category (ga r)) "Safe"
                             && year_is 2024 r) rows))).

Definition _get_safe_areas (db : database) : Res response :=
  results <- safe_rows db ;;
  Ok (Safe_areas (map safe_of_row results)).

Definition level_of_row (r : joined) : level_record :=
  {| lv_block := block_name (b r);
     lv_pre_monsoon := round2 (water_level_pre_monsoon (ga r));
     lv_post_monsoon := round2 (water_level_post_monsoon (ga r));
     lv_year := assessment_year (ga r) |}.

(** [SELECT ... FROM groundwater_assessment WHERE assessment_year = 2024] *)
Definition assessments_2024 (db : database) : Res (list assessment_row) :=
  gas <- table (groundwater_assessment db) ;;
  Ok (filter (ga_year_is 2024) gas).

Definition _get_water_levels (db : database) (e : entities) : Res response :=
  let location := first_location e in
  match truthy location with
  | Some location =>
      results <- scoped_rows db location 2024 ;;
      Ok (Water_levels location (map level_of_row results))
  | None =>
      gas <- assessments_2024 db ;;
      pre <- round (AVG (map water_level_pre_monsoon gas)) ;;
      post <- round (AVG (map water_level_post_monsoon gas)) ;;
      Ok (Average_water_levels pre post)
  end.

(** [GROUP BY assessment_year ORDER BY assessment_year]: the distinct years,
    ascending. *)
Fixpoint insert_year (y : Z) (l : list Z) : list Z :=
  match l with
  | [] => [y]
  | x :: l' =>
      if (y <? x)%Z then y :: x :: l'
      else if (y =? x)%Z then x :: l'
      else x :: insert_year y l'
  end.

Definition group_years (ys : list Z) : list Z := fold_right insert_year [] ys.

(** One output row of the grouped SELECT: the year, AVG(stage),
    AVG(pre-monsoon level) and COUNT(DISTINCT block_id) of its group. *)
Definition trend_of_group (y : Z) (group : list assessment_row) (block_ids : list Z)
  : Res trend_record :=
  avg_extraction <- round (AVG (map stage_of_extraction group)) ;;
  avg_water_level <- round (AVG (map water_level_pre_monsoon group)) ;;
  Ok {| tr_year := y;
        tr_avg_extraction := avg_extraction;
        tr_avg_water_level := avg_water_level;
        tr_blocks_assessed := Sqlite.COUNT_DISTINCT block_ids |}.

Definition _get_historical_data (db : database) (e : entities) : Res response :=
  let years0 := match years e with
                | Some ys => ys
                | None => [2020; 2021; 2022; 2023; 2024]%Z
                end in
  let location := first_location e in
  match truthy location with
  | Some location =>
      rows <- JOIN db ;;
      let rows := filter (location_filter location) rows in
      trends <- mapM (fun y =>
                  let group := filter (year_is y) rows in
                  trend_of_group y (map ga group) (map (fun r => block_id (b r)) group))
                (group_years (map (fun r => assessment_year (ga r)) rows)) ;;
      Ok (Historical_trends trends location)
  | None =>
      gas <- table (groundwater_assessment db) ;;
      trends <- mapM (fun y =>
                  let group := filter (ga_year_is y) gas in
                  trend_of_group y group (map ga_block_id group))
                (group_years (map assessment_year gas)) ;;
      Ok (Historical_trends trends "All India")
  end.

Definition recharge_of_row (r : joined) : recharge_record :=
  {| rc_block := block_name (b r);
     rc_annual_recharge := round2 (annual_recharge_mcm (ga r));
     rc_extractable_resources := round2 (extractable_resources_mcm (ga r)) |}.

Definition _get_recharge_data (db : database) (e : entities) : Res response :=
  let location := first_location e in
  match truthy location with
  | Some location =>
      results <- scoped_rows db location 2024 ;;
      Ok (Recharge_data location (map recharge_of_row results))
  | None =>
      gas <- assessments_2024 db ;;
      average_annual_recharge <- round (AVG (map annual_recharge_mcm gas)) ;;
      average_extractable <- round (AVG (map extractable_resources_mcm gas)) ;;
      total_recharge <- round (SUM (map annual_recharge_mcm gas)) ;;
      Ok (National_recharge average_annual_recharge average_extractable total_recharge)
  end.

Definition extraction_of_row (r : joined) : extraction_record :=
  {| ex_block := block_name (b r);
     ex_total_extraction := round2 (total_extraction_mcm (ga r));
     ex_extraction_stage := round2 (stage_of_extraction (ga r));
     ex_category := category (ga r) |}.

Definition _get_extraction_data (db : database) (e : entities) : Res response :=
  let location := first_location e in
  match truthy location with
  | Some location =>
      results <- scoped_rows db location 2024 ;;
      Ok (Extraction_data location (map extraction_of_row results))
  | None =>
      gas <- assessments_2024 db ;;
      average_extraction <- round (AVG (map total_extraction_mcm gas)) ;;
      average_stage <- round (AVG (map stage_of_extraction gas)) ;;
      total_extraction <- round (SUM (map total_extraction_mcm gas)) ;;
      Ok (National_extraction average_extraction average_stage total_extraction)
  end.

Definition _get_general_stats (db : database) : Res response :=
  rows <- JOIN db ;;
  let rows := filter (year_is 2024) rows in
  average_extraction_stage <-
    round (AVG (map (fun r => stage_of_extraction (ga r)) rows)) ;;
  Ok (General_stats
        (Sqlite.COUNT_DISTINCT (map (fun r => state_id (s r)) rows))
        (Sqlite.COUNT_DISTINCT (map (fun r => district_id (d r)) rows))
        (Sqlite.COUNT_DISTINCT (map (fun r => block_id (b r)) rows))
        average_extraction_stage).

Definition _get_help_info : response :=
  Help [ "You can ask about groundwater status in any state/district/block.";
         "Examples:";
         "- What is the groundwater status in Karnataka?";
         "- Show critical areas in Tamil Nadu";
         "- What is the average water level in Delhi?";
         "- Give me historical trends for Punjab";
         "- Compare extraction between states";
         "- List safe areas in Maharashtra";
         "- Show recharge and extraction rates" ].

(** [_get_response_data]: the connection is opened first; [finally] only
    closes it. *)
Definition _get_response_data (st : store) (intent : string) (e : entities)
  : Res response :=
  db <- connect st ;;
  if String.eqb intent "groundwater_status" then _get_groundwater_status db e
  else if String.eqb intent "critical_areas" then _get_critical_areas db
  else if String.eqb intent "safe_areas" then _get_safe_areas db
  else if String.eqb intent "water_level" then _get_water_levels db e
  else if String.eqb intent "historical" then _get_historical_data db e
  else if String.eqb intent "recharge" then _get_recharge_data db e
  else if String.eqb intent "extraction" then _get_extraction_data db e
  else if String.eqb intent "help" then Ok _get_help_info
  else _get_general_stats db.

(** The dict [process_query] returns *)
Record result : Type := {
  res_intent : string;
  res_entities : entities;
  res_data : response;
  res_query : string
}.

Definition process_query (o : SetOrder) (st : store) (query : string) : Res result :=
  let '(intent, e) := classify_intent o st query in
  response_data <- _get_response_data st intent e ;;
  Ok {| res_intent := intent;
        res_entities := e;
        res_data := response_data;
        res_query := query |}.

End Resolution.

(* ------------------------------------------------------------------ *)
(** ** A small store and two set orders, to run the code on *)

Module Sample.
Import Decimal.

(** The set iterates in order of last insertion. *)
Definition insertion_order : SetOrder :=
  {| iter := nodup string_dec;
     iter_perm := fun xs => Permutation_refl (nodup string_dec xs) |}.

(** The set iterates the other way round. *)
Definition reverse_order : SetOrder :=
  {| iter := fun xs => rev (nodup string_dec xs);
     iter_perm := fun xs => Permutation_sym (Permutation_rev (nodup string_dec xs)) |}.

Definition mk_assessment (id blk yr : Z) (recharge stage : Z) (cat : string)
    (pre post : Z) : assessment_row :=
  {| assessment_id := id; ga_block_id := blk; assessment_year := yr;
     annual_recharge_mcm := recharge;
     extractable_resources_mcm := (recharge * 85 / 100)%Z;
     total_extraction_mcm := (stage * (recharge * 85 / 100) / 100000)%Z;
     stage_of_extraction := stage;
     category := cat;
     water_level_pre_monsoon := pre;
     water_level_post_monsoon := post |}.

Definition db : database :=
  {| states := Some [ {| state_id := 1; state_name := "Delhi" |};
                      {| state_id := 2; state_name := "Haryana" |};
                      {| state_id := 3; state_name := "Punjab" |} ];
     districts := Some
       [ {| district_id := 1; district_name := "Central Delhi"; district_state_id := 1 |};
         {| district_id := 4; district_name := "Gurugram"; district_state_id := 2 |};
         {| district_id := 7; district_name := "Amritsar"; district_state_id := 3 |} ];
     blocks := Some
       [ {| block_id := 1; block_name := "Central Delhi Block-1"; block_district_id := 1 |};
         {| block_id := 2; block_name := "Central Delhi Block-2"; block_district_id := 1 |};
         {| block_id := 3; block_name := "Gurugram Block-1"; block_district_id := 4 |};
         {| block_id := 4; block_name := "Amritsar Block-1"; block_district_id := 7 |};
         {| block_id := 5; block_name := "Sohna"; block_district_id := 4 |} ];
     groundwater_assessment := Some
       [ mk_assessment 1 1 2023 150125 45678 "Safe" 10250 7125;
         mk_assessment 2 1 2024 148335 61235 "Safe" 11115 8005;
         mk_assessment 3 2 2024 101500 82455 "Semi-Critical" 20125 16500;
         mk_assessment 4 3 2024 75250 95005 "Critical" 30335 27000;
         mk_assessment 5 4 2024 55125 131785 "Over-Exploited" 41000 37125;
         mk_assessment 6 5 2024 160000 33333 "Safe" 6125 3000;
         mk_assessment 7 4 2023 58000 120015 "Over-Exploited" 40000 36000 ] |}.

Definition st : store := Connected db.

(** The rows of the four-table join of [db] *)
Definition joined_rows : list joined :=
  match JOIN db with
  | Ok rows => rows
  | Raise _ => []
  end.

(** A store where a block is named with an underscore. *)
Definition db_new_town : database :=
  {| states := Some [ {| state_id := 1; state_name := "West Bengal" |} ];
     districts := Some
       [ {| district_id := 20; district_name := "New Town"; district_state_id := 1 |} ];
     blocks := Some
       [ {| block_id := 71; block_name := "New_Town"; block_district_id := 20 |} ];
     groundwater_assessment := Some
       [ mk_assessment 1 71 2024 120000 52345 "Safe" 9125 6000 ] |}.

(** The status record of Amritsar Block-1 for 2023 in [db] *)
Definition amritsar_2023 : @status_record Decimal.numeric :=
  @Build_status_record Decimal.numeric "Amritsar Block-1" "Over-Exploited"
    120020%Z 40000%Z 58000%Z "Amritsar" "Punjab".

(** A store where a district has an empty name. *)
Definition db_blank_district : database :=
  {| states := Some [ {| state_id := 1; state_name := "Delhi" |};
                      {| state_id := 3; state_name := "Punjab" |} ];
     districts := Some
       [ {| district_id := 1; district_name := "Central Delhi"; district_state_id := 1 |};
         {| district_id := 2; district_name := ""; district_state_id := 3 |} ];
     blocks := Some
       [ {| block_id := 1; block_name := "Central Delhi Block-1"; block_district_id := 1 |} ];
     groundwater_assessment := Some
       [ mk_assessment 1 1 2023 150125 45678 "Safe" 10250 7125 ] |}.

(** The file is there, the tables are not. *)
Definition no_schema : store :=
  Connected {| states := None; districts := None; blocks := None;
               groundwater_assessment := None |}.

End Sample.

(* ------------------------------------------------------------------ *)
(** ** Vocabulary of the statements *)

(** The pattern table read row by row: every pattern with its intent, in
    the order the two nested loops of [classify_intent] reach it. *)
Definition flatten (table0 : list (string * list (Re.regex * string)))
  : list (string * Re.regex) :=
  flat_map (fun ip => map (fun p => (fst ip, fst p)) (snd ip)) table0.

Definition flat_patterns : list (string * Re.regex) := flatten intent_patterns.

(** The intents of the specification *)
Definition enumerated_intents : list string :=
  [ "groundwater_status"; "critical_areas"; "safe_areas"; "water_level";
    "historical"; "recharge"; "extraction"; "comparison"; "help"; "general" ].

(** The reference catalog cannot be read: no connection, or one of the
    three name tables is missing. *)
Definition catalog_unavailable {N : Numeric} (st : store) : Prop :=
  match st with
  | Unreachable => True
  | Connected db => states db = None \/ districts db = None \/ blocks db = None
  end.



Definition option_list {A : Type} (x : option A) : list A :=
  match x with
  | Some a => [a]
  | None => []
  end.

(** The text from position [i] on, and the character before position [i] *)
Fixpoint drop (i : nat) (text : string) : string :=
  match i, text with
  | O, _ => text
  | S _, EmptyString => EmptyString
  | S j, String _ text' => drop j text'
  end.

Definition char_before (text : string) (i : nat) : option ascii :=
  match i with
  | O => None
  | S j => String.get j text
  end.

(** The year that [\b(20\d{2})\b] matches at position [i] of [text] *)
Definition year_at (text : string) (i : nat) : option string :=
  year_here (char_before text i) (drop i text).

(** The matches of [\b(20\d{2})\b] at every position of [text], one
    position after the other, [prev] being the character before [text]. *)
Fixpoint years_from (prev : option ascii) (text : string) : list string :=
  match text with
  | EmptyString => []
  | String c text' => option_list (year_here prev text) ++ years_from (Some c) text'
  end.

(** The first [k] characters of [text] are word characters. *)
Fixpoint word_run (k : nat) (text : string) : bool :=
  match k, text with
  | O, _ => true
  | S _, EmptyString => true
  | S k', String c text' => Re.cls_w c && word_run k' text'
  end.

(** Every position of [text], in order, where [\b(20\d{2})\b] matches *)
Definition years_everywhere (text : string) : list string :=
  flat_map (fun i => option_list (year_at text i)) (seq 0 (String.length text)).

(** As the specification words the year rule — "all 4-digit substrings
    matching 20\d\d", no word boundary: the substring at position [i]. *)
Definition substring_20dd_at (text : string) (i : nat) : option string :=
  match drop i text with
  | String c1 (String c2 (String c3 (String c4 _))) =>
      if Ascii.eqb c1 "2"%char && Ascii.eqb c2 "0"%char && Re.cls_d c3 && Re.cls_d c4
      then Some (String c1 (String c2 (String c3 (String c4 ""))))
      else None
  | _ => None
  end.

(** A letter, a digit or an underscore stands at position [i] of [text]. *)
Definition word_char_at (text : string) (i : nat) : bool :=
  match String.get i text with
  | Some c => Re.cls_w c
  | None => false
  end.

(** The four characters at position [i] touch a word character: the
    character before them or the character after them is a letter, a digit
    or an underscore. *)
Definition touches_word (text : string) (i : nat) : bool :=
  match i with
  | O => false
  | S j => word_char_at text j
  end
  || word_char_at text (i + 4).

(** As the amended year rule words it: the substrings [20dd] of [text]
    that touch no word character, position after position. *)
Definition years_between_boundaries (text : string) : list string :=
  flat_map (fun i => if touches_word text i then []
                     else option_list (substring_20dd_at text i))
           (seq 0 (String.length text)).

(** The shape [20dd] *)
Definition is_20dd (y : string) : Prop :=
  exists c3 c4, y = String "2" (String "0" (String c3 (String c4 "")))
                /\ Re.cls_d c3 = true /\ Re.cls_d c4 = true.

(** A pattern matches anywhere in a text: some substring of the text is in
    the language of the pattern. *)
Definition matches_anywhere (pattern : Re.regex) (text : string) : Prop :=
  exists pre mid post,
    list_ascii_of_string text = pre ++ mid ++ post /\ Re.Matches pattern mid.

(** The longest prefix of [l] whose elements pass [f] *)
Fixpoint take_while {A : Type} (f : A -> bool) (l : list A) : list A :=
  match l with
  | [] => []
  | x :: l' => if f x then x :: take_while f l' else []
  end.

(** A district name without a word: [d.split()] is empty *)
Definition blank (d0 : string) : bool :=
  match Py.split d0 with
  | [] => true
  | _ :: _ => false
  end.

(** The key that tells the shapes of [_get_response_data]'s dicts apart *)
Definition response_key {N : Numeric} (r : response) : string :=
  match r with
  | Groundwater_status _ _ _ => "blocks"
  | Critical_areas _ => "critical_areas"
  | Safe_areas _ => "safe_areas"
  | Water_levels _ _ => "water_levels"
  | Average_water_levels _ _ => "average_water_levels"
  | Historical_trends _ _ => "historical_trends"
  | Recharge_data _ _ => "recharge_data"
  | National_recharge _ _ _ => "national_recharge"
  | Extraction_data _ _ => "extraction_data"
  | National_extraction _ _ _ => "national_extraction"
  | General_stats _ _ _ _ => "general_stats"
  | Help _ => "help"
  end.

(** The keys a resolution for [intent] can come back with *)
Definition keys_of_intent (intent : string) : list string :=
  if String.eqb intent "groundwater_status" then ["blocks"]
  else if String.eqb intent "critical_areas" then ["critical_areas"]
  else if String.eqb intent "safe_areas" then ["safe_areas"]
  else if String.eqb intent "water_level" then ["water_levels"; "average_water_levels"]
  else if String.eqb intent "historical" then ["historical_trends"]
  else if String.eqb intent "recharge" then ["recharge_data"; "national_recharge"]
  else if String.eqb intent "extraction" then ["extraction_data"; "national_extraction"]
  else if String.eqb intent "help" then ["help"]
  else ["general_stats"].

(** The pattern table without the first pattern of its first intent *)
Definition without_first_pattern
    (table0 : list (string * list (Re.regex * string)))
  : list (string * list (Re.regex * string)) :=
  match table0 with
  | (intent, _ :: patterns) :: rest => (intent, patterns) :: rest
  | _ => table0
  end.

(** The place of a category name in the order of the four checks *)
Definition category_rank (c : string) : nat :=
  if String.eqb c "Safe" then 0
  else if String.eqb c "Critical" then 1
  else if String.eqb c "Semi-Critical" then 2
  else if String.eqb c "Over-Exploited" then 3
  else 4.

(** The [k]-th pattern of the table in reading order *)
Definition pattern_at (k : nat) : Re.regex :=
  match nth_error flat_patterns k with
  | Some (_, p) => p
  | None => Re.Void
  end.

(** The one joined row of [Sample.db_new_town] *)
Module SampleRows.
Import Decimal.

Definition new_town : joined :=
  {| ga := Sample.mk_assessment 1 71 2024 120000 52345 "Safe" 9125 6000;
     b := {| block_id := 71; block_name := "New_Town"; block_district_id := 20 |};
     d := {| district_id := 20; district_name := "New Town"; district_state_id := 1 |};
     s := {| state_id := 1; state_name := "West Bengal" |} |}.

End SampleRows.

(** A table of the join is missing. *)
Definition table_missing {N : Numeric} (db : database) : Prop :=
  groundwater_assessment db = None \/ blocks db = None
  \/ districts db = None \/ states db = None.

(* ------------------------------------------------------------------ *)
(** ** app.py: the response formatter

    The texts of the formatter hold characters outside ASCII; a [str] is
    given here by its UTF-8 encoding.  [str(x)] of a float is an operation
    of a [RealText] structure. *)

Class RealText (N : Numeric) : Type := {
  str_real : real -> string
}.

Module Fmt.

(** [str(n)] of an int *)
Definition str_int (z : Z) : string := NilZero.string_of_int (Z.to_int z).
Definition str_nat (n : nat) : string := NilZero.string_of_uint (Nat.to_uint n).

(** The newline and the double quote *)
Definition nl : string := String "010" "".
Definition quote : string := String "034" "".

Fixpoint concat (parts : list string) : string :=
  match parts with
  | [] => ""
  | p :: parts' => p ++ concat parts'
  end.

End Fmt.

(** The thousandths of [Decimal], written as Python writes a float that
    has at most two decimals: [21740] is "21.74", [6000] is "6.0". *)
#[export] Instance decimal_text : RealText Decimal.numeric :=
  @Build_RealText Decimal.numeric
    (fun x : Z =>
       let h := ((x mod 1000) / 10)%Z in
       (Fmt.str_int (x / 1000) ++ "." ++ Fmt.str_int (h / 10)
        ++ (if (h mod 10 =? 0)%Z then "" else Fmt.str_int (h mod 10)))%string).

Section Formatter.
Context {N : Numeric} {T : RealText N}.

(** The values the data dict holds under its keys *)
Inductive value : Type :=
| VStr (v : string)
| VInt (v : Z)
| VStrings (v : list string)
| VCounts (v : list (string * Z))
| VBlocks (v : list status_record)
| VCritical (v : list critical_record)
| VSafe (v : list safe_record)
| VLevels (v : list level_record)
| VAverageLevels (pre_monsoon post_monsoon : real)
| VTrends (v : list trend_record)
| VRecharge (v : list recharge_record)
| VNationalRecharge (average_annual_recharge average_extractable total_recharge : real)
| VExtraction (v : list extraction_record)
| VNationalExtraction (average_extraction average_stage total_extraction : real)
| VGeneralStats (states_covered districts_covered blocks_covered : nat)
                (average_extraction_stage : real).

(** [data.get(key)]: the keys each resolver puts in its dict *)
Definition dict_get (data : response) (key : string) : option value :=
  match data with
  | Groundwater_status location year blocks0 =>
      if String.eqb key "location" then Some (VStr location)
      else if String.eqb key "year" then Some (VInt year)
      else if String.eqb key "blocks" then Some (VBlocks blocks0)
      else None
  | Critical_areas areas =>
      if String.eqb key "critical_areas" then Some (VCritical areas) else None
  | Safe_areas areas =>
      if String.eqb key "safe_areas" then Some (VSafe areas) else None
  | Water_levels location levels =>
      if String.eqb key "location" then Some (VStr location)
      else if String.eqb key "water_levels" then Some (VLevels levels)
      else None
  | Average_water_levels pre post =>
      if String.eqb key "average_water_levels" then Some (VAverageLevels pre post)
      else None
  | Historical_trends trends location =>
      if String.eqb key "historical_trends" then Some (VTrends trends)
      else if String.eqb key "location" then Some (VStr location)
      else None
  | Recharge_data location items =>
      if String.eqb key "location" then Some (VStr location)
      else if String.eqb key "recharge_data" then Some (VRecharge items)
      else None
  | National_recharge a e t =>
      if String.eqb key "national_recharge" then Some (VNationalRecharge a e t)
      else None
  | Extraction_data location items =>
      if String.eqb key "location" then Some (VStr location)
      else if String.eqb key "extraction_data" then Some (VExtraction items)
      else None
  | National_extraction a st0 t =>
      if String.eqb key "national_extraction" then Some (VNationalExtraction a st0 t)
      else None
  | General_stats sc dc bc av =>
      if String.eqb key "general_stats" then Some (VGeneralStats sc dc bc av)
      else None
  | Help lines =>
      if String.eqb key "help" then Some (VStrings lines) else None
  end.

Definition get_str (data : response) (key default : string) : string :=
  match dict_get data key with Some (VStr v) => v | _ => default end.

Definition get_strings (data : response) (key : string) : list string :=
  match dict_get data key with Some (VStrings v) => v | _ => [] end.

Definition get_counts (data : response) (key : string) : list (string * Z) :=
  match dict_get data key with Some (VCounts v) => v | _ => [] end.

(** [d.get(key, 0)] on a dict of counts *)
Fixpoint count_of (d0 : list (string * Z)) (key : string) : Z :=
  match d0 with
  | [] => 0%Z
  | (k, v) :: d' => if String.eqb k key then v else count_of d' key
  end.

(** "🟢" if Safe, "🟡" if Semi-Critical, else "🔴" *)
Definition status_emoji (category0 : string) : string :=
  if String.eqb category0 "Safe" then "🟢"
  else if String.eqb category0 "Semi-Critical" then "🟡"
  else "🔴".

Definition distribution_emoji (category0 : string) : string :=
  if String.eqb category0 "Safe" then "🟢"
  else if String.eqb category0 "Semi-Critical" then "🟡"
  else if String.eqb category0 "Critical" then "🟠"
  else "🔴".

Definition format_block (block : status_record) : string :=
  status_emoji (sr_category block) ++ " **" ++ sr_block_name block ++ "**" ++ Fmt.nl
  ++ "   • Category: " ++ sr_category block ++ Fmt.nl
  ++ "   • Extraction: " ++ str_real (sr_stage_of_extraction block) ++ "%" ++ Fmt.nl
  ++ "   • Water Level: " ++ str_real (sr_water_level block) ++ "m below ground" ++ Fmt.nl
  ++ "   • Annual Recharge: " ++ str_real (sr_annual_recharge block) ++ " MCM"
  ++ Fmt.nl ++ Fmt.nl.

Definition format_critical (area : critical_record) : string :=
  "🔴 **" ++ cr_block area ++ "**, " ++ cr_district area ++ ", " ++ cr_state area ++ Fmt.nl
  ++ "   • Status: " ++ cr_category area ++ Fmt.nl
  ++ "   • Extraction: " ++ str_real (cr_extraction_percentage area) ++ "%"
  ++ Fmt.nl ++ Fmt.nl.

Definition format_safe (area : safe_record) : string :=
  "🟢 **" ++ sf_block area ++ "**, " ++ sf_district area ++ ", " ++ sf_state area ++ Fmt.nl
  ++ "   • Extraction: " ++ str_real (sf_extraction_percentage area) ++ "%" ++ Fmt.nl
  ++ "   • Annual Recharge: " ++ str_real (sf_annual_recharge area) ++ " MCM"
  ++ Fmt.nl ++ Fmt.nl.

Definition format_level (level : level_record) : string :=
  "📍 **" ++ lv_block level ++ "**" ++ Fmt.nl
  ++ "   • Pre-monsoon: " ++ str_real (lv_pre_monsoon level) ++ "m" ++ Fmt.nl
  ++ "   • Post-monsoon: " ++ str_real (lv_post_monsoon level) ++ "m"
  ++ Fmt.nl ++ Fmt.nl.

Definition format_trend (trend : trend_record) : string :=
  "**Year " ++ Fmt.str_int (tr_year trend) ++ "**" ++ Fmt.nl
  ++ "   • Avg Extraction: " ++ str_real (tr_avg_extraction trend) ++ "%" ++ Fmt.nl
  ++ "   • Avg Water Level: " ++ str_real (tr_avg_water_level trend) ++ "m" ++ Fmt.nl
  ++ "   • Blocks Assessed: " ++ Fmt.str_nat (tr_blocks_assessed trend)
  ++ Fmt.nl ++ Fmt.nl.

Definition format_recharge (item : recharge_record) : string :=
  "📍 **" ++ rc_block item ++ "**" ++ Fmt.nl
  ++ "   • Annual Recharge: " ++ str_real (rc_annual_recharge item) ++ " MCM" ++ Fmt.nl
  ++ "   • Extractable: " ++ str_real (rc_extractable_resources item) ++ " MCM"
  ++ Fmt.nl ++ Fmt.nl.

Definition format_extraction (item : extraction_record) : string :=
  status_emoji (ex_category item) ++ " **" ++ ex_block item ++ "**" ++ Fmt.nl
  ++ "   • Total Extraction: " ++ str_real (ex_total_extraction item) ++ " MCM" ++ Fmt.nl
  ++ "   • Stage: " ++ str_real (ex_extraction_stage item) ++ "%" ++ Fmt.nl
  ++ "   • Category: " ++ ex_category item ++ Fmt.nl ++ Fmt.nl.

(** A heading followed by one paragraph per item, or the other text when
    there is no item *)
Definition listing {A : Type} (items : list A) (heading : string)
    (shown : nat) (format : A -> string) (nothing : string) : string :=
  match items with
  | [] => nothing
  | _ :: _ => heading ++ Fmt.concat (map format (firstn shown items))
  end.

Definition format_response (intent : string) (data : response) : string :=
  if String.eqb intent "groundwater_status" then
    let location := get_str data "location" "Unknown" in
    let year := match dict_get data "year" with Some (VInt y) => y | _ => 2024%Z end in
    let blocks0 := match dict_get data "blocks" with Some (VBlocks l) => l | _ => [] end in
    listing blocks0
      ("📍 **Groundwater Status for " ++ location ++ " (" ++ Fmt.str_int year ++ ")**"
       ++ Fmt.nl ++ Fmt.nl)
      5 format_block
      ("No data found for " ++ location ++ ". Please try another location.")
  else if String.eqb intent "critical_areas" then
    let areas := match dict_get data "critical_areas" with
                 | Some (VCritical l) => l | _ => [] end in
    listing areas ("🚨 **Critical and Over-Exploited Areas**" ++ Fmt.nl ++ Fmt.nl)
      10 format_critical "No critical areas found in the current assessment."
  else if String.eqb intent "safe_areas" then
    let areas := match dict_get data "safe_areas" with
                 | Some (VSafe l) => l | _ => [] end in
    listing areas ("✅ **Safe Groundwater Areas**" ++ Fmt.nl ++ Fmt.nl)
      10 format_safe "No safe areas data available."
  else if String.eqb intent "water_level" then
    match dict_get data "location" with
    | Some _ =>
        let location := get_str data "location" "Unknown" in
        let levels := match dict_get data "water_levels" with
                      | Some (VLevels l) => l | _ => [] end in
        listing levels ("💧 **Water Levels in " ++ location ++ "**" ++ Fmt.nl ++ Fmt.nl)
          5 format_level ("No water level data found for " ++ location ++ ".")
    | None =>
        let '(pre, post) :=
          match dict_get data "average_water_levels" with
          | Some (VAverageLevels pre post) => (str_real pre, str_real post)
          | _ => ("N/A", "N/A")
          end in
        "💧 **National Average Water Levels (2024)**" ++ Fmt.nl ++ Fmt.nl
        ++ "• Pre-monsoon: " ++ pre ++ "m" ++ Fmt.nl
        ++ "• Post-monsoon: " ++ post ++ "m" ++ Fmt.nl
    end
  else if String.eqb intent "historical" then
    let location := get_str data "location" "All India" in
    let trends := match dict_get data "historical_trends" with
                  | Some (VTrends l) => l | _ => [] end in
    listing trends ("📊 **Historical Trends for " ++ location ++ "**" ++ Fmt.nl ++ Fmt.nl)
      (length trends) format_trend "No historical data available."
  else if String.eqb intent "recharge" then
    match dict_get data "location" with
    | Some _ =>
        let location := get_str data "location" "Unknown" in
        let recharge_data := match dict_get data "recharge_data" with
                             | Some (VRecharge l) => l | _ => [] end in
        listing recharge_data
          ("♻️ **Groundwater Recharge in " ++ location ++ "**" ++ Fmt.nl ++ Fmt.nl)
          5 format_recharge ("No recharge data found for " ++ location ++ ".")
    | None =>
        let '(a, e, t) :=
          match dict_get data "national_recharge" with
          | Some (VNationalRecharge a e t) => (str_real a, str_real e, str_real t)
          | _ => ("N/A", "N/A", "N/A")
          end in
        "♻️ **National Groundwater Recharge Statistics**" ++ Fmt.nl ++ Fmt.nl
        ++ "• Average Annual Recharge: " ++ a ++ " MCM" ++ Fmt.nl
        ++ "• Average Extractable: " ++ e ++ " MCM" ++ Fmt.nl
        ++ "• Total Recharge: " ++ t ++ " MCM" ++ Fmt.nl
    end
  else if String.eqb intent "extraction" then
    match dict_get data "location" with
    | Some _ =>
        let location := get_str data "location" "Unknown" in
        let extraction_data := match dict_get data "extraction_data" with
                               | Some (VExtraction l) => l | _ => [] end in
        listing extraction_data
          ("⛏️ **Groundwater Extraction in " ++ location ++ "**" ++ Fmt.nl ++ Fmt.nl)
          5 format_extraction ("No extraction data found for " ++ location ++ ".")
    | None =>
        let '(a, s0, t) :=
          match dict_get data "national_extraction" with
          | Some (VNationalExtraction a s0 t) => (str_real a, str_real s0, str_real t)
          | _ => ("N/A", "N/A", "N/A")
          end in
        "⛏️ **National Groundwater Extraction Statistics**" ++ Fmt.nl ++ Fmt.nl
        ++ "• Average Extraction: " ++ a ++ " MCM" ++ Fmt.nl
        ++ "• Average Stage: " ++ s0 ++ "%" ++ Fmt.nl
        ++ "• Total Extraction: " ++ t ++ " MCM" ++ Fmt.nl
    end
  else if String.eqb intent "help" then
    let capabilities := get_strings data "capabilities" in
    let samples := get_strings data "sample_queries" in
    "🤖 **INGRES ChatBot - How Can I Help?**" ++ Fmt.nl ++ Fmt.nl
    ++ "**I can help you with:**" ++ Fmt.nl
    ++ Fmt.concat (map (fun cap => ("• " ++ cap ++ Fmt.nl)%string) capabilities)
    ++ Fmt.nl ++ "**Try asking me:**" ++ Fmt.nl
    ++ Fmt.concat (map (fun sample =>
                         ("• " ++ Fmt.quote ++ sample ++ Fmt.quote ++ Fmt.nl)%string)
                       (firstn 5 samples))
  else
    let coverage := get_counts data "coverage" in
    let distribution := get_counts data "category_distribution" in
    "📊 **INGRES Database Overview**" ++ Fmt.nl ++ Fmt.nl
    ++ "**Coverage:**" ++ Fmt.nl
    ++ "• States: " ++ Fmt.str_int (count_of coverage "states") ++ Fmt.nl
    ++ "• Districts: " ++ Fmt.str_int (count_of coverage "districts") ++ Fmt.nl
    ++ "• Blocks: " ++ Fmt.str_int (count_of coverage "blocks") ++ Fmt.nl ++ Fmt.nl
    ++ "**2024 Assessment Distribution:**" ++ Fmt.nl
    ++ Fmt.concat (map (fun cc => (distribution_emoji (fst cc) ++ " " ++ fst cc ++ ": "
                                   ++ Fmt.str_int (snd cc) ++ " blocks" ++ Fmt.nl)%string)
                       distribution).

End Formatter.

(* ------------------------------------------------------------------ *)
(** ** app.py: the routes

    A request to [/api/chat] is taken with a JSON object for body, whose
    [message], when present, is a string; [now] is what
    [datetime.now().isoformat()] gives while the request is served.  The
    processor and its store are those of the running application. *)

Section Routes.
Context {N : Numeric} {T : RealText N}.

(** An entry of [chat_history] *)
Record chat_entry : Type := {
  timestamp : string;
  user_message : string;
  bot_response : string;
  entry_intent : string;
  entry_entities : entities
}.

Inductive request : Type :=
| PostChat (message : option string) (now : string)
| GetHistory
| PostClear
| GetHealth
| GetStats
| GetHome.

(** What a route returns: the JSON payload and the status *)
Inductive reply : Type :=
| ChatOk (response intent : string) (e : entities) (timestamp0 : string)  (* 200 *)
| NoMessage                        (* {'error': 'No message provided'}, 400 *)
| ServerError (e : exn)            (* {'error': str(e)}, 500 *)
| History (history : list chat_entry)
| Cleared                          (* {'message': 'Chat history cleared'} *)
| Healthy
| Stats (data : response)
| Home.

Variable o : SetOrder.
Variable st : store.

Definition chat (message : option string) (now : string)
    (chat_history : list chat_entry) : reply * list chat_entry :=
  let user_message0 := match message with Some m => m | None => "" end in
  if String.eqb user_message0 "" then (NoMessage, chat_history)
  else
    match process_query o st user_message0 with
    | Raise e => (ServerError e, chat_history)
    | Ok query_result =>
        let bot_response0 :=
          format_response (res_intent query_result) (res_data query_result) in
        let entry := {| timestamp := now;
                        user_message := user_message0;
                        bot_response := bot_response0;
                        entry_intent := res_intent query_result;
                        entry_entities := res_entities query_result |} in
        (ChatOk bot_response0 (res_intent query_result) (res_entities query_result) now,
         chat_history ++ [entry])
    end.

(** [chat_history[-50:]] *)
Definition last_50 (chat_history : list chat_entry) : list chat_entry :=
  skipn (length chat_history - 50) chat_history.

Definition get_history (chat_history : list chat_entry) : reply :=
  History (last_50 chat_history).

Definition clear_history (chat_history : list chat_entry) : reply * list chat_entry :=
  (Cleared, []).

Definition get_stats : reply :=
  match process_query o st "show me statistics" with
  | Ok result0 => Stats (res_data result0)
  | Raise e => ServerError e
  end.

(** One request served: the reply and the history after it *)
Definition serve (chat_history : list chat_entry) (r : request)
  : reply * list chat_entry :=
  match r with
  | PostChat message now => chat message now chat_history
  | GetHistory => (get_history chat_history, chat_history)
  | PostClear => clear_history chat_history
  | GetHealth => (Healthy, chat_history)
  | GetStats => (get_stats, chat_history)
  | GetHome => (Home, chat_history)
  end.

(** The history after a sequence of requests *)
Fixpoint serve_all (chat_history : list chat_entry) (rs : list request)
  : list chat_entry :=
  match rs with
  | [] => chat_history
  | r :: rs' => serve_all (snd (serve chat_history r)) rs'
  end.

Definition is_chat (r : request) : bool :=
  match r with
  | PostChat _ _ => true
  | _ => false
  end.

Definition is_clear (r : request) : bool :=
  match r with
  | PostClear => true
  | _ => false
  end.

(** An entry records a chat that succeeded. *)
Definition recorded (entry : chat_entry) : Prop :=
  user_message entry <> ""
  /\ exists query_result,
       process_query o st (user_message entry) = Ok query_result
       /\ res_query query_result = user_message entry
       /\ entry_intent entry = res_intent query_result
       /\ entry_entities entry = res_entities query_result
       /\ bot_response entry
          = format_response (res_intent query_result) (res_data query_result).

End Routes.

(** The two texts that do not depend on the data *)
Definition help_text : string :=
  "🤖 **INGRES ChatBot - How Can I Help?**" ++ Fmt.nl ++ Fmt.nl
  ++ "**I can help you with:**" ++ Fmt.nl
  ++ Fmt.nl ++ "**Try asking me:**" ++ Fmt.nl.

Definition overview_text : string :=
  "📊 **INGRES Database Overview**" ++ Fmt.nl ++ Fmt.nl
  ++ "**Coverage:**" ++ Fmt.nl
  ++ "• States: 0" ++ Fmt.nl
  ++ "• Districts: 0" ++ Fmt.nl
  ++ "• Blocks: 0" ++ Fmt.nl ++ Fmt.nl
  ++ "**2024 Assessment Distribution:**" ++ Fmt.nl.

(** How many items of a listing the formatter shows, by the key *)
Definition shown_items (key : string) : nat :=
  if String.eqb key "critical_areas" then 10
  else if String.eqb key "safe_areas" then 10
  else 5.

(* ================================================================== *)
(** * Properties *)

Unset Implicit Arguments.

(** ** The matcher decides the language of a pattern *)

Module ReFacts.
Import Re.

Lemma void_inv w : Matches Void w -> False.
Proof. intro H; inversion H. Qed.

Lemma eps_inv w : Matches Eps w -> w = [].
Proof. intro H; inversion H; reflexivity. Qed.

Lemma chr_inv p w : Matches (Chr p) w -> exists c, w = [c] /\ p c = true.
Proof. intro H; inversion H; subst; eauto. Qed.

Lemma seq_inv a b w :
  Matches (Seq a b) w -> exists u v, w = u ++ v /\ Matches a u /\ Matches b v.
Proof. intro H; inversion H; subst; eauto. Qed.

Lemma alt_inv a b w : Matches (Alt a b) w -> Matches a w \/ Matches b w.
Proof. intro H; inversion H; subst; auto. Qed.

Lemma seq_nil_l a b w : Matches a [] -> Matches b w -> Matches (Seq a b) w.
Proof. intros Ha Hb. change w with ([] ++ w). constructor; assumption. Qed.

Lemma seq_cons a b c u v :
  Matches a (c :: u) -> Matches b v -> Matches (Seq a b) (c :: u ++ v).
Proof.
  intros Ha Hb. change (c :: u ++ v) with ((c :: u) ++ v). constructor; assumption.
Qed.

Lemma nullable_spec r : nullable r = true <-> Matches r [].
Proof.
  induction r; simpl.
  - split; [discriminate | intro H; destruct (void_inv _ H)].
  - split; [constructor | reflexivity].
  - split; [discriminate|].
    intro H. apply chr_inv in H as (c & Hc & _). discriminate.
  - rewrite andb_true_iff, IHr1, IHr2. split.
    + intros [Ha Hb]. apply seq_nil_l; assumption.
    + intro H. apply seq_inv in H as (u & v & Huv & Hu & Hv).
      symmetry in Huv. apply app_eq_nil in Huv as [-> ->]. auto.
  - rewrite orb_true_iff, IHr1, IHr2. split.
    + intros [Ha | Hb]; [apply MAltL | apply MAltR]; assumption.
    + apply alt_inv.
  - split; [constructor | reflexivity].
Qed.

Lemma mkSeq_spec a b w : Matches (mkSeq a b) w <-> Matches (Seq a b) w.
Proof.
  split; intro H.
  - destruct a, b; simpl in H;
      try assumption;
      try solve [destruct (void_inv _ H)];
      try solve [apply seq_nil_l; [constructor | assumption]].
  - apply seq_inv in H as (u & v & -> & Hu & Hv).
    destruct a; try solve [destruct (void_inv _ Hu)];
      destruct b; try solve [destruct (void_inv _ Hv)]; simpl;
      try (apply eps_inv in Hu; subst u; simpl; assumption);
      constructor; assumption.
Qed.

Lemma mkAlt_spec a b w : Matches (mkAlt a b) w <-> Matches (Alt a b) w.
Proof.
  split; intro H.
  - destruct a, b; simpl in H;
      try assumption;
      try solve [apply MAltR; assumption];
      try solve [apply MAltL; assumption].
  - apply alt_inv in H as [H | H].
    + destruct a; try solve [destruct (void_inv _ H)]; destruct b; simpl;
        try assumption; apply MAltL; assumption.
    + destruct b; try solve [destruct (void_inv _ H)]; destruct a; simpl;
        try assumption; apply MAltR; assumption.
Qed.

Lemma star_cons a c w :
  Matches (Star a) (c :: w) ->
  exists u v, w = u ++ v /\ Matches a (c :: u) /\ Matches (Star a) v.
Proof.
  intro H. remember (Star a) as r eqn:Hr. remember (c :: w) as cw eqn:Hw.
  revert w Hw.
  induction H as [| | | | | |a' u v Hu _ Hv IH]; try discriminate.
  injection Hr as ->. intros w Hw.
  destruct u as [|c' u'].
  - simpl in Hw. apply IH; auto.
  - simpl in Hw. injection Hw as -> <-.
    exists u', v. auto.
Qed.

Lemma deriv_spec c r : forall w, Matches (deriv c r) w <-> Matches r (c :: w).
Proof.
  induction r; intro w; simpl.
  - split; intro H; destruct (void_inv _ H).
  - split; intro H; [destruct (void_inv _ H) | apply eps_inv in H; discriminate].
  - destruct (p c) eqn:Hp; split; intro H.
    + apply eps_inv in H. subst w. constructor. assumption.
    + apply chr_inv in H as (c' & Hc & _). injection Hc as -> ->. constructor.
    + destruct (void_inv _ H).
    + apply chr_inv in H as (c' & Hc & Hp'). injection Hc as -> ->. congruence.
  - destruct (nullable r1) eqn:Hn.
    + rewrite mkAlt_spec. split; intro H.
      * apply alt_inv in H as [H | H].
        -- apply mkSeq_spec, seq_inv in H as (u & v & -> & Hu & Hv).
           apply seq_cons; [apply IHr1|]; assumption.
        -- apply seq_nil_l; [apply nullable_spec, Hn | apply IHr2, H].
      * apply seq_inv in H as (u & v & Huv & Hu & Hv).
        destruct u as [|c' u'].
        -- simpl in Huv. subst v. apply MAltR, IHr2, Hv.
        -- simpl in Huv. injection Huv as <- ->.
           apply MAltL, mkSeq_spec. constructor; [apply IHr1|]; assumption.
    + rewrite mkSeq_spec. split; intro H.
      * apply seq_inv in H as (u & v & -> & Hu & Hv).
        apply seq_cons; [apply IHr1|]; assumption.
      * apply seq_inv in H as (u & v & Huv & Hu & Hv).
        destruct u as [|c' u'].
        -- apply nullable_spec in Hu. congruence.
        -- simpl in Huv. injection Huv as <- ->.
           constructor; [apply IHr1|]; assumption.
  - rewrite mkAlt_spec. split; intro H; apply alt_inv in H as [H | H].
    + apply MAltL, IHr1; assumption.
    + apply MAltR, IHr2; assumption.
    + apply MAltL, IHr1; assumption.
    + apply MAltR, IHr2; assumption.
  - rewrite mkSeq_spec. split; intro H.
    + apply seq_inv in H as (u & v & -> & Hu & Hv).
      change (c :: u ++ v) with ((c :: u) ++ v).
      apply MStarS; [apply IHr|]; assumption.
    + apply star_cons in H as (u & v & -> & Hu & Hv).
      constructor; [apply IHr|]; assumption.
Qed.

Lemma match_prefix_spec w : forall r,
  match_prefix r w = true <-> exists u v, w = u ++ v /\ Matches r u.
Proof.
  induction w as [|c w IH]; intro r; simpl.
  - rewrite orb_false_r, nullable_spec. split.
    + intro H. exists [], []. auto.
    + intros (u & v & Huv & Hu). symmetry in Huv.
      apply app_eq_nil in Huv as [-> _]. assumption.
  - rewrite orb_true_iff, nullable_spec, IH. split.
    + intros [H | (u & v & -> & Hu)].
      * exists [], (c :: w). auto.
      * exists (c :: u), v. split; [reflexivity | apply deriv_spec, Hu].
    + intros (u & v & Huv & Hu). destruct u as [|c' u'].
      * left. assumption.
      * simpl in Huv. injection Huv as <- ->.
        right. exists u', v. split; [reflexivity | apply deriv_spec, Hu].
Qed.

(** [search] finds a match exactly when some substring of the text is in
    the language of the pattern. *)
Lemma search_list_spec r w :
  search_list r w = true <->
  exists pre mid post, w = pre ++ mid ++ post /\ Matches r mid.
Proof.
  induction w as [|c w IH]; cbn [search_list].
  - rewrite orb_false_r, match_prefix_spec. split.
    + intros (u & v & Heq & Hm). exists [], u, v. auto.
    + intros (pre & mid & post & Heq & Hm). symmetry in Heq.
      apply app_eq_nil in Heq as [_ Heq]. apply app_eq_nil in Heq as [-> _].
      exists [], []. auto.
  - rewrite orb_true_iff, IH, match_prefix_spec. split.
    + intros [(u & v & Heq & Hu) | (pre & mid & post & -> & Hm)].
      * exists [], u, v. auto.
      * exists (c :: pre), mid, post. auto.
    + intros (pre & mid & post & Heq & Hm). destruct pre as [|c' pre'].
      * left. exists mid, post. auto.
      * simpl in Heq. injection Heq as <- ->.
        right. exists pre', mid, post. auto.
Qed.

End ReFacts.

Lemma search_spec pattern text :
  Re.search pattern text = true <-> matches_anywhere pattern text.
Proof. apply ReFacts.search_list_spec. Qed.

Lemma search_false pattern text :
  Re.search pattern text = false <-> ~ matches_anywhere pattern text.
Proof.
  rewrite <- search_spec. destruct (Re.search pattern text); split; intro H.
  - discriminate.
  - exfalso. apply H. reflexivity.
  - discriminate.
  - reflexivity.
Qed.

(* ------------------------------------------------------------------ *)
(** ** Intent classification *)

Section Classification.

Variable text : string.

Lemma first_matching_none patterns :
  first_matching patterns text = None ->
  forall q, In q patterns -> Re.search (fst q) text = false.
Proof.
  induction patterns as [|[p t] rest IH]; simpl; intros H q Hq.
  - contradiction.
  - destruct (Re.search p text) eqn:Hp; [discriminate|].
    destruct Hq as [<- | Hq]; [exact Hp | apply IH; assumption].
Qed.

Lemma first_matching_some patterns p t :
  first_matching patterns text = Some (p, t) ->
  exists k, nth_error patterns k = Some (p, t)
            /\ Re.search p text = true
            /\ forall j q, (j < k)%nat -> nth_error patterns j = Some q ->
                           Re.search (fst q) text = false.
Proof.
  induction patterns as [|[p0 t0] rest IH]; simpl; intro H.
  - discriminate.
  - destruct (Re.search p0 text) eqn:Hp.
    + injection H as -> ->. exists 0%nat. repeat split; auto.
      intros j q Hj. lia.
    + destruct (IH H) as (k & Hk & Hs & Hbefore).
      exists (S k). repeat split; auto.
      intros [|j] q Hj Hq; simpl in Hq.
      * injection Hq as <-. exact Hp.
      * apply (Hbefore j); [lia | assumption].
Qed.

Lemma classify_loop_none table0 :
  classify_loop table0 text = None ->
  forall q, In q (flatten table0) -> Re.search (snd q) text = false.
Proof.
  induction table0 as [|[i ps] rest IH]; simpl; intros H q Hq.
  - contradiction.
  - destruct (first_matching ps text) eqn:Hfm; [discriminate|].
    apply in_app_or in Hq as [Hq | Hq].
    + apply in_map_iff in Hq as (p & <- & Hp). simpl.
      apply (first_matching_none _ Hfm p Hp).
    + apply IH; assumption.
Qed.

Lemma classify_loop_some table0 i p t :
  classify_loop table0 text = Some (i, (p, t)) ->
  exists k, nth_error (flatten table0) k = Some (i, p)
            /\ Re.search p text = true
            /\ forall j q, (j < k)%nat -> nth_error (flatten table0) j = Some q ->
                           Re.search (snd q) text = false.
Proof.
  induction table0 as [|[i0 ps] rest IH]; simpl; intro H.
  - discriminate.
  - destruct (first_matching ps text) as [[p0 t0]|] eqn:Hfm.
    + injection H as -> -> ->.
      destruct (first_matching_some _ _ _ Hfm) as (k & Hk & Hs & Hbefore).
      assert (Hlen : (k < length ps)%nat) by (apply nth_error_Some; congruence).
      exists k. repeat split; auto.
      * rewrite nth_error_app1 by (rewrite length_map; assumption).
        rewrite nth_error_map, Hk. reflexivity.
      * intros j q Hj Hq.
        rewrite nth_error_app1 in Hq by (rewrite length_map; lia).
        rewrite nth_error_map in Hq.
        destruct (nth_error ps j) as [q0|] eqn:Hq0; [|discriminate].
        injection Hq as <-. simpl. apply (Hbefore j q0); assumption.
    + destruct (IH H) as (k & Hk & Hs & Hbefore).
      exists (length ps + k)%nat. repeat split; auto.
      * rewrite nth_error_app2 by (rewrite length_map; lia).
        rewrite length_map. replace (length ps + k - length ps)%nat with k by lia.
        assumption.
      * intros j q Hj Hq.
        destruct (Nat.lt_ge_cases j (length ps)) as [Hlt | Hge].
        -- rewrite nth_error_app1 in Hq by (rewrite length_map; assumption).
           rewrite nth_error_map in Hq.
           destruct (nth_error ps j) as [q0|] eqn:Hq0; [|discriminate].
           injection Hq as <-. simpl.
           apply (first_matching_none _ Hfm q0). eapply nth_error_In; eassumption.
        -- rewrite nth_error_app2 in Hq by (rewrite length_map; assumption).
           rewrite length_map in Hq.
           apply (Hbefore (j - length ps)%nat); [lia | assumption].
Qed.

End Classification.

(** C1.  Classification is first-match over the pattern table.  The
    intents are tried in the order groundwater_status, critical_areas,
    safe_areas, water_level, historical, recharge, extraction, comparison,
    help, and the patterns of an intent in list order: the intent returned
    is that of the first pattern, in this reading order, that matches
    anywhere in the lower-cased query; when no pattern of the table matches,
    it is [general]. *)
Theorem classify_intent_first_match {N : Numeric} (o : SetOrder) (st : store)
    (query : string) :
  map fst intent_patterns =
    [ "groundwater_status"; "critical_areas"; "safe_areas"; "water_level";
      "historical"; "recharge"; "extraction"; "comparison"; "help" ]
  /\ ((exists k pattern,
          nth_error flat_patterns k
            = Some (fst (classify_intent o st query), pattern)
          /\ matches_anywhere pattern (Py.lower query)
          /\ forall j intent' pattern',
               (j < k)%nat ->
               nth_error flat_patterns j = Some (intent', pattern') ->
               ~ matches_anywhere pattern' (Py.lower query))
      \/ (fst (classify_intent o st query) = "general"
          /\ forall intent' pattern',
               In (intent', pattern') flat_patterns ->
               ~ matches_anywhere pattern' (Py.lower query))).
Proof.
  split; [reflexivity|].
  unfold classify_intent.
  destruct (classify_loop intent_patterns (Py.lower query))
    as [[intent [p t]]|] eqn:Hloop.
  - left. destruct (classify_loop_some _ _ _ _ _ Hloop) as (k & Hk & Hs & Hbefore).
    exists k, p. simpl. repeat split.
    + exact Hk.
    + apply search_spec, Hs.
    + intros j i' p' Hj Hq. apply search_false.
      apply (Hbefore j (i', p') Hj Hq).
  - right. simpl. split; [reflexivity|].
    intros i' p' Hin. apply search_false.
    apply (classify_loop_none _ _ Hloop (i', p') Hin).
Qed.

(* ------------------------------------------------------------------ *)
(** ** Dispatch of the resolver *)

Lemma fallback_branch (intent : string) :
  intent = "comparison" \/ ~ In intent enumerated_intents ->
  String.eqb intent "groundwater_status" = false
  /\ String.eqb intent "critical_areas" = false
  /\ String.eqb intent "safe_areas" = false
  /\ String.eqb intent "water_level" = false
  /\ String.eqb intent "historical" = false
  /\ String.eqb intent "recharge" = false
  /\ String.eqb intent "extraction" = false
  /\ String.eqb intent "help" = false.
Proof.
  intros [-> | Hout].
  - repeat split; reflexivity.
  - repeat split; apply String.eqb_neq; intros ->; apply Hout; simpl; tauto.
Qed.

Lemma general_stats_ok {N : Numeric} (db : database) (rows : list joined) :
  JOIN db = Ok rows ->
  filter (year_is 2024) rows <> [] ->
  _get_general_stats db =
    Ok (General_stats
          (Sqlite.COUNT_DISTINCT
             (map (fun r => state_id (s r)) (filter (year_is 2024) rows)))
          (Sqlite.COUNT_DISTINCT
             (map (fun r => district_id (d r)) (filter (year_is 2024) rows)))
          (Sqlite.COUNT_DISTINCT
             (map (fun r => block_id (b r)) (filter (year_is 2024) rows)))
          (round2 (avg (map (fun r => stage_of_extraction (ga r))
                            (filter (year_is 2024) rows))))).
Proof.
  intros Hjoin Hne. unfold _get_general_stats. rewrite Hjoin. simpl.
  destruct (filter (year_is 2024) rows) as [|r0 rest]; [contradiction|].
  reflexivity.
Qed.

(** C2.  The resolver has an explicit last branch: for the intent
    [comparison], and for any intent outside the enumeration, resolution
    does exactly what it does for [general], which is to run
    [_get_general_stats] on the opened store; on a store whose join has a
    row of year 2024 this is the [general_stats] record of that year. *)
Theorem resolve_fallback_general {N : Numeric} (st : store) (intent : string)
    (e : entities) :
  intent = "comparison" \/ ~ In intent enumerated_intents ->
  _get_response_data st intent e = _get_response_data st "general" e
  /\ _get_response_data st intent e = (db <- connect st ;; _get_general_stats db)
  /\ forall db rows,
       st = Connected db ->
       JOIN db = Ok rows ->
       filter (year_is 2024) rows <> [] ->
       _get_response_data st intent e =
         Ok (General_stats
               (Sqlite.COUNT_DISTINCT
                  (map (fun r => state_id (s r)) (filter (year_is 2024) rows)))
               (Sqlite.COUNT_DISTINCT
                  (map (fun r => district_id (d r)) (filter (year_is 2024) rows)))
               (Sqlite.COUNT_DISTINCT
                  (map (fun r => block_id (b r)) (filter (year_is 2024) rows)))
               (round2 (avg (map (fun r => stage_of_extraction (ga r))
                                 (filter (year_is 2024) rows))))).
Proof.
  intro H.
  destruct (fallback_branch _ H) as (H1 & H2 & H3 & H4 & H5 & H6 & H7 & H8).
  assert (Hgen : _get_response_data st intent e
                 = (db <- connect st ;; _get_general_stats db)).
  { unfold _get_response_data.
    rewrite H1, H2, H3, H4, H5, H6, H7, H8. reflexivity. }
  repeat split.
  - rewrite Hgen. reflexivity.
  - exact Hgen.
  - intros db rows -> Hjoin Hne. rewrite Hgen. simpl.
    apply general_stats_ok; assumption.
Qed.

Lemma resolve_fallback_general_witness :
  ("comparison" = "comparison" \/ ~ In "comparison" enumerated_intents)
  /\ _get_response_data Sample.st "comparison"
       {| locations := None; years := None; categories := None |}
     = _get_response_data Sample.st "general"
         {| locations := None; years := None; categories := None |}.
Proof.
  assert (H : "comparison" = "comparison" \/ ~ In "comparison" enumerated_intents)
    by (left; reflexivity).
  split; [exact H|].
  apply (resolve_fallback_general Sample.st "comparison"
           {| locations := None; years := None; categories := None |} H).
Defined.

(* ------------------------------------------------------------------ *)
(** ** Entity extraction *)

Lemma iter_nil (o : SetOrder) : iter o [] = [].
Proof.
  apply Permutation_nil, Permutation_sym. exact (iter_perm o []).
Qed.

Lemma catalog_raises {N : Numeric} (st : store) :
  catalog_unavailable st -> catalog st = Raise OperationalError.
Proof.
  destruct st as [|db]; simpl; intro H; [reflexivity|].
  unfold catalog. simpl.
  destruct (states db); simpl; [|reflexivity].
  destruct (districts db); simpl; [|reflexivity].
  destruct (blocks db); simpl; [|reflexivity].
  destruct H as [H | [H | H]]; discriminate.
Qed.

(** C3.  When the reference catalog cannot be read — the store is
    unreachable or one of its name tables is missing — location
    extraction returns the empty list (it returns a list, never an
    exception), and the entities of the query have no [locations] key. *)
Theorem extract_locations_store_error {N : Numeric} (o : SetOrder) (st : store)
    (query intent : string) (re_match : option (Re.regex * string)) :
  catalog_unavailable st ->
  _extract_locations o st query = []
  /\ locations (_extract_entities o st query intent re_match) = None
  /\ locations (snd (classify_intent o st query)) = None.
Proof.
  intro H.
  assert (Hloc : forall q, _extract_locations o st q = []).
  { intro q. unfold _extract_locations. rewrite (catalog_raises st H).
    apply iter_nil. }
  repeat split.
  - apply Hloc.
  - unfold _extract_entities. simpl. rewrite Hloc. reflexivity.
  - unfold classify_intent.
    destruct (classify_loop intent_patterns (Py.lower query)) as [[i m]|];
      simpl; rewrite Hloc; reflexivity.
Qed.

Lemma extract_locations_store_error_witness :
  catalog_unavailable Sample.no_schema
  /\ _extract_locations Sample.insertion_order Sample.no_schema
       "groundwater status in punjab" = [].
Proof.
  assert (H : catalog_unavailable Sample.no_schema) by (simpl; left; reflexivity).
  split; [exact H|].
  apply (extract_locations_store_error Sample.insertion_order Sample.no_schema
           "groundwater status in punjab" "groundwater_status" None H).
Defined.

(** C8.  The four category checks are independent substring tests of the
    lower-cased query, none excluding another; a query with both "semi" and
    "critical" gets both Semi-Critical and Critical; the [categories] key
    is present exactly when a check fires. *)
Theorem extract_categories_independent {N : Numeric} (o : SetOrder) (st : store)
    (query : string) :
  let text := Py.lower query in
  let cats := extract_categories text in
  categories (snd (classify_intent o st query)) = if_nonempty cats
  /\ (In "Safe" cats <-> Py.contains "safe" text = true)
  /\ (In "Critical" cats <-> Py.contains "critical" text = true)
  /\ (In "Semi-Critical" cats <->
        Py.contains "semi" text = true \/ Py.contains "semi-critical" text = true)
  /\ (In "Over-Exploited" cats <->
        Py.contains "over" text = true \/ Py.contains "exploited" text = true)
  /\ (Py.contains "semi" text = true -> Py.contains "critical" text = true ->
        In "Semi-Critical" cats /\ In "Critical" cats)
  /\ (categories (snd (classify_intent o st query)) <> None <->
        Py.contains "safe" text = true \/ Py.contains "critical" text = true
        \/ Py.contains "semi" text = true \/ Py.contains "semi-critical" text = true
        \/ Py.contains "over" text = true \/ Py.contains "exploited" text = true).
Proof.
  intros text cats.
  assert (Hcat : categories (snd (classify_intent o st query)) = if_nonempty cats).
  { unfold classify_intent.
    destruct (classify_loop intent_patterns (Py.lower query)) as [[i m]|];
      reflexivity. }
  rewrite Hcat. subst cats. unfold extract_categories.
  destruct (Py.contains "safe" text), (Py.contains "critical" text),
    (Py.contains "semi" text), (Py.contains "semi-critical" text),
    (Py.contains "over" text), (Py.contains "exploited" text);
    simpl; repeat split; intros;
    repeat match goal with
           | H : _ \/ _ |- _ => destruct H
           | H : False |- _ => destruct H
           end;
    try discriminate; try tauto; try congruence.
Qed.

(* ------------------------------------------------------------------ *)
(** ** LIKE, ORDER BY and LIMIT *)

Module SqliteFacts.
Import Sqlite.

Lemma char_lower_idem c : Py.char_lower (Py.char_lower c) = Py.char_lower c.
Proof. destruct c as [[] [] [] [] [] [] [] []]; reflexivity. Qed.



Lemma like_percent pat x :
  LIKE_pat (String "%" pat) x =
  LIKE_pat pat x ||
  match x with
  | EmptyString => false
  | String _ x' => LIKE_pat (String "%" pat) x'
  end.
Proof. destruct x; reflexivity. Qed.




Lemma insert_perm {A : Type} (le : A -> A -> bool) x l :
  Permutation (insert le x l) (x :: l).
Proof.
  induction l as [|y l IH]; simpl.
  - apply Permutation_refl.
  - destruct (le x y).
    + apply Permutation_refl.
    + apply perm_trans with (y :: x :: l).
      * apply perm_skip, IH.
      * apply perm_swap.
Qed.

Lemma ORDER_BY_perm {A : Type} (le : A -> A -> bool) l :
  Permutation (ORDER_BY le l) l.
Proof.
  induction l as [|x l IH]; simpl.
  - apply perm_nil.
  - apply perm_trans with (x :: ORDER_BY le l).
    + apply insert_perm.
    + apply perm_skip, IH.
Qed.

Section Sorting.
Context {A : Type} (le : A -> A -> bool).
Hypothesis le_total : forall x y, le x y = true \/ le y x = true.
Hypothesis le_trans : forall x y z, le x y = true -> le y z = true -> le x z = true.

Lemma insert_sorted x l :
  StronglySorted (fun a c => le a c = true) l ->
  StronglySorted (fun a c => le a c = true) (insert le x l).
Proof.
  induction 1 as [|y l Hl IH Hy]; simpl.
  - constructor; constructor.
  - destruct (le x y) eqn:Hxy.
    + constructor.
      * constructor; assumption.
      * constructor; [exact Hxy|].
        apply Forall_impl with (P := fun c => le y c = true); [|assumption].
        intros z Hz. apply le_trans with y; assumption.
    + constructor; [exact IH|].
      assert (Hyx : le y x = true).
      { destruct (le_total x y) as [H' | H']; [congruence | exact H']. }
      eapply Permutation_Forall.
      * apply Permutation_sym, insert_perm.
      * constructor; assumption.
Qed.

Lemma ORDER_BY_sorted l : StronglySorted (fun a c => le a c = true) (ORDER_BY le l).
Proof.
  induction l as [|x l IH]; simpl.
  - constructor.
  - apply insert_sorted, IH.
Qed.

End Sorting.

Lemma firstn_In {A : Type} n : forall (l : list A) x, In x (firstn n l) -> In x l.
Proof.
  induction n as [|n IH]; intros [|y l] x H; simpl in *; try contradiction.
  destruct H as [-> | H]; [left; reflexivity | right; apply IH, H].
Qed.

Lemma firstn_sorted {A : Type} (R : A -> A -> Prop) n : forall l,
  StronglySorted R l -> StronglySorted R (firstn n l).
Proof.
  induction n as [|n IH]; intros l Hl; simpl.
  - constructor.
  - destruct Hl as [|x l Hl Hx]; constructor.
    + apply IH, Hl.
    + apply Forall_forall. intros y Hy.
      apply (proj1 (Forall_forall _ _) Hx). apply (firstn_In n), Hy.
Qed.

Lemma map_sorted {A B : Type} (f : A -> B) (R : A -> A -> Prop) (Q : B -> B -> Prop) l :
  (forall x y, R x y -> Q (f x) (f y)) ->
  StronglySorted R l -> StronglySorted Q (map f l).
Proof.
  intros Hf. induction 1 as [|x l Hl IH Hx]; simpl; constructor.
  - exact IH.
  - apply Forall_map. apply Forall_impl with (P := R x); auto.
Qed.

Lemma limit_length {A : Type} n (l : list A) : (length (LIMIT n l) <= n)%nat.
Proof. unfold LIMIT. rewrite length_firstn. lia. Qed.

Lemma limit_in {A : Type} n (l : list A) x : In x (LIMIT n l) -> In x l.
Proof. unfold LIMIT. apply firstn_In. Qed.

End SqliteFacts.

(* ------------------------------------------------------------------ *)
(** ** Resolution *)

(** The thousandths are ordered as the class asks. *)
Lemma decimal_order : NumericOrder Decimal.numeric.
Proof.
  constructor; simpl.
  - intros x y. rewrite !Z.leb_le. lia.
  - intros x y z. rewrite !Z.leb_le. lia.
  - intros x y. rewrite !Z.leb_le. intro Hxy. unfold Decimal.round2.
    destruct (Z.eq_dec (x / 10) (y / 10)) as [Heq | Hne].
    + rewrite <- Heq.
      destruct (Z.even (x / 10));
        destruct (Z.ltb_spec (x mod 10) 5); destruct (Z.ltb_spec 5 (x mod 10));
        destruct (Z.ltb_spec (y mod 10) 5); destruct (Z.ltb_spec 5 (y mod 10));
        try lia;
        (pose proof (Z.div_mod x 10 ltac:(lia));
         pose proof (Z.div_mod y 10 ltac:(lia)); lia).
    + assert (x / 10 < y / 10)%Z.
      { pose proof (Z.div_le_mono x y 10 ltac:(lia) Hxy). lia. }
      destruct (Z.even (x / 10)); destruct (Z.even (y / 10));
        destruct (Z.ltb_spec (x mod 10) 5); destruct (Z.ltb_spec 5 (x mod 10));
        destruct (Z.ltb_spec (y mod 10) 5); destruct (Z.ltb_spec 5 (y mod 10));
        lia.
Qed.

Section ResolutionFacts.
Context {N : Numeric}.

Lemma scoped_rows_ok db rows0 location y :
  JOIN db = Ok rows0 ->
  scoped_rows db location y =
    Ok (Sqlite.LIMIT 10
          (filter (fun r => location_filter location r && year_is y r) rows0)).
Proof. intro H. unfold scoped_rows. rewrite H. reflexivity. Qed.




End ResolutionFacts.




(** C5.  [safe_areas], whatever the entities: at most 15 records, each
    built from a joined row of category Safe and assessment year 2024, in
    ascending order of stage of extraction (of the rows, and of the rounded
    percentages the records carry). *)
Theorem safe_areas_sorted {N : Numeric} (L : NumericOrder N) (db : database)
    (e : entities) (rows0 : list joined) :
  JOIN db = Ok rows0 ->
  exists rows,
    _get_response_data (Connected db) "safe_areas" e
      = Ok (Safe_areas (map safe_of_row rows))
    /\ (length (map safe_of_row rows) <= 15)%nat
    /\ Forall (fun r => In r rows0
                        /\ category (ga r) = "Safe"
                        /\ assessment_year (ga r) = 2024%Z) rows
    /\ StronglySorted
         (fun r1 r2 => real_leb (stage_of_extraction (ga r1))
                                (stage_of_extraction (ga r2)) = true) rows
    /\ StronglySorted
         (fun x y => real_leb (sf_extraction_percentage x)
                              (sf_extraction_percentage y) = true)
         (map safe_of_row rows).
Proof.
  intro Hjoin.
  set (sel := filter (fun r => String.eqb (category (ga r)) "Safe" && year_is 2024 r) rows0).
  exists (Sqlite.LIMIT 15 (Sqlite.ORDER_BY stage_asc sel)).
  assert (Hsorted : StronglySorted
            (fun r1 r2 => real_leb (stage_of_extraction (ga r1))
                                   (stage_of_extraction (ga r2)) = true)
            (Sqlite.LIMIT 15 (Sqlite.ORDER_BY stage_asc sel))).
  { apply SqliteFacts.firstn_sorted.
    apply (SqliteFacts.ORDER_BY_sorted stage_asc).
    - intros x y. apply real_leb_total.
    - intros x y z. apply real_leb_trans. }
  repeat split.
  - unfold _get_response_data, _get_safe_areas, safe_rows. simpl.
    rewrite Hjoin. reflexivity.
  - rewrite length_map. apply SqliteFacts.limit_length.
  - apply Forall_forall. intros r Hr.
    apply SqliteFacts.limit_in in Hr.
    apply (Permutation_in _ (SqliteFacts.ORDER_BY_perm stage_asc sel)) in Hr.
    apply filter_In in Hr as [Hin Hr].
    apply andb_true_iff in Hr as [Hcat Hyear].
    repeat split; [exact Hin | apply String.eqb_eq, Hcat | apply Z.eqb_eq, Hyear].
  - exact Hsorted.
  - apply SqliteFacts.map_sorted with (2 := Hsorted).
    intros x y Hxy. simpl. apply round2_mono, Hxy.
Qed.

Lemma safe_areas_sorted_witness :
  JOIN Sample.db = Ok Sample.joined_rows
  /\ exists rows,
       _get_response_data Sample.st "safe_areas"
         {| locations := None; years := None; categories := None |}
       = Ok (Safe_areas (map safe_of_row rows))
       /\ (length (map safe_of_row rows) <= 15)%nat.
Proof.
  assert (Hjoin : JOIN Sample.db = Ok Sample.joined_rows) by (vm_compute; reflexivity).
  split; [exact Hjoin|].
  destruct (safe_areas_sorted decimal_order Sample.db
              {| locations := None; years := None; categories := None |}
              Sample.joined_rows Hjoin) as (rows & Hres & Hlen & _).
  exists rows. split; [exact Hres | exact Hlen].
Defined.




(** C10.  The [historical] resolution does not read the extracted years
    beyond binding them to a local: two entity maps with the same
    locations get the same result, whatever their [years] (and
    [categories]) are. *)
Theorem historical_ignores_years {N : Numeric} (st : store) (db : database)
    (e1 e2 : entities) :
  locations e1 = locations e2 ->
  _get_historical_data db e1 = _get_historical_data db e2
  /\ _get_response_data st "historical" e1 = _get_response_data st "historical" e2.
Proof.
  intro H.
  assert (Hd : forall db0, _get_historical_data db0 e1 = _get_historical_data db0 e2).
  { intro db0. unfold _get_historical_data, first_location. rewrite H. reflexivity. }
  split; [apply Hd|].
  unfold _get_response_data. destruct (connect st) as [db0|err]; simpl.
  - apply Hd.
  - reflexivity.
Qed.

Lemma historical_ignores_years_witness :
  locations {| locations := Some ["Delhi"]; years := Some [2021%Z]; categories := None |}
  = locations {| locations := Some ["Delhi"]; years := None; categories := None |}
  /\ _get_historical_data Sample.db
       {| locations := Some ["Delhi"]; years := Some [2021%Z]; categories := None |}
     = _get_historical_data Sample.db
         {| locations := Some ["Delhi"]; years := None; categories := None |}.
Proof.
  split; [reflexivity|].
  apply (historical_ignores_years Sample.st Sample.db
           {| locations := Some ["Delhi"]; years := Some [2021%Z]; categories := None |}
           {| locations := Some ["Delhi"]; years := None; categories := None |}).
  reflexivity.
Defined.

(* ------------------------------------------------------------------ *)
(** ** Year extraction *)

Section Years.

Lemma digit_is_word c : Re.cls_d c = true -> Re.cls_w c = true.
Proof.
  unfold Re.cls_w, Re.cls_d. intros ->. rewrite orb_true_r. reflexivity.
Qed.

(** What a match of [year_here] tells *)
Lemma year_here_some prev text y :
  year_here prev text = Some y ->
  boundary_before prev = true
  /\ exists c3 c4 rest,
       text = String "2" (String "0" (String c3 (String c4 rest)))
       /\ y = String "2" (String "0" (String c3 (String c4 "")))
       /\ Re.cls_d c3 = true /\ Re.cls_d c4 = true
       /\ boundary_after rest = true.
Proof.
  unfold year_here.
  destruct text as [|c1 [|c2 [|c3 [|c4 rest]]]]; try discriminate.
  destruct (boundary_before prev); simpl; [|discriminate].
  destruct (Ascii.eqb_spec c1 "2"); simpl; [|discriminate].
  destruct (Ascii.eqb_spec c2 "0"); simpl; [|discriminate].
  destruct (Re.cls_d c3) eqn:H3; simpl; [|discriminate].
  destruct (Re.cls_d c4) eqn:H4; simpl; [|discriminate].
  destruct (boundary_after rest) eqn:Hb; simpl; [|discriminate].
  intro H. injection H as <-. subst c1 c2.
  split; [reflexivity|]. exists c3, c4, rest. auto.
Qed.

Lemma year_here_after_word p text :
  Re.cls_w p = true -> year_here (Some p) text = None.
Proof.
  intro Hp. destruct (year_here (Some p) text) as [y|] eqn:H; [|reflexivity].
  apply year_here_some in H as [Hb _]. simpl in Hb. rewrite Hp in Hb. discriminate.
Qed.

(** Resuming after a match skips no match: the scan of [findall] finds
    the matches of all positions. *)
Lemma findall_years_from_all text : forall skip prev,
  skip = 0%nat
  \/ ((exists p, prev = Some p /\ Re.cls_w p = true) /\ word_run skip text = true) ->
  findall_years_from skip prev text = years_from prev text.
Proof.
  induction text as [|c text IH]; intros skip prev Hinv; [reflexivity|].
  cbn [findall_years_from years_from].
  destruct skip as [|k].
  - destruct (year_here prev (String c text)) as [y|] eqn:Hy; cbn [option_list app].
    + f_equal. apply IH. right.
      apply year_here_some in Hy
        as (_ & c3 & c4 & rest & Htext & _ & H3 & H4 & _).
      injection Htext as -> ->.
      split.
      * exists "2"%char. split; reflexivity.
      * cbn [word_run]. rewrite (digit_is_word _ H3), (digit_is_word _ H4).
        reflexivity.
    + apply IH. left. reflexivity.
  - destruct Hinv as [Hinv | [(p & -> & Hp) Hrun]]; [discriminate|].
    rewrite (year_here_after_word p _ Hp). cbn [option_list app].
    cbn [word_run] in Hrun. apply andb_true_iff in Hrun as [Hc Hrun].
    apply IH. destruct k as [|k']; [left; reflexivity|].
    right. split; [exists c; auto | exact Hrun].
Qed.

Lemma flat_map_map {A B C : Type} (f : B -> list C) (g : A -> B) (l : list A) :
  flat_map f (map g l) = flat_map (fun x => f (g x)) l.
Proof.
  induction l as [|x l IH]; simpl; [reflexivity | rewrite IH; reflexivity].
Qed.

Lemma years_from_positions text : forall prev,
  years_from prev text =
  flat_map (fun i => option_list
                       (year_here (match i with
                                   | O => prev
                                   | S j => String.get j text
                                   end) (drop i text)))
           (seq 0 (String.length text)).
Proof.
  induction text as [|c text IH]; intro prev; [reflexivity|].
  cbn [years_from String.length seq flat_map drop]. f_equal.
  rewrite IH, <- seq_shift, flat_map_map.
  apply flat_map_ext. intros [|j]; reflexivity.
Qed.

Lemma findall_years_everywhere text : findall_years text = years_everywhere text.
Proof.
  unfold findall_years, years_everywhere, year_at, char_before.
  rewrite findall_years_from_all by (left; reflexivity).
  apply years_from_positions.
Qed.

Lemma drop_some_lt text : forall i c rest,
  drop i text = String c rest -> (i < String.length text)%nat.
Proof.
  induction text as [|c0 text IH]; intros [|i] c rest H; simpl in *;
    try discriminate; try lia.
  apply IH in H. lia.
Qed.

Lemma year_at_lt text i y : year_at text i = Some y -> (i < String.length text)%nat.
Proof.
  unfold year_at. intro H.
  apply year_here_some in H as (_ & c3 & c4 & rest & Htext & _).
  apply drop_some_lt in Htext. exact Htext.
Qed.

Lemma digit_val_range c : Re.cls_d c = true -> (0 <= Py.digit_val c <= 9)%Z.
Proof.
  unfold Re.cls_d, Py.isdigit, Py.between, Py.digit_val. intro H.
  apply andb_true_iff in H as [Hlo Hhi].
  apply Nat.leb_le in Hlo, Hhi. lia.
Qed.

Lemma year_shape text i y :
  year_at text i = Some y -> is_20dd y /\ (2000 <= Py.int y <= 2099)%Z.
Proof.
  unfold year_at. intro H.
  apply year_here_some in H as (_ & c3 & c4 & rest & _ & -> & H3 & H4 & _).
  split.
  - exists c3, c4. auto.
  - unfold Py.int. cbn [Py.int_from].
    change (Py.digit_val "2") with 2%Z. change (Py.digit_val "0") with 0%Z.
    pose proof (digit_val_range c3 H3). pose proof (digit_val_range c4 H4). lia.
Qed.

Lemma get_drop text : forall i k, String.get (i + k) text = String.get k (drop i text).
Proof.
  induction text as [|c text IH]; intros [|i] k; try reflexivity.
  simpl. apply IH.
Qed.

(** The matcher at position [i] is the substring test at [i], where the
    four characters touch no word character. *)
Lemma year_at_between text i :
  year_at text i
  = if touches_word text i then None else substring_20dd_at text i.
Proof.
  unfold year_at, year_here, substring_20dd_at, touches_word, word_char_at.
  rewrite (get_drop text i 4).
  assert (Hb : boundary_before (char_before text i)
               = negb (match i with
                       | O => false
                       | S j => match String.get j text with
                                | Some c => Re.cls_w c
                                | None => false
                                end
                       end)).
  { destruct i as [|j]; [reflexivity|]. simpl.
    destruct (String.get j text); reflexivity. }
  rewrite Hb.
  destruct (drop i text) as [|c1 [|c2 [|c3 [|c4 rest]]]];
    try (destruct (match i with O => false | S _ => _ end); reflexivity).
  cbn [String.get].
  assert (Ha : boundary_after rest
               = negb (match String.get 0 rest with
                       | Some c => Re.cls_w c
                       | None => false
                       end)).
  { destruct rest; reflexivity. }
  rewrite Ha.
  destruct (match i with O => false | S _ => _ end);
    destruct (match String.get 0 rest with Some _ => _ | None => _ end);
    destruct (Ascii.eqb c1 "2"); destruct (Ascii.eqb c2 "0");
    destruct (Re.cls_d c3); destruct (Re.cls_d c4); reflexivity.
Qed.

Lemma years_everywhere_between text :
  years_everywhere text = years_between_boundaries text.
Proof.
  unfold years_everywhere, years_between_boundaries.
  apply flat_map_ext. intro i. rewrite year_at_between.
  destruct (touches_word text i); reflexivity.
Qed.

End Years.

(** C7, as the text has it, fails: the pattern is [\b(20\d{2})\b], and a
    year that touches a letter, a digit or an underscore is not found.  The
    query "data from 20234" has the substring "2023" at position 10, and
    its entities have no [years] key. *)
Lemma years_word_boundary_counterexample :
  substring_20dd_at (Py.lower "data from 20234") 10 = Some "2023"
  /\ years (snd (classify_intent Sample.insertion_order Sample.st "data from 20234"))
     = None.
Proof. split; vm_compute; reflexivity. Qed.

(** C7, amended.  Year extraction finds the substrings [20dd] of the
    (lower-cased) query that stand between word boundaries — not preceded
    and not followed by a letter, a digit or an underscore — at every
    position where there is one, and returns them as integers, between 2000
    and 2099, in the order they occur in the text, duplicates preserved; the
    [years] key is present exactly when there is such a position.  The
    pattern matches at a position exactly when the substring test of the
    original wording holds there and the four characters touch no word
    character. *)
Theorem years_at_word_boundaries {N : Numeric} (o : SetOrder) (st : store)
    (query : string) :
  let text := Py.lower query in
  let found := years_everywhere text in
  findall_years text = found
  /\ years (snd (classify_intent o st query)) = if_nonempty (map Py.int found)
  /\ (years (snd (classify_intent o st query)) <> None <->
      exists i, year_at text i <> None)
  /\ (forall i y, year_at text i = Some y ->
                  is_20dd y /\ (2000 <= Py.int y <= 2099)%Z)
  /\ findall_years text = years_between_boundaries text
  /\ (forall i y, year_at text i = Some y <->
                  substring_20dd_at text i = Some y
                  /\ touches_word text i = false)
  /\ (years (snd (classify_intent o st query)) <> None <->
      exists i y, substring_20dd_at text i = Some y
                  /\ touches_word text i = false).
Proof.
  intros text found.
  assert (Hfind : findall_years text = found) by apply findall_years_everywhere.
  assert (Hyears : years (snd (classify_intent o st query))
                   = if_nonempty (map Py.int found)).
  { unfold classify_intent.
    destruct (classify_loop intent_patterns (Py.lower query)) as [[i m]|];
      simpl; fold text; rewrite Hfind; reflexivity. }
  assert (Hkey : years (snd (classify_intent o st query)) <> None <->
                 exists i, year_at text i <> None).
  { rewrite Hyears. split.
    + intro Hne. destruct found as [|y ys] eqn:Hfound; [contradiction Hne; reflexivity|].
      assert (Hin : In y (years_everywhere text)).
      { fold found. rewrite Hfound. left. reflexivity. }
      unfold years_everywhere in Hin. apply in_flat_map in Hin as (i & _ & Hy).
      exists i. destruct (year_at text i); [discriminate | destruct Hy].
    + intros (i & Hi). destruct (year_at text i) as [y|] eqn:Hy; [|contradiction Hi; reflexivity].
      assert (Hin : In y found).
      { unfold found, years_everywhere. apply in_flat_map. exists i. split.
        - apply in_seq. pose proof (year_at_lt text i y Hy). lia.
        - rewrite Hy. left. reflexivity. }
      destruct found; [destruct Hin | discriminate]. }
  assert (Hat : forall i y, year_at text i = Some y <->
                            substring_20dd_at text i = Some y
                            /\ touches_word text i = false).
  { intros i y. rewrite year_at_between.
    destruct (touches_word text i); split.
    - discriminate.
    - intros [_ H]. discriminate.
    - auto.
    - intros [H _]. exact H. }
  split; [exact Hfind|]. split; [exact Hyears|]. split; [exact Hkey|].
  split; [intros i y; apply year_shape|].
  split; [rewrite Hfind; apply years_everywhere_between|].
  split; [exact Hat|].
  rewrite Hkey. split.
  - intros (i & Hi). destruct (year_at text i) as [y|] eqn:Hy; [|contradiction Hi; reflexivity].
    exists i, y. apply Hat. exact Hy.
  - intros (i & y & H). exists i. apply Hat in H. rewrite H. discriminate.
Qed.

(* ------------------------------------------------------------------ *)
(** ** The whole pipeline *)

(** C9, as the text has it, fails: [list(set(locations))] has the order in
    which the set iterates, which the code does not fix.  For the query
    below the locations appended are Punjab, Delhi, Delhi, Punjab; under one
    iteration order the first location is Delhi, under the other Punjab, and
    the recharge data returned are those of different regions. *)
Lemma process_query_set_order_counterexample :
  process_query Sample.insertion_order Sample.st "recharge rate in punjab and delhi"
  <> process_query Sample.reverse_order Sample.st "recharge rate in punjab and delhi".
Proof. vm_compute. discriminate. Qed.

Lemma iter_perm2 (o1 o2 : SetOrder) (xs : list string) :
  Permutation (iter o1 xs) (iter o2 xs) /\ NoDup (iter o1 xs) /\ NoDup (iter o2 xs).
Proof.
  pose proof (iter_perm o1 xs) as H1. pose proof (iter_perm o2 xs) as H2.
  split; [|split].
  - apply perm_trans with (nodup string_dec xs); [exact H1 | apply Permutation_sym, H2].
  - apply (Permutation_NoDup (Permutation_sym H1)), NoDup_nodup.
  - apply (Permutation_NoDup (Permutation_sym H2)), NoDup_nodup.
Qed.

(** The sequence of locations handed to [set()] does not depend on the
    iteration order. *)
Lemma extract_locations_iter {N : Numeric} (st : store) (query : string) :
  exists appended, forall o, _extract_locations o st query = iter o appended.
Proof.
  unfold _extract_locations.
  destruct (catalog st) as [[[states0 districts0] blocks0]|err].
  - destruct (word_loop states0 districts0 (Py.split (Py.lower query)) [])
      as [locations1 [e|]]; eexists; intro o; reflexivity.
  - eexists; intro o; reflexivity.
Qed.

Lemma extract_entities_same_locations {N : Numeric} (o1 o2 : SetOrder) (st : store)
    (query intent : string) (m : option (Re.regex * string)) :
  locations (_extract_entities o1 st query intent m)
  = locations (_extract_entities o2 st query intent m) ->
  _extract_entities o1 st query intent m = _extract_entities o2 st query intent m.
Proof. unfold _extract_entities. simpl. intros ->. reflexivity. Qed.

Lemma extract_entities_locations {N : Numeric} (o1 o2 : SetOrder) (st : store)
    (query intent : string) (m : option (Re.regex * string)) :
  match locations (_extract_entities o1 st query intent m),
        locations (_extract_entities o2 st query intent m) with
  | Some l1, Some l2 => Permutation l1 l2 /\ NoDup l1 /\ NoDup l2
  | None, None => True
  | _, _ => False
  end.
Proof.
  unfold _extract_entities. simpl.
  destruct (extract_locations_iter st query) as (appended & Happ).
  rewrite !Happ.
  destruct (iter_perm2 o1 o2 appended) as (Hperm & Hnd1 & Hnd2).
  destruct (iter o1 appended) as [|x xs] eqn:H1;
    destruct (iter o2 appended) as [|y ys] eqn:H2; simpl; auto.
  - apply Permutation_nil in Hperm. discriminate.
  - apply Permutation_sym, Permutation_nil in Hperm. discriminate.
Qed.

(** C9, amended.  [process_query] is a function of the query, the store
    and the iteration order of Python sets of strings, and of nothing else.
    Whatever the iteration orders of two calls on the same query and store:
    the intent, the years and the categories are the same and the location
    lists are duplicate-free arrangements of the same locations; when the
    two location lists are equal — as they are under one iteration order —
    the two outputs are equal in intent, entities, data and query. *)
Theorem process_query_deterministic_up_to_set_order {N : Numeric}
    (o1 o2 : SetOrder) (st : store) (query : string) :
  let e1 := snd (classify_intent o1 st query) in
  let e2 := snd (classify_intent o2 st query) in
  fst (classify_intent o1 st query) = fst (classify_intent o2 st query)
  /\ years e1 = years e2
  /\ categories e1 = categories e2
  /\ match locations e1, locations e2 with
     | Some l1, Some l2 => Permutation l1 l2 /\ NoDup l1 /\ NoDup l2
     | None, None => True
     | _, _ => False
     end
  /\ (locations e1 = locations e2 ->
      process_query o1 st query = process_query o2 st query).
Proof.
  intros e1 e2. subst e1 e2.
  unfold process_query, classify_intent.
  destruct (classify_loop intent_patterns (Py.lower query)) as [[intent m]|];
    cbn [fst snd];
    (split; [reflexivity|]; split; [reflexivity|]; split; [reflexivity|]; split;
     [ apply extract_entities_locations
     | intro Hloc;
       rewrite (extract_entities_same_locations o1 o2 st _ _ _ Hloc);
       reflexivity ]).
Qed.

(* ------------------------------------------------------------------ *)
(** ** Worked examples *)

Example classify_show_critical_areas :
  fst (classify_intent Sample.insertion_order Sample.st "show critical areas")
  = "critical_areas".
Proof. vm_compute. reflexivity. Qed.

Example classify_no_pattern :
  fst (classify_intent Sample.insertion_order Sample.st "hello there") = "general".
Proof. vm_compute. reflexivity. Qed.

(** "show" opens patterns of three intents; the first in table order wins. *)
Example classify_first_intent_wins :
  fst (classify_intent Sample.insertion_order Sample.st
         "Show safe areas that were critical") = "critical_areas".
Proof. vm_compute. reflexivity. Qed.

Example entities_punjab_2023 :
  snd (classify_intent Sample.insertion_order Sample.st
         "What is the groundwater status in Punjab 2023")
  = {| locations := Some ["Punjab"]; years := Some [2023%Z]; categories := None |}.
Proof. vm_compute. reflexivity. Qed.

Example entities_semi_critical :
  categories (snd (classify_intent Sample.insertion_order Sample.st
                     "which blocks are semi-critical"))
  = Some ["Critical"; "Semi-Critical"].
Proof. vm_compute. reflexivity. Qed.

Example years_in_order_with_duplicates :
  years (snd (classify_intent Sample.insertion_order Sample.st
                "data between 2021 and 2023, then 2021 again"))
  = Some [2021%Z; 2023%Z; 2021%Z].
Proof. vm_compute. reflexivity. Qed.

Example water_level_national :
  _get_response_data Sample.st "water_level"
    {| locations := None; years := None; categories := None |}
  = Ok (@Average_water_levels Decimal.numeric 21740%Z 18330%Z).
Proof. vm_compute. reflexivity. Qed.

Example comparison_resolves_as_general :
  _get_response_data Sample.st "comparison"
    {| locations := None; years := None; categories := None |}
  = Ok (@General_stats Decimal.numeric 3 3 5 80760%Z).
Proof. vm_compute. reflexivity. Qed.

Example unreachable_store_propagates :
  process_query Sample.insertion_order (@Unreachable Decimal.numeric)
    "show critical areas"
  = Raise OperationalError.
Proof. vm_compute. reflexivity. Qed.

(* ================================================================== *)
(** * Further properties of the query processor *)

(** The sample store has its four tables. *)
Lemma sample_join : JOIN Sample.db = Ok Sample.joined_rows.
Proof. vm_compute. reflexivity. Qed.

(** ** ORDER BY ... LIMIT keeps the least rows *)

Lemma sorted_app_le {A : Type} (R : A -> A -> Prop) (l1 l2 : list A) :
  StronglySorted R (l1 ++ l2) ->
  forall x y, In x l1 -> In y l2 -> R x y.
Proof.
  induction l1 as [|a l1 IH]; simpl; intros Hs x y Hx Hy; [contradiction|].
  inversion Hs as [|a' l' Hs' Hall]; subst.
  destruct Hx as [<- | Hx].
  - apply (proj1 (Forall_forall _ _) Hall). apply in_or_app. right. exact Hy.
  - apply IH; assumption.
Qed.

Lemma order_limit_least {A : Type} (le : A -> A -> bool) (n : nat) (l : list A) :
  (forall x y, le x y = true \/ le y x = true) ->
  (forall x y z, le x y = true -> le y z = true -> le x z = true) ->
  exists rest,
    Permutation (Sqlite.LIMIT n (Sqlite.ORDER_BY le l) ++ rest) l
    /\ length (Sqlite.LIMIT n (Sqlite.ORDER_BY le l)) = Nat.min n (length l)
    /\ forall x y, In x (Sqlite.LIMIT n (Sqlite.ORDER_BY le l)) -> In y rest ->
                   le x y = true.
Proof.
  intros Htotal Htrans.
  exists (skipn n (Sqlite.ORDER_BY le l)). unfold Sqlite.LIMIT.
  split; [|split].
  - rewrite firstn_skipn. apply SqliteFacts.ORDER_BY_perm.
  - rewrite length_firstn.
    rewrite (Permutation_length (SqliteFacts.ORDER_BY_perm le l)). reflexivity.
  - apply (sorted_app_le (fun a c => le a c = true)).
    rewrite firstn_skipn.
    apply SqliteFacts.ORDER_BY_sorted; assumption.
Qed.

Section Ranked.
Context {N : Numeric} (L : NumericOrder N).

Lemma stage_asc_total (x y : joined) : stage_asc x y = true \/ stage_asc y x = true.
Proof. apply real_leb_total. Qed.

Lemma stage_asc_trans (x y z : joined) :
  stage_asc x y = true -> stage_asc y z = true -> stage_asc x z = true.
Proof. apply real_leb_trans. Qed.

Lemma stage_desc_total (x y : joined) : stage_desc x y = true \/ stage_desc y x = true.
Proof. unfold stage_desc. apply real_leb_total. Qed.

Lemma stage_desc_trans (x y z : joined) :
  stage_desc x y = true -> stage_desc y z = true -> stage_desc x z = true.
Proof. unfold stage_desc. intros H1 H2. eapply real_leb_trans; eassumption. Qed.

End Ranked.

(** X1.  [critical_areas]: at most 15 records, each built from a joined
    row of year 2024 whose category is Critical or Over-Exploited, in
    descending order of stage of extraction (of the rows, and of the rounded
    percentages the records carry). *)
Theorem critical_areas_sorted {N : Numeric} (L : NumericOrder N) (db : database)
    (e : entities) (rows0 : list joined) :
  JOIN db = Ok rows0 ->
  exists rows,
    _get_response_data (Connected db) "critical_areas" e
      = Ok (Critical_areas (map critical_of_row rows))
    /\ (length (map critical_of_row rows) <= 15)%nat
    /\ Forall (fun r => In r rows0
                        /\ (category (ga r) = "Critical"
                            \/ category (ga r) = "Over-Exploited")
                        /\ assessment_year (ga r) = 2024%Z) rows
    /\ StronglySorted
         (fun r1 r2 => real_leb (stage_of_extraction (ga r2))
                                (stage_of_extraction (ga r1)) = true) rows
    /\ StronglySorted
         (fun x y => real_leb (cr_extraction_percentage y)
                              (cr_extraction_percentage x) = true)
         (map critical_of_row rows).
Proof.
  intro Hjoin.
  set (sel := filter (fun r => (String.eqb (category (ga r)) "Critical"
                                || String.eqb (category (ga r)) "Over-Exploited")
                               && year_is 2024 r) rows0).
  exists (Sqlite.LIMIT 15 (Sqlite.ORDER_BY stage_desc sel)).
  assert (Hsorted : StronglySorted
            (fun r1 r2 => real_leb (stage_of_extraction (ga r2))
                                   (stage_of_extraction (ga r1)) = true)
            (Sqlite.LIMIT 15 (Sqlite.ORDER_BY stage_desc sel))).
  { apply SqliteFacts.firstn_sorted.
    apply (SqliteFacts.ORDER_BY_sorted stage_desc).
    - apply (stage_desc_total L).
    - apply (stage_desc_trans L). }
  repeat split.
  - unfold _get_response_data, _get_critical_areas, critical_rows. simpl.
    rewrite Hjoin. reflexivity.
  - rewrite length_map. apply SqliteFacts.limit_length.
  - apply Forall_forall. intros r Hr.
    apply SqliteFacts.limit_in in Hr.
    apply (Permutation_in _ (SqliteFacts.ORDER_BY_perm stage_desc sel)) in Hr.
    apply filter_In in Hr as [Hin Hr].
    apply andb_true_iff in Hr as [Hcat Hyear].
    apply orb_true_iff in Hcat.
    repeat split; [exact Hin | | apply Z.eqb_eq, Hyear].
    destruct Hcat as [Hc | Hc]; [left | right]; apply String.eqb_eq, Hc.
  - exact Hsorted.
  - apply SqliteFacts.map_sorted with (2 := Hsorted).
    intros x y Hxy. simpl. apply round2_mono, Hxy.
Qed.

Lemma critical_areas_sorted_witness :
  JOIN Sample.db = Ok Sample.joined_rows
  /\ exists rows,
       _get_response_data Sample.st "critical_areas"
         {| locations := None; years := None; categories := None |}
       = Ok (Critical_areas (map critical_of_row rows))
       /\ (length (map critical_of_row rows) <= 15)%nat.
Proof.
  pose proof sample_join as Hjoin.
  split; [exact Hjoin|].
  destruct (critical_areas_sorted decimal_order Sample.db
              {| locations := None; years := None; categories := None |}
              Sample.joined_rows Hjoin) as (rows & Hres & Hlen & _).
  exists rows. split; [exact Hres | exact Hlen].
Defined.

(** X2.  The two ranked listings keep the extremes.  Of the joined Safe
    rows of 2024, [safe_areas] returns all when there are at most 15, else
    15, and no row left out has a stage of extraction below that of a row
    returned; likewise [critical_areas] with the Critical and Over-Exploited
    rows, where no row left out has a stage above that of a row returned. *)
Theorem ranked_listings_keep_extremes {N : Numeric} (L : NumericOrder N)
    (db : database) (rows0 : list joined) :
  JOIN db = Ok rows0 ->
  let safe := filter (fun r => String.eqb (category (ga r)) "Safe"
                               && year_is 2024 r) rows0 in
  let critical := filter (fun r => (String.eqb (category (ga r)) "Critical"
                                    || String.eqb (category (ga r)) "Over-Exploited")
                                   && year_is 2024 r) rows0 in
  (exists rows rest,
      _get_safe_areas db = Ok (Safe_areas (map safe_of_row rows))
      /\ Permutation (rows ++ rest) safe
      /\ length rows = Nat.min 15 (length safe)
      /\ forall x y, In x rows -> In y rest ->
           real_leb (stage_of_extraction (ga x)) (stage_of_extraction (ga y)) = true)
  /\ (exists rows rest,
      _get_critical_areas db = Ok (Critical_areas (map critical_of_row rows))
      /\ Permutation (rows ++ rest) critical
      /\ length rows = Nat.min 15 (length critical)
      /\ forall x y, In x rows -> In y rest ->
           real_leb (stage_of_extraction (ga y)) (stage_of_extraction (ga x)) = true).
Proof.
  intros Hjoin safe critical. split.
  - destruct (order_limit_least stage_asc 15 safe
                (stage_asc_total L) (stage_asc_trans L))
      as (rest & Hperm & Hlen & Hle).
    exists (Sqlite.LIMIT 15 (Sqlite.ORDER_BY stage_asc safe)), rest.
    repeat split; try assumption.
    unfold _get_safe_areas, safe_rows. rewrite Hjoin. reflexivity.
  - destruct (order_limit_least stage_desc 15 critical
                (stage_desc_total L) (stage_desc_trans L))
      as (rest & Hperm & Hlen & Hle).
    exists (Sqlite.LIMIT 15 (Sqlite.ORDER_BY stage_desc critical)), rest.
    repeat split; try assumption.
    unfold _get_critical_areas, critical_rows. rewrite Hjoin. reflexivity.
Qed.

Lemma ranked_listings_keep_extremes_witness :
  JOIN Sample.db = Ok Sample.joined_rows
  /\ exists rows rest,
       _get_safe_areas Sample.db = Ok (Safe_areas (map safe_of_row rows))
       /\ Permutation (rows ++ rest)
            (filter (fun r => String.eqb (category (ga r)) "Safe" && year_is 2024 r)
                    Sample.joined_rows).
Proof.
  pose proof sample_join as Hjoin.
  split; [exact Hjoin|].
  destruct (ranked_listings_keep_extremes decimal_order Sample.db
              Sample.joined_rows Hjoin) as [(rows & rest & Hres & Hperm & _) _].
  exists rows, rest. split; [exact Hres | exact Hperm].
Defined.

(* ------------------------------------------------------------------ *)
(** ** The scoped and the national branches *)

Lemma truthy_some (location : string) :
  location <> "" -> truthy (Some location) = Some location.
Proof. destruct location; [intro H; contradiction H; reflexivity | reflexivity]. Qed.

(** X3.  With a first location that is not the empty string, [water_level],
    [recharge] and [extraction] answer for that location and share their
    rows: at most 10 joined rows, all of year 2024, all passing the LIKE
    filter on the state or the district name; each row gives one record. *)
Theorem scoped_branches_share_rows {N : Numeric} (db : database) (e : entities)
    (rows0 : list joined) (location : string) :
  JOIN db = Ok rows0 ->
  first_location e = Some location ->
  location <> "" ->
  exists rows,
    _get_water_levels db e = Ok (Water_levels location (map level_of_row rows))
    /\ _get_recharge_data db e = Ok (Recharge_data location (map recharge_of_row rows))
    /\ _get_extraction_data db e
       = Ok (Extraction_data location (map extraction_of_row rows))
    /\ (length rows <= 10)%nat
    /\ Forall (fun r => In r rows0
                        /\ assessment_year (ga r) = 2024%Z
                        /\ location_filter location r = true) rows
    /\ Forall (fun v => lv_year v = 2024%Z) (map level_of_row rows).
Proof.
  intros Hjoin Hloc Hne.
  set (rows := Sqlite.LIMIT 10
                 (filter (fun r => location_filter location r && year_is 2024 r) rows0)).
  assert (Hscoped : scoped_rows db location 2024 = Ok rows)
    by apply (scoped_rows_ok db rows0 location 2024%Z Hjoin).
  assert (Hall : Forall (fun r => In r rows0
                                  /\ assessment_year (ga r) = 2024%Z
                                  /\ location_filter location r = true) rows).
  { apply Forall_forall. intros r Hr.
    apply SqliteFacts.limit_in, filter_In in Hr as [Hin Hr].
    apply andb_true_iff in Hr as [Hf Hy].
    repeat split; [exact Hin | apply Z.eqb_eq, Hy | exact Hf]. }
  exists rows. repeat split.
  - unfold _get_water_levels. rewrite Hloc, (truthy_some location Hne), Hscoped.
    reflexivity.
  - unfold _get_recharge_data. rewrite Hloc, (truthy_some location Hne), Hscoped.
    reflexivity.
  - unfold _get_extraction_data. rewrite Hloc, (truthy_some location Hne), Hscoped.
    reflexivity.
  - apply SqliteFacts.limit_length.
  - exact Hall.
  - apply Forall_map. apply Forall_impl with (2 := Hall).
    intros r (_ & Hy & _). exact Hy.
Qed.

Lemma scoped_branches_share_rows_witness :
  JOIN Sample.db = Ok Sample.joined_rows
  /\ exists rows,
       _get_water_levels Sample.db
         {| locations := Some ["Haryana"; "Delhi"]; years := None; categories := None |}
       = Ok (Water_levels "Haryana" (map level_of_row rows))
       /\ (length rows <= 10)%nat.
Proof.
  pose proof sample_join as Hjoin.
  split; [exact Hjoin|].
  destruct (scoped_branches_share_rows Sample.db
              {| locations := Some ["Haryana"; "Delhi"]; years := None;
                 categories := None |}
              Sample.joined_rows "Haryana" Hjoin eq_refl)
    as (rows & Hres & _ & _ & Hlen & _); [discriminate|].
  exists rows. split; [exact Hres | exact Hlen].
Defined.

(** X4.  Without a first location (none extracted, or the empty string
    first), [water_level], [recharge], [extraction] and [historical] read
    the assessment table alone: two stores with the same assessment table
    get the same answers, whatever their states, districts and blocks tables
    hold, and whether these exist. *)
Theorem national_branches_read_assessments_only {N : Numeric} (db1 db2 : database)
    (e : entities) :
  truthy (first_location e) = None ->
  groundwater_assessment db1 = groundwater_assessment db2 ->
  _get_water_levels db1 e = _get_water_levels db2 e
  /\ _get_recharge_data db1 e = _get_recharge_data db2 e
  /\ _get_extraction_data db1 e = _get_extraction_data db2 e
  /\ _get_historical_data db1 e = _get_historical_data db2 e.
Proof.
  intros Hloc Hga.
  unfold _get_water_levels, _get_recharge_data, _get_extraction_data,
    _get_historical_data, assessments_2024.
  rewrite Hloc, Hga. repeat split; reflexivity.
Qed.

Lemma national_branches_read_assessments_only_witness :
  truthy (first_location {| locations := Some [""; "Delhi"]; years := None;
                            categories := None |}) = None
  /\ _get_water_levels Sample.db
       {| locations := Some [""; "Delhi"]; years := None; categories := None |}
     = _get_water_levels
         {| states := None; districts := None; blocks := None;
            groundwater_assessment := groundwater_assessment Sample.db |}
         {| locations := Some [""; "Delhi"]; years := None; categories := None |}.
Proof.
  split; [reflexivity|].
  apply (national_branches_read_assessments_only Sample.db
           {| states := None; districts := None; blocks := None;
              groundwater_assessment := groundwater_assessment Sample.db |}
           {| locations := Some [""; "Delhi"]; years := None; categories := None |});
    reflexivity.
Defined.

Lemma join_rows_from_tables {N : Numeric} (db : database) (rows0 : list joined) :
  JOIN db = Ok rows0 ->
  exists gas bs ds ss,
    groundwater_assessment db = Some gas /\ blocks db = Some bs
    /\ districts db = Some ds /\ states db = Some ss
    /\ forall r, In r rows0 ->
         In (ga r) gas /\ In (b r) bs /\ In (d r) ds /\ In (s r) ss
         /\ ga_block_id (ga r) = block_id (b r)
         /\ block_district_id (b r) = district_id (d r)
         /\ district_state_id (d r) = state_id (s r).
Proof.
  unfold JOIN.
  destruct (groundwater_assessment db) as [gas|]; simpl; [|discriminate].
  destruct (blocks db) as [bs|]; simpl; [|discriminate].
  destruct (districts db) as [ds|]; simpl; [|discriminate].
  destruct (states db) as [ss|]; simpl; [|discriminate].
  intro H. injection H as <-.
  exists gas, bs, ds, ss.
  split; [reflexivity|]. split; [reflexivity|].
  split; [reflexivity|]. split; [reflexivity|].
  intros r H.
  apply in_flat_map in H as (g & Hg & H).
  apply in_flat_map in H as (b0 & Hb & H).
  destruct (Z.eqb_spec (ga_block_id g) (block_id b0)) as [Egb|]; [|destruct H].
  apply in_flat_map in H as (d0 & Hd & H).
  destruct (Z.eqb_spec (block_district_id b0) (district_id d0)) as [Ebd|]; [|destruct H].
  apply in_flat_map in H as (s0 & Hs & H).
  destruct (Z.eqb_spec (district_state_id d0) (state_id s0)) as [Eds|]; [|destruct H].
  destruct H as [<- | []]. simpl. repeat split; assumption.
Qed.

Lemma filter_nil_forall {A : Type} (f : A -> bool) (l : list A) :
  (forall x, In x l -> f x = false) -> filter f l = [].
Proof.
  induction l as [|x l IH]; simpl; intro H; [reflexivity|].
  rewrite (H x (or_introl eq_refl)). apply IH. intros y Hy. apply H. right. exact Hy.
Qed.

Lemma filter_nil_in {A : Type} (f : A -> bool) (l : list A) (x : A) :
  filter f l = [] -> In x l -> f x = false.
Proof.
  intros Hnil Hin. destruct (f x) eqn:Hf; [|reflexivity].
  assert (Hx : In x (filter f l)) by (apply filter_In; auto).
  rewrite Hnil in Hx. destruct Hx.
Qed.

(** X5.  A store that has its four tables but no assessment of year 2024:
    the aggregate answers — national water levels, recharge and
    extraction, and the general statistics — raise TypeError, for AVG
    over no rows is NULL and [round(None, 2)] fails; the listings —
    critical areas, safe areas, and groundwater status without a year —
    return empty lists. *)
Theorem no_assessment_of_2024 {N : Numeric} (db : database) (rows0 : list joined)
    (gas : list assessment_row) (e : entities) :
  JOIN db = Ok rows0 ->
  groundwater_assessment db = Some gas ->
  filter (ga_year_is 2024) gas = [] ->
  (truthy (first_location e) = None ->
     _get_water_levels db e = Raise TypeError
     /\ _get_recharge_data db e = Raise TypeError
     /\ _get_extraction_data db e = Raise TypeError)
  /\ _get_general_stats db = Raise TypeError
  /\ _get_critical_areas db = Ok (Critical_areas [])
  /\ _get_safe_areas db = Ok (Safe_areas [])
  /\ (first_year e = None ->
      exists location, _get_groundwater_status db e
                       = Ok (Groundwater_status location 2024 [])).
Proof.
  intros Hjoin Hga Hnone.
  destruct (join_rows_from_tables db rows0 Hjoin)
    as (gas' & bs & ds & ss & Hga' & _ & _ & _ & Hrows).
  rewrite Hga in Hga'. injection Hga' as <-.
  assert (Hyear : forall r, In r rows0 -> year_is 2024 r = false).
  { intros r Hr. destruct (Hrows r Hr) as (Hin & _).
    apply (filter_nil_in (ga_year_is 2024) gas (ga r) Hnone Hin). }
  split; [|split; [|split; [|split]]].
  - intro Hloc.
    unfold _get_water_levels, _get_recharge_data, _get_extraction_data,
      assessments_2024.
    rewrite Hloc, Hga. simpl. rewrite Hnone. repeat split; reflexivity.
  - unfold _get_general_stats. rewrite Hjoin. simpl.
    rewrite (filter_nil_forall (year_is 2024) rows0 Hyear). reflexivity.
  - unfold _get_critical_areas, critical_rows. rewrite Hjoin. simpl.
    rewrite filter_nil_forall; [reflexivity|].
    intros r Hr. rewrite (Hyear r Hr). apply andb_false_r.
  - unfold _get_safe_areas, safe_rows. rewrite Hjoin. simpl.
    rewrite filter_nil_forall; [reflexivity|].
    intros r Hr. rewrite (Hyear r Hr). apply andb_false_r.
  - intro Hy. eexists. unfold _get_groundwater_status, scoped_rows.
    rewrite Hy, Hjoin. simpl.
    rewrite filter_nil_forall; [reflexivity|].
    intros r Hr. rewrite (Hyear r Hr). apply andb_false_r.
Qed.

Lemma no_assessment_of_2024_witness :
  JOIN Sample.db_blank_district
    = Ok (match JOIN Sample.db_blank_district with Ok rows => rows | Raise _ => [] end)
  /\ _get_general_stats Sample.db_blank_district = Raise TypeError
  /\ _get_safe_areas Sample.db_blank_district = Ok (Safe_areas []).
Proof.
  assert (Hjoin : JOIN Sample.db_blank_district
                  = Ok (match JOIN Sample.db_blank_district with
                        | Ok rows => rows | Raise _ => [] end))
    by (vm_compute; reflexivity).
  split; [exact Hjoin|].
  destruct (no_assessment_of_2024 Sample.db_blank_district _
              [Sample.mk_assessment 1 1 2023 150125 45678 "Safe" 10250 7125]
              {| locations := None; years := None; categories := None |}
              Hjoin eq_refl eq_refl) as (_ & Hgen & _ & Hsafe & _).
  split; [exact Hgen | exact Hsafe].
Defined.

(* ------------------------------------------------------------------ *)
(** ** The general statistics *)

Lemma count_distinct_factor {A : Type} (f g : A -> Z) (l : list A) :
  (forall x y, In x l -> In y l -> f x = f y -> g x = g y) ->
  (Sqlite.COUNT_DISTINCT (map g l) <= Sqlite.COUNT_DISTINCT (map f l))%nat.
Proof.
  intro Hfg. unfold Sqlite.COUNT_DISTINCT.
  set (phi := fun v => match find (fun x => (f x =? v)%Z) l with
                       | Some x => g x
                       | None => 0%Z
                       end).
  rewrite <- (length_map phi (nodup Z.eq_dec (map f l))).
  apply NoDup_incl_length; [apply NoDup_nodup|].
  intros v Hv. apply nodup_In, in_map_iff in Hv as (x & <- & Hx).
  apply in_map_iff. exists (f x). split.
  - unfold phi. destruct (find (fun x0 => (f x0 =? f x)%Z) l) as [x'|] eqn:Hfind.
    + apply find_some in Hfind as [Hx' Heq]. apply Z.eqb_eq in Heq.
      apply Hfg; assumption.
    + apply (find_none _ _ Hfind) in Hx. rewrite Z.eqb_refl in Hx. discriminate.
  - apply nodup_In, in_map. exact Hx.
Qed.

Lemma count_distinct_le_length (xs : list Z) :
  (Sqlite.COUNT_DISTINCT xs <= length xs)%nat.
Proof.
  unfold Sqlite.COUNT_DISTINCT.
  apply NoDup_incl_length; [apply NoDup_nodup|].
  intros x Hx. apply nodup_In in Hx. exact Hx.
Qed.

Lemma count_distinct_pos (xs : list Z) :
  xs <> [] -> (1 <= Sqlite.COUNT_DISTINCT xs)%nat.
Proof.
  destruct xs as [|x xs]; [intro H; contradiction H; reflexivity|]. intros _.
  unfold Sqlite.COUNT_DISTINCT.
  assert (Hin : In x (nodup Z.eq_dec (x :: xs))) by (apply nodup_In; left; reflexivity).
  destruct (nodup Z.eq_dec (x :: xs)); [destruct Hin | simpl; lia].
Qed.

Lemma key_determines_row {A : Type} (key : A -> Z) (l : list A) :
  NoDup (map key l) ->
  forall x y, In x l -> In y l -> key x = key y -> x = y.
Proof.
  induction l as [|a l IH]; simpl; intros Hnd x y Hx Hy Hk; [contradiction|].
  inversion Hnd as [|k ks Hnotin Hnd']; subst.
  destruct Hx as [<- | Hx], Hy as [<- | Hy].
  - reflexivity.
  - exfalso. apply Hnotin. rewrite Hk. apply in_map, Hy.
  - exfalso. apply Hnotin. rewrite <- Hk. apply in_map, Hx.
  - apply IH; assumption.
Qed.

(** X6.  When block ids and district ids are keys of their tables, the
    coverage counts of the general statistics are consistent: at least one
    state, no more states than districts, no more districts than blocks,
    and no more blocks than joined assessments of 2024. *)
Theorem general_stats_counts_consistent {N : Numeric} (db : database)
    (rows0 : list joined) (bs : list block_row) (ds : list district_row)
    (states_n districts_n blocks_n : nat) (average : real) :
  JOIN db = Ok rows0 ->
  blocks db = Some bs ->
  districts db = Some ds ->
  NoDup (map block_id bs) ->
  NoDup (map district_id ds) ->
  _get_general_stats db = Ok (General_stats states_n districts_n blocks_n average) ->
  (1 <= states_n)%nat
  /\ (states_n <= districts_n)%nat
  /\ (districts_n <= blocks_n)%nat
  /\ (blocks_n <= length (filter (year_is 2024) rows0))%nat.
Proof.
  intros Hjoin Hbs Hds Hkb Hkd Hres.
  destruct (join_rows_from_tables db rows0 Hjoin)
    as (gas & bs' & ds' & ss & _ & Hbs' & Hds' & _ & Hrows).
  rewrite Hbs in Hbs'. injection Hbs' as <-.
  rewrite Hds in Hds'. injection Hds' as <-.
  assert (Hne : filter (year_is 2024) rows0 <> []).
  { intro Hnil. unfold _get_general_stats in Hres. rewrite Hjoin in Hres.
    simpl in Hres. rewrite Hnil in Hres. discriminate. }
  rewrite (general_stats_ok db rows0 Hjoin Hne) in Hres.
  injection Hres as <- <- <- _.
  set (rows := filter (year_is 2024) rows0) in *.
  assert (Hsub : forall r, In r rows -> In r rows0).
  { intros r Hr. apply filter_In in Hr as [Hr _]. exact Hr. }
  repeat split.
  - apply count_distinct_pos. intro Hnil. apply map_eq_nil in Hnil. contradiction.
  - apply (count_distinct_factor (fun r => district_id (d r)) (fun r => state_id (s r))).
    intros x y Hx Hy Hk.
    destruct (Hrows x (Hsub x Hx)) as (_ & _ & Hdx & _ & _ & _ & Hsx).
    destruct (Hrows y (Hsub y Hy)) as (_ & _ & Hdy & _ & _ & _ & Hsy).
    rewrite <- Hsx, <- Hsy.
    rewrite (key_determines_row district_id ds Hkd (d x) (d y) Hdx Hdy Hk).
    reflexivity.
  - apply (count_distinct_factor (fun r => block_id (b r)) (fun r => district_id (d r))).
    intros x y Hx Hy Hk.
    destruct (Hrows x (Hsub x Hx)) as (_ & Hbx & _ & _ & _ & Hdx & _).
    destruct (Hrows y (Hsub y Hy)) as (_ & Hby & _ & _ & _ & Hdy & _).
    rewrite <- Hdx, <- Hdy.
    rewrite (key_determines_row block_id bs Hkb (b x) (b y) Hbx Hby Hk).
    reflexivity.
  - rewrite <- (length_map (fun r => block_id (b r)) rows).
    apply count_distinct_le_length.
Qed.

Lemma general_stats_counts_consistent_witness :
  (JOIN Sample.db = Ok Sample.joined_rows
   /\ _get_general_stats Sample.db = Ok (@General_stats Decimal.numeric 3 3 5 80760%Z))
  /\ (1 <= 3)%nat /\ (3 <= 3)%nat /\ (3 <= 5)%nat
  /\ (5 <= length (filter (year_is 2024) Sample.joined_rows))%nat.
Proof.
  pose proof sample_join as Hjoin.
  assert (Hres : _get_general_stats Sample.db
                 = Ok (@General_stats Decimal.numeric 3 3 5 80760%Z))
    by (vm_compute; reflexivity).
  split; [split; assumption|].
  apply (general_stats_counts_consistent Sample.db Sample.joined_rows _ _ 3 3 5 80760%Z
           Hjoin eq_refl eq_refl); [ | | exact Hres];
    simpl; repeat constructor; simpl; intuition discriminate.
Defined.

(* ------------------------------------------------------------------ *)
(** ** Historical trends *)

Lemma insert_year_in (y x : Z) (l : list Z) :
  In x (insert_year y l) <-> x = y \/ In x l.
Proof.
  induction l as [|a l IH]; simpl.
  - split; [intros [<- | []]; auto | intros [-> | []]; auto].
  - destruct (Z.ltb_spec y a); [|destruct (Z.eqb_spec y a)]; simpl.
    + split; [intros [<- | H']; auto | intros [-> | H']; auto].
    + subst a. split; [auto | intros [-> | H']; auto].
    + rewrite IH. split; [intros [<- | [-> | H']]; auto | intros [-> | [<- | H']]; auto].
Qed.

Lemma insert_year_sorted (y : Z) (l : list Z) :
  StronglySorted Z.lt l -> StronglySorted Z.lt (insert_year y l).
Proof.
  induction 1 as [|a l Hl IH Ha]; simpl.
  - constructor; constructor.
  - destruct (Z.ltb_spec y a); [|destruct (Z.eqb_spec y a)].
    + constructor; [constructor; assumption|].
      constructor; [assumption|].
      apply Forall_impl with (2 := Ha). intros z Hz. lia.
    + constructor; assumption.
    + constructor; [exact IH|].
      apply Forall_forall. intros z Hz. apply insert_year_in in Hz as [-> | Hz].
      * lia.
      * apply (proj1 (Forall_forall _ _) Ha z Hz).
Qed.

Lemma group_years_in (ys : list Z) (y : Z) : In y (group_years ys) <-> In y ys.
Proof.
  induction ys as [|a ys IH]; simpl; [reflexivity|].
  rewrite insert_year_in, IH. split; intros [H | H]; auto.
Qed.

Lemma group_years_sorted (ys : list Z) : StronglySorted Z.lt (group_years ys).
Proof.
  induction ys as [|a ys IH]; simpl; [constructor | apply insert_year_sorted, IH].
Qed.

(** The grouped SELECT succeeds when every group has a row. *)
Lemma trends_ok {N : Numeric} (group : Z -> list assessment_row) (ids : Z -> list Z)
    (keys : list Z) :
  (forall y, In y keys -> group y <> [] /\ ids y <> []) ->
  exists trends,
    mapM (fun y => trend_of_group y (group y) (ids y)) keys = Ok trends
    /\ map tr_year trends = keys
    /\ Forall (fun t => (1 <= tr_blocks_assessed t)%nat) trends.
Proof.
  induction keys as [|k keys IH]; intro Hne.
  - exists []. repeat split; constructor.
  - destruct IH as (trends & Hm & Hy & Hpos).
    { intros y Hy. apply Hne. right. exact Hy. }
    destruct (Hne k (or_introl eq_refl)) as [Hg Hi].
    cbn [mapM]. unfold trend_of_group at 1, AVG.
    destruct (group k) as [|g0 gs] eqn:Hgk; [contradiction Hg; reflexivity|].
    cbn [map round bind]. rewrite Hm. cbn [bind].
    eexists. split; [reflexivity|]. split.
    + cbn [map tr_year]. rewrite Hy. reflexivity.
    + constructor; [|exact Hpos]. cbn [tr_blocks_assessed].
      apply count_distinct_pos, Hi.
Qed.

(** X7.  What [historical] returns, on rows that hold a value in every
    column: one trend per distinct assessment year of the rows it reads —
    the joined rows passing the location filter, or the whole assessment
    table when there is no location — in strictly ascending year order,
    under the location given or "All India"; with a location, where the
    blocks counted are those of the joined rows, each trend has at least
    one block assessed. *)
Theorem historical_trends_by_year {N : Numeric} (db : database) (e : entities)
    (rows0 : list joined) (gas : list assessment_row) (r : response) :
  JOIN db = Ok rows0 ->
  groundwater_assessment db = Some gas ->
  _get_historical_data db e = Ok r ->
  let selected :=
    match truthy (first_location e) with
    | Some location => map ga (filter (location_filter location) rows0)
    | None => gas
    end in
  exists trends,
    r = Historical_trends trends
          (match truthy (first_location e) with
           | Some location => location
           | None => "All India"
           end)
    /\ StronglySorted Z.lt (map tr_year trends)
    /\ (forall y, In y (map tr_year trends) <-> In y (map assessment_year selected))
    /\ (truthy (first_location e) <> None ->
        Forall (fun t => (1 <= tr_blocks_assessed t)%nat) trends).
Proof.
  intros Hjoin Hga Hres selected. subst selected.
  unfold _get_historical_data in Hres.
  destruct (truthy (first_location e)) as [location|].
  - rewrite Hjoin in Hres. cbn [bind] in Hres.
    set (rows := filter (location_filter location) rows0) in *.
    destruct (trends_ok
                (fun y => map ga (filter (year_is y) rows))
                (fun y => map (fun r => block_id (b r)) (filter (year_is y) rows))
                (group_years (map (fun r => assessment_year (ga r)) rows)))
      as (trends & Hm & Hy & Hpos).
    { intros y Hy. apply group_years_in, in_map_iff in Hy as (r0 & Hr & Hin).
      assert (Hf : In r0 (filter (year_is y) rows)).
      { apply filter_In. split; [exact Hin | apply Z.eqb_eq, Hr]. }
      split; intro Hnil; apply map_eq_nil in Hnil; rewrite Hnil in Hf; destruct Hf. }
    rewrite Hm in Hres. cbn [bind] in Hres. injection Hres as <-.
    exists trends. split; [reflexivity|].
    rewrite Hy. split; [apply group_years_sorted|]. split; [|intros _; exact Hpos].
    intro y. rewrite group_years_in, map_map. reflexivity.
  - rewrite Hga in Hres. cbn [table bind] in Hres.
    destruct (trends_ok
                (fun y => filter (ga_year_is y) gas)
                (fun y => map ga_block_id (filter (ga_year_is y) gas))
                (group_years (map assessment_year gas)))
      as (trends & Hm & Hy & _).
    { intros y Hy. apply group_years_in, in_map_iff in Hy as (g & Hg & Hin).
      assert (Hf : In g (filter (ga_year_is y) gas)).
      { apply filter_In. split; [exact Hin | apply Z.eqb_eq, Hg]. }
      split; intro Hnil; [|apply map_eq_nil in Hnil]; rewrite Hnil in Hf; destruct Hf. }
    rewrite Hm in Hres. cbn [bind] in Hres. injection Hres as <-.
    exists trends. split; [reflexivity|].
    rewrite Hy. split; [apply group_years_sorted|].
    split; [|intro Hne; contradiction Hne; reflexivity].
    intro y. apply group_years_in.
Qed.

Lemma historical_trends_by_year_witness :
  JOIN Sample.db = Ok Sample.joined_rows
  /\ _get_historical_data Sample.db
       {| locations := Some ["Delhi"]; years := None; categories := None |}
     = Ok (Historical_trends
             [ @Build_trend_record Decimal.numeric 2023 45680%Z 10250%Z 1;
               @Build_trend_record Decimal.numeric 2024 71840%Z 15620%Z 2 ]
             "Delhi")
  /\ exists trends : list (@trend_record Decimal.numeric),
       StronglySorted Z.lt (map tr_year trends)
       /\ Forall (fun t => (1 <= tr_blocks_assessed t)%nat) trends.
Proof.
  pose proof sample_join as Hjoin.
  match goal with
  | |- _ /\ ?A /\ _ => assert (H : A) by (vm_compute; reflexivity)
  end.
  split; [exact Hjoin|]. split; [exact H|].
  destruct (historical_trends_by_year Sample.db
              {| locations := Some ["Delhi"]; years := None; categories := None |}
              Sample.joined_rows _ _ Hjoin eq_refl H)
    as (trends & _ & Hsorted & _ & Hpos).
  exists trends. split; [exact Hsorted | apply Hpos; discriminate].
Defined.

(* ------------------------------------------------------------------ *)
(** ** The dispatcher and the pipeline *)

(** X8.  The resolver opens the store before it looks at the intent: on an
    unreachable store every resolution raises OperationalError, [help]
    included, and so does [process_query] for every query — the error that
    location extraction swallowed comes back at resolution.  On a store that
    opens, [help] reads no table and answers even when all are missing. *)
Theorem unreachable_store_fails_every_query {N : Numeric} (o : SetOrder)
    (query intent : string) (e : entities) (db : database) :
  _get_response_data Unreachable intent e = Raise OperationalError
  /\ _extract_locations o Unreachable query = []
  /\ process_query o Unreachable query = Raise OperationalError
  /\ _get_response_data (Connected db) "help" e = Ok _get_help_info.
Proof.
  split; [reflexivity|]. split.
  - unfold _extract_locations. simpl. apply iter_nil.
  - split; [|reflexivity].
    unfold process_query.
    destruct (classify_intent o Unreachable query) as [i e']. reflexivity.
Qed.

Section Shapes.
Context {N : Numeric}.

Lemma groundwater_status_key db e out :
  _get_groundwater_status db e = Ok out -> response_key out = "blocks".
Proof.
  unfold _get_groundwater_status.
  destruct (scoped_rows db _ _); simpl; [|discriminate].
  intro H. injection H as <-. reflexivity.
Qed.

Lemma critical_areas_key db out :
  _get_critical_areas db = Ok out -> response_key out = "critical_areas".
Proof.
  unfold _get_critical_areas. destruct (critical_rows db); simpl; [|discriminate].
  intro H. injection H as <-. reflexivity.
Qed.

Lemma safe_areas_key db out :
  _get_safe_areas db = Ok out -> response_key out = "safe_areas".
Proof.
  unfold _get_safe_areas. destruct (safe_rows db); simpl; [|discriminate].
  intro H. injection H as <-. reflexivity.
Qed.

Lemma water_levels_key db e out :
  _get_water_levels db e = Ok out ->
  response_key out = "water_levels" \/ response_key out = "average_water_levels".
Proof.
  unfold _get_water_levels. destruct (truthy (first_location e)) as [l|].
  - destruct (scoped_rows db l _); simpl; [|discriminate].
    intro H. injection H as <-. left. reflexivity.
  - destruct (assessments_2024 db) as [gas|]; simpl; [|discriminate].
    destruct (round (AVG (map water_level_pre_monsoon gas))); simpl; [|discriminate].
    destruct (round (AVG (map water_level_post_monsoon gas))); simpl; [|discriminate].
    intro H. injection H as <-. right. reflexivity.
Qed.

Lemma historical_key db e out :
  _get_historical_data db e = Ok out -> response_key out = "historical_trends".
Proof.
  unfold _get_historical_data. destruct (truthy (first_location e)) as [l|].
  - destruct (JOIN db) as [rows|]; simpl; [|discriminate].
    destruct (mapM _ _); simpl; [|discriminate].
    intro H. injection H as <-. reflexivity.
  - destruct (table (groundwater_assessment db)) as [gas|]; simpl; [|discriminate].
    destruct (mapM _ _); simpl; [|discriminate].
    intro H. injection H as <-. reflexivity.
Qed.

Lemma recharge_key db e out :
  _get_recharge_data db e = Ok out ->
  response_key out = "recharge_data" \/ response_key out = "national_recharge".
Proof.
  unfold _get_recharge_data. destruct (truthy (first_location e)) as [l|].
  - destruct (scoped_rows db l _); simpl; [|discriminate].
    intro H. injection H as <-. left. reflexivity.
  - destruct (assessments_2024 db) as [gas|]; simpl; [|discriminate].
    destruct (round (AVG (map annual_recharge_mcm gas))); simpl; [|discriminate].
    destruct (round (AVG (map extractable_resources_mcm gas))); simpl; [|discriminate].
    destruct (round (SUM (map annual_recharge_mcm gas))); simpl; [|discriminate].
    intro H. injection H as <-. right. reflexivity.
Qed.

Lemma extraction_key db e out :
  _get_extraction_data db e = Ok out ->
  response_key out = "extraction_data" \/ response_key out = "national_extraction".
Proof.
  unfold _get_extraction_data. destruct (truthy (first_location e)) as [l|].
  - destruct (scoped_rows db l _); simpl; [|discriminate].
    intro H. injection H as <-. left. reflexivity.
  - destruct (assessments_2024 db) as [gas|]; simpl; [|discriminate].
    destruct (round (AVG (map total_extraction_mcm gas))); simpl; [|discriminate].
    destruct (round (AVG (map stage_of_extraction gas))); simpl; [|discriminate].
    destruct (round (SUM (map total_extraction_mcm gas))); simpl; [|discriminate].
    intro H. injection H as <-. right. reflexivity.
Qed.

Lemma general_stats_key db out :
  _get_general_stats db = Ok out -> response_key out = "general_stats".
Proof.
  unfold _get_general_stats. destruct (JOIN db) as [rows|]; simpl; [|discriminate].
  destruct (round _); simpl; [|discriminate].
  intro H. injection H as <-. reflexivity.
Qed.

Lemma response_data_key st intent e out :
  _get_response_data st intent e = Ok out ->
  In (response_key out) (keys_of_intent intent).
Proof.
  unfold _get_response_data, keys_of_intent.
  destruct (connect st) as [db|]; simpl; [|discriminate].
  destruct (String.eqb intent "groundwater_status").
  { intro H. left. symmetry. eapply groundwater_status_key, H. }
  destruct (String.eqb intent "critical_areas").
  { intro H. left. symmetry. eapply critical_areas_key, H. }
  destruct (String.eqb intent "safe_areas").
  { intro H. left. symmetry. eapply safe_areas_key, H. }
  destruct (String.eqb intent "water_level").
  { intro H. apply water_levels_key in H as [-> | ->]; simpl; auto. }
  destruct (String.eqb intent "historical").
  { intro H. left. symmetry. eapply historical_key, H. }
  destruct (String.eqb intent "recharge").
  { intro H. apply recharge_key in H as [-> | ->]; simpl; auto. }
  destruct (String.eqb intent "extraction").
  { intro H. apply extraction_key in H as [-> | ->]; simpl; auto. }
  destruct (String.eqb intent "help").
  { intro H. injection H as <-. left. reflexivity. }
  intro H. left. symmetry. eapply general_stats_key, H.
Qed.

End Shapes.

Lemma classify_loop_intent text table0 i m :
  classify_loop table0 text = Some (i, m) -> In i (map fst table0).
Proof.
  induction table0 as [|[i0 ps] rest IH]; simpl; [discriminate|].
  destruct (first_matching ps text) as [m0|].
  - intro H. injection H as -> _. left. reflexivity.
  - intro H. right. apply IH, H.
Qed.

(** X9.  What a caller of [process_query] can rely on when it returns: the
    intent is one of the ten enumerated ones; the data dict has the key of
    that intent's resolution — for [water_level], [recharge] and
    [extraction] one of the two keys of the scoped and the national branch,
    for [comparison] and [general] the key [general_stats]; and the query
    is handed back as it came, not lower-cased. *)
Theorem process_query_result_shape {N : Numeric} (o : SetOrder) (st : store)
    (query : string) (out : result) :
  process_query o st query = Ok out ->
  In (res_intent out) enumerated_intents
  /\ In (response_key (res_data out)) (keys_of_intent (res_intent out))
  /\ res_entities out = snd (classify_intent o st query)
  /\ res_query out = query.
Proof.
  unfold process_query.
  destruct (classify_intent o st query) as [intent e] eqn:Hc.
  destruct (_get_response_data st intent e) as [data|] eqn:Hd; simpl; [|discriminate].
  intro H. injection H as <-. simpl. repeat split.
  - unfold classify_intent in Hc.
    destruct (classify_loop intent_patterns (Py.lower query)) as [[i m]|] eqn:Hl.
    + injection Hc as <- _.
      apply classify_loop_intent in Hl. simpl in Hl. simpl. tauto.
    + injection Hc as <- _. simpl. tauto.
  - apply (response_data_key st intent e data Hd).
Qed.

Lemma process_query_result_shape_witness :
  process_query Sample.insertion_order Sample.st "compare extraction between states"
  = Ok {| res_intent := "comparison";
          res_entities := {| locations := None; years := None; categories := None |};
          res_data := @General_stats Decimal.numeric 3 3 5 80760%Z;
          res_query := "compare extraction between states" |}
  /\ In "general_stats" (keys_of_intent "comparison").
Proof.
  assert (H : process_query Sample.insertion_order Sample.st
                "compare extraction between states"
              = Ok {| res_intent := "comparison";
                      res_entities := {| locations := None; years := None;
                                         categories := None |};
                      res_data := @General_stats Decimal.numeric 3 3 5 80760%Z;
                      res_query := "compare extraction between states" |})
    by (vm_compute; reflexivity).
  split; [exact H|].
  exact (proj1 (proj2 (process_query_result_shape Sample.insertion_order Sample.st
                         "compare extraction between states" _ H))).
Defined.

Lemma findall_years_range (text : string) (y : Z) :
  In y (map Py.int (findall_years text)) -> (2000 <= y <= 2099)%Z.
Proof.
  rewrite findall_years_everywhere. intro H.
  apply in_map_iff in H as (t & <- & Ht).
  unfold years_everywhere in Ht. apply in_flat_map in Ht as (i & _ & Hi).
  destruct (year_at text i) as [t'|] eqn:Hy; [|destruct Hi].
  destruct Hi as [<- | []]. apply (year_shape text i t' Hy).
Qed.

(** X10.  End to end, a query classified [groundwater_status] is resolved
    for the first year written in the query between word boundaries, 2024
    when there is none — a year between 2000 and 2099 — and for the first
    location that location extraction returned, "Delhi" when it returned
    none; the answer lists at most 10 blocks. *)
Theorem groundwater_status_end_to_end {N : Numeric} (o : SetOrder) (st : store)
    (query : string) (out : result) :
  process_query o st query = Ok out ->
  res_intent out = "groundwater_status" ->
  exists location year blocks0,
    res_data out = Groundwater_status location year blocks0
    /\ year = match findall_years (Py.lower query) with
              | y :: _ => Py.int y
              | [] => 2024%Z
              end
    /\ (2000 <= year <= 2099)%Z
    /\ location = match _extract_locations o st (Py.lower query) with
                  | l :: _ => l
                  | [] => "Delhi"
                  end
    /\ (length blocks0 <= 10)%nat.
Proof.
  unfold process_query.
  destruct (classify_intent o st query) as [intent e] eqn:Hc.
  destruct (_get_response_data st intent e) as [data|] eqn:Hd; simpl; [|discriminate].
  intro H. injection H as <-. simpl. intros ->.
  assert (He : exists i m, e = _extract_entities o st (Py.lower query) i m).
  { unfold classify_intent in Hc.
    destruct (classify_loop intent_patterns (Py.lower query)) as [[i m]|];
      injection Hc as _ <-; eauto. }
  destruct He as (i & m & He).
  unfold _get_response_data in Hd.
  destruct (connect st) as [db|]; cbn [bind String.eqb Ascii.eqb Bool.eqb] in Hd;
    [|discriminate].
  unfold _get_groundwater_status, scoped_rows in Hd.
  destruct (JOIN db) as [rows0|]; cbn [bind] in Hd; [|discriminate].
  match type of Hd with
  | context [Sqlite.LIMIT 10 ?l] => set (rows := Sqlite.LIMIT 10 l) in Hd
  end.
  injection Hd as <-.
  eexists. eexists. eexists. split; [reflexivity|].
  assert (Hyear : match first_year e with Some y => y | None => 2024%Z end
                  = match findall_years (Py.lower query) with
                    | y :: _ => Py.int y
                    | [] => 2024%Z
                    end).
  { unfold first_year. rewrite He. cbn [years _extract_entities].
    destruct (findall_years (Py.lower query)) as [|y ys]; reflexivity. }
  split; [exact Hyear|]. split; [|split].
  - rewrite Hyear.
    destruct (findall_years (Py.lower query)) as [|y ys] eqn:Hf; [lia|].
    apply (findall_years_range (Py.lower query)). rewrite Hf. left. reflexivity.
  - unfold first_location. rewrite He. cbn [locations _extract_entities].
    destruct (_extract_locations o st (Py.lower query)) as [|l ls]; reflexivity.
  - rewrite length_map. apply SqliteFacts.limit_length.
Qed.

Lemma groundwater_status_end_to_end_witness :
  process_query Sample.insertion_order Sample.st
    "What is the groundwater status in Punjab 2023"
  = Ok {| res_intent := "groundwater_status";
          res_entities := {| locations := Some ["Punjab"]; years := Some [2023%Z];
                             categories := None |};
          res_data := Groundwater_status "Punjab" 2023 [Sample.amritsar_2023];
          res_query := "What is the groundwater status in Punjab 2023" |}
  /\ exists location year blocks0,
       Groundwater_status "Punjab" 2023 [Sample.amritsar_2023]
       = Groundwater_status location year blocks0
       /\ (2000 <= year <= 2099)%Z
       /\ (length blocks0 <= 10)%nat.
Proof.
  match goal with
  | |- ?A /\ _ => assert (H : A) by (vm_compute; reflexivity)
  end.
  split; [exact H|].
  destruct (groundwater_status_end_to_end Sample.insertion_order Sample.st
              "What is the groundwater status in Punjab 2023" _ H eq_refl)
    as (location & year & blocks0 & Hd & _ & Hy & _ & Hlen).
  exists location, year, blocks0. split; [exact Hd | split; [exact Hy | exact Hlen]].
Defined.

(** X11.  The pipeline does not see letter case: two queries with the same
    lower-casing get the same intent and entities, fail with the same
    exception or succeed with the same data; the two results differ in the
    echoed query only. *)
Theorem process_query_ignores_case {N : Numeric} (o : SetOrder) (st : store)
    (query1 query2 : string) :
  Py.lower query1 = Py.lower query2 ->
  classify_intent o st query1 = classify_intent o st query2
  /\ match process_query o st query1, process_query o st query2 with
     | Ok out1, Ok out2 =>
         res_intent out1 = res_intent out2
         /\ res_entities out1 = res_entities out2
         /\ res_data out1 = res_data out2
         /\ res_query out1 = query1 /\ res_query out2 = query2
     | Raise e1, Raise e2 => e1 = e2
     | _, _ => False
     end.
Proof.
  intro Hlow.
  assert (Hc : classify_intent o st query1 = classify_intent o st query2).
  { unfold classify_intent. rewrite Hlow. reflexivity. }
  split; [exact Hc|].
  unfold process_query. rewrite Hc.
  destruct (classify_intent o st query2) as [intent e].
  destruct (_get_response_data st intent e); simpl; auto.
Qed.

Lemma process_query_ignores_case_witness :
  Py.lower "SHOW Critical Areas" = Py.lower "show critical areas"
  /\ classify_intent Sample.insertion_order Sample.st "SHOW Critical Areas"
     = classify_intent Sample.insertion_order Sample.st "show critical areas".
Proof.
  assert (H : Py.lower "SHOW Critical Areas" = Py.lower "show critical areas")
    by reflexivity.
  split; [exact H|].
  exact (proj1 (process_query_ignores_case Sample.insertion_order Sample.st
                  "SHOW Critical Areas" "show critical areas" H)).
Defined.

(* ------------------------------------------------------------------ *)
(** ** Location extraction *)

Lemma startswith_refl (w : string) : Py.startswith w w = true.
Proof.
  induction w as [|c w IH]; simpl; [reflexivity|].
  rewrite Ascii.eqb_refl. exact IH.
Qed.

Lemma mem_in (x : string) (xs : list string) : Py.mem x xs = true <-> In x xs.
Proof.
  unfold Py.mem. rewrite existsb_exists. split.
  - intros (y & Hy & Heq). apply String.eqb_eq in Heq. subst y. exact Hy.
  - intro H. exists x. split; [exact H | apply String.eqb_refl].
Qed.

Lemma iter_in (o : SetOrder) (xs : list string) (x : string) :
  In x (iter o xs) <-> In x xs.
Proof.
  split; intro H.
  - apply (Permutation_in _ (iter_perm o xs)) in H. apply nodup_In in H. exact H.
  - apply (Permutation_in _ (Permutation_sym (iter_perm o xs))).
    apply nodup_In. exact H.
Qed.

Lemma iter_nodup (o : SetOrder) (xs : list string) : NoDup (iter o xs).
Proof.
  apply (Permutation_NoDup (Permutation_sym (iter_perm o xs))), NoDup_nodup.
Qed.

Lemma named_in_in (names : list string) (text l : string) :
  In l (named_in names text) <->
  exists n, In n names /\ Py.contains n text = true /\ l = Py.title n.
Proof.
  unfold named_in. rewrite in_map_iff. split.
  - intros (n & <- & Hn). apply filter_In in Hn as [Hin Hc]. eauto.
  - intros (n & Hin & Hc & ->). exists n. split; [reflexivity|].
    apply filter_In. auto.
Qed.

(** The accumulator of the word loop only grows. *)
Lemma word_loop_acc (ss ds : list string) (ws : list string) : forall acc,
  word_loop ss ds ws acc
  = (acc ++ fst (word_loop ss ds ws []), snd (word_loop ss ds ws [])).
Proof.
  induction ws as [|w ws IH]; intro acc; cbn [word_loop].
  - simpl. rewrite app_nil_r. reflexivity.
  - destruct (Py.mem w ss).
    + rewrite (IH (acc ++ [Py.title w])), (IH ([] ++ [Py.title w])).
      simpl. rewrite <- app_assoc. reflexivity.
    + destruct (mapM first_word ds) as [firsts|err].
      * destruct (Py.mem w firsts).
        -- destruct (find (fun d0 => Py.startswith d0 w) ds) as [d0|].
           ++ rewrite (IH (acc ++ [Py.title d0])), (IH ([] ++ [Py.title d0])).
              simpl. rewrite <- app_assoc. reflexivity.
           ++ apply IH.
        -- apply IH.
      * simpl. rewrite app_nil_r. reflexivity.
Qed.

(** What the word loop appends: the title of a state name that is a word
    of the query, or of a district name that starts with one. *)
Lemma word_loop_sound (ss ds : list string) (ws : list string) (l : string) :
  In l (fst (word_loop ss ds ws [])) ->
  exists n w, In w ws /\ In n (ss ++ ds) /\ Py.startswith n w = true
              /\ l = Py.title n.
Proof.
  induction ws as [|w ws IH]; cbn [word_loop]; [intros []|].
  assert (Hrest : In l (fst (word_loop ss ds ws [])) ->
                  exists n w0, In w0 (w :: ws) /\ In n (ss ++ ds)
                               /\ Py.startswith n w0 = true /\ l = Py.title n).
  { intro H. destruct (IH H) as (n & w0 & Hw0 & Hn & Hs & Hl).
    exists n, w0. repeat split; auto. right. exact Hw0. }
  destruct (Py.mem w ss) eqn:Hmem.
  - rewrite word_loop_acc. cbn [fst app]. intros [<- | H]; [|exact (Hrest H)].
    exists w, w. repeat split.
    + left. reflexivity.
    + apply in_or_app. left. apply mem_in, Hmem.
    + apply startswith_refl.
  - destruct (mapM first_word ds) as [firsts|err]; [|intros []].
    destruct (Py.mem w firsts); [|exact Hrest].
    destruct (find (fun d0 => Py.startswith d0 w) ds) as [d0|] eqn:Hfind;
      [|exact Hrest].
    rewrite word_loop_acc. cbn [fst app]. intros [<- | H]; [|exact (Hrest H)].
    apply find_some in Hfind as [Hin Hs].
    exists d0, w. repeat split; auto.
    + left. reflexivity.
    + apply in_or_app. right. exact Hin.
Qed.

Lemma first_words_ok (ds : list string) :
  existsb blank ds = false -> exists firsts, mapM first_word ds = Ok firsts.
Proof.
  induction ds as [|d0 ds IH]; simpl; intro H; [eauto|].
  apply orb_false_iff in H as [Hd Hds].
  destruct (IH Hds) as (firsts & ->).
  unfold first_word, blank in *. destruct (Py.split d0); [discriminate|].
  simpl. eauto.
Qed.

Lemma first_words_raise (ds : list string) :
  existsb blank ds = true -> mapM first_word ds = Raise IndexError.
Proof.
  induction ds as [|d0 ds IH]; cbn [existsb mapM]; intro H; [discriminate|].
  unfold first_word at 1. unfold blank at 1 in H.
  destruct (Py.split d0) as [|w ws]; [reflexivity|].
  simpl in H. cbn [bind]. rewrite (IH H). reflexivity.
Qed.

Lemma word_loop_completes (ss ds : list string) (ws : list string) :
  existsb blank ds = false -> snd (word_loop ss ds ws []) = None.
Proof.
  intro Hb. destruct (first_words_ok ds Hb) as (firsts & Hf).
  induction ws as [|w ws IH]; cbn [word_loop]; [reflexivity|].
  rewrite Hf.
  destruct (Py.mem w ss); [rewrite word_loop_acc; exact IH|].
  destruct (Py.mem w firsts); [|exact IH].
  destruct (find (fun d0 => Py.startswith d0 w) ds);
    [rewrite word_loop_acc; exact IH | exact IH].
Qed.

Lemma word_loop_blank (ss ds : list string) (ws : list string) :
  existsb blank ds = true ->
  word_loop ss ds ws []
  = (map Py.title (take_while (fun w => Py.mem w ss) ws),
     if forallb (fun w => Py.mem w ss) ws then None else Some IndexError).
Proof.
  intro Hb. pose proof (first_words_raise ds Hb) as Hf.
  induction ws as [|w ws IH]; cbn [word_loop take_while forallb map]; [reflexivity|].
  destruct (Py.mem w ss).
  - rewrite word_loop_acc, IH. reflexivity.
  - rewrite Hf. reflexivity.
Qed.

(** X12.  Location extraction returns no location twice, and none out of
    the blue: each is the title-cased form of a (lower-cased) state,
    district or block name of the catalog that occurs in the lower-cased
    query as a substring, or that starts with one of its words. *)
Theorem extract_locations_sound {N : Numeric} (o : SetOrder) (st : store)
    (query l : string) :
  NoDup (_extract_locations o st query)
  /\ (In l (_extract_locations o st query) ->
      exists ss ds bs n,
        catalog st = Ok (ss, ds, bs)
        /\ In n (ss ++ ds ++ bs)
        /\ l = Py.title n
        /\ (Py.contains n (Py.lower query) = true
            \/ exists w, In w (Py.split (Py.lower query))
                         /\ Py.startswith n w = true)).
Proof.
  unfold _extract_locations. split; [apply iter_nodup|].
  rewrite iter_in.
  destruct (catalog st) as [[[ss ds] bs]|err]; [|intros []].
  intro H. exists ss, ds, bs.
  assert (Hloop : In l (fst (word_loop ss ds (Py.split (Py.lower query)) [])) ->
                  exists n, In n (ss ++ ds ++ bs) /\ l = Py.title n
                            /\ (Py.contains n (Py.lower query) = true
                                \/ exists w, In w (Py.split (Py.lower query))
                                             /\ Py.startswith n w = true)).
  { intro Hl. apply word_loop_sound in Hl as (n & w & Hw & Hn & Hs & ->).
    exists n. repeat split.
    - rewrite app_assoc. apply in_or_app. left. exact Hn.
    - right. exists w. auto. }
  destruct (word_loop ss ds (Py.split (Py.lower query)) []) as [locs [e|]] eqn:Hwl.
  - destruct (Hloop H) as (n & Hn). exists n. split; [reflexivity | exact Hn].
  - apply in_app_or in H as [H | H].
    { destruct (Hloop H) as (n & Hn). exists n. split; [reflexivity | exact Hn]. }
    assert (Hnamed : forall names, incl names (ss ++ ds ++ bs) ->
              In l (named_in names (Py.lower query)) ->
              exists n, In n (ss ++ ds ++ bs) /\ l = Py.title n
                        /\ (Py.contains n (Py.lower query) = true
                            \/ exists w, In w (Py.split (Py.lower query))
                                         /\ Py.startswith n w = true)).
    { intros names Hincl Hl. apply named_in_in in Hl as (n & Hn & Hc & ->).
      exists n. repeat split; auto. }
    apply in_app_or in H as [H | H]; [|apply in_app_or in H as [H | H]].
    + destruct (Hnamed ss) as (n & Hn); [apply incl_appl, incl_refl | exact H |].
      exists n. split; [reflexivity | exact Hn].
    + destruct (Hnamed ds) as (n & Hn);
        [apply incl_appr, incl_appl, incl_refl | exact H |].
      exists n. split; [reflexivity | exact Hn].
    + destruct (Hnamed bs) as (n & Hn);
        [apply incl_appr, incl_appr, incl_refl | exact H |].
      exists n. split; [reflexivity | exact Hn].
Qed.

(** X13.  When no district name is blank, extraction misses no name that
    the query spells out: every state, district or block name of the
    catalog that is a substring of the lower-cased query is returned,
    title-cased. *)
Theorem extract_locations_complete {N : Numeric} (o : SetOrder) (st : store)
    (query : string) (ss ds bs : list string) (n : string) :
  catalog st = Ok (ss, ds, bs) ->
  existsb blank ds = false ->
  In n (ss ++ ds ++ bs) ->
  Py.contains n (Py.lower query) = true ->
  In (Py.title n) (_extract_locations o st query).
Proof.
  intros Hcat Hb Hn Hc. unfold _extract_locations. rewrite Hcat, iter_in.
  pose proof (word_loop_completes ss ds (Py.split (Py.lower query)) Hb) as Hnone.
  destruct (word_loop ss ds (Py.split (Py.lower query)) []) as [locs e].
  simpl in Hnone. subst e.
  apply in_or_app. right.
  apply in_app_or in Hn as [Hn | Hn]; [|apply in_app_or in Hn as [Hn | Hn]].
  - apply in_or_app. left. apply named_in_in. eauto.
  - apply in_or_app. right. apply in_or_app. left. apply named_in_in. eauto.
  - apply in_or_app. right. apply in_or_app. right. apply named_in_in. eauto.
Qed.

Lemma extract_locations_complete_witness :
  (existsb blank ["central delhi"; "gurugram"; "amritsar"] = false
   /\ Py.contains "central delhi" (Py.lower "Water level in Central Delhi") = true)
  /\ In "Central Delhi"
        (_extract_locations Sample.insertion_order Sample.st
           "Water level in Central Delhi").
Proof.
  split; [split; reflexivity|].
  exact (extract_locations_complete Sample.insertion_order Sample.st
           "Water level in Central Delhi"
           ["delhi"; "haryana"; "punjab"]
           ["central delhi"; "gurugram"; "amritsar"]
           ["central delhi block-1"; "central delhi block-2"; "gurugram block-1";
            "amritsar block-1"; "sohna"]
           "central delhi" eq_refl eq_refl
           (or_intror (or_intror (or_intror (or_introl eq_refl)))) eq_refl).
Defined.

(** X14.  One district with a blank name cripples extraction.  As soon as
    the query has a word that is not a state name, the lookup of district
    first words raises IndexError inside the word loop, and the handler
    returns what was appended before: the query's leading words that are
    state names, and nothing else — no district, no block, no state of
    two words. *)
Theorem extract_locations_blank_district {N : Numeric} (o : SetOrder) (st : store)
    (query : string) (ss ds bs : list string) :
  catalog st = Ok (ss, ds, bs) ->
  existsb blank ds = true ->
  forallb (fun w => Py.mem w ss) (Py.split (Py.lower query)) = false ->
  _extract_locations o st query
  = iter o (map Py.title
              (take_while (fun w => Py.mem w ss) (Py.split (Py.lower query)))).
Proof.
  intros Hcat Hb Hw. unfold _extract_locations.
  rewrite Hcat, (word_loop_blank ss ds _ Hb), Hw. reflexivity.
Qed.

Lemma extract_locations_blank_district_witness :
  (existsb blank ["central delhi"; ""] = true
   /\ forallb (fun w => Py.mem w ["delhi"; "punjab"])
        (Py.split (Py.lower "Delhi water level and Punjab and Central Delhi")) = false)
  /\ _extract_locations Sample.insertion_order (Connected Sample.db_blank_district)
       "Delhi water level and Punjab and Central Delhi"
     = ["Delhi"].
Proof.
  split; [split; reflexivity|].
  exact (extract_locations_blank_district Sample.insertion_order
           (Connected Sample.db_blank_district)
           "Delhi water level and Punjab and Central Delhi"
           ["delhi"; "punjab"] ["central delhi"; ""] ["central delhi block-1"]
           eq_refl eq_refl eq_refl).
Defined.

(* ------------------------------------------------------------------ *)
(** ** Categories *)

Lemma startswith_app_l (a b : string) : forall s,
  Py.startswith s (a ++ b) = true -> Py.startswith s a = true.
Proof.
  induction a as [|c a IH]; intros s H; [destruct s; reflexivity|].
  destruct s as [|c' s]; [discriminate|]. cbn [append Py.startswith] in *.
  apply andb_true_iff in H as [Hc H]. rewrite Hc. apply IH, H.
Qed.

Lemma startswith_contains_r (a b : string) : forall s,
  Py.startswith s (a ++ b) = true -> Py.contains b s = true.
Proof.
  induction a as [|c a IH]; intros s H.
  - cbn [append] in H. destruct s; cbn [Py.contains]; rewrite H; reflexivity.
  - destruct s as [|c' s]; [discriminate|]. cbn [append Py.startswith] in H.
    apply andb_true_iff in H as [_ H]. cbn [Py.contains].
    rewrite (IH s H). apply orb_true_r.
Qed.

Lemma contains_app (a b : string) (t : string) :
  Py.contains (a ++ b) t = true ->
  Py.contains a t = true /\ Py.contains b t = true.
Proof.
  induction t as [|c t IH]; cbn [Py.contains]; intro H.
  - rewrite orb_false_r in *. split.
    + apply (startswith_app_l a b), H.
    + apply (startswith_contains_r a b "" H).
  - apply orb_true_iff in H as [H | H].
    + split.
      * rewrite (startswith_app_l a b _ H). reflexivity.
      * apply (startswith_contains_r a b (String c t) H).
    + destruct (IH H) as [Ha Hb]. rewrite Ha, Hb, !orb_true_r. auto.
Qed.

(** X15.  The check for 'semi-critical' adds nothing to the check for
    'semi', and a query that says "semi-critical" always gets Critical as
    well: its categories hold Critical and Semi-Critical, in this order,
    with at most Safe before and Over-Exploited after. *)
Theorem semi_critical_gives_two_categories {N : Numeric} (o : SetOrder) (st : store)
    (query : string) :
  Py.contains "semi-critical" (Py.lower query) = true ->
  (Py.contains "semi" (Py.lower query) || Py.contains "semi-critical" (Py.lower query))
  = Py.contains "semi" (Py.lower query)
  /\ exists before after,
       categories (snd (classify_intent o st query))
       = Some (before ++ ["Critical"; "Semi-Critical"] ++ after)
       /\ (before = [] \/ before = ["Safe"])
       /\ (after = [] \/ after = ["Over-Exploited"]).
Proof.
  intro H.
  destruct (contains_app "semi" "-critical" _ H) as [Hsemi _].
  destruct (contains_app "semi-" "critical" _ H) as [_ Hcrit].
  split; [rewrite Hsemi; reflexivity|].
  assert (Hcat : categories (snd (classify_intent o st query))
                 = if_nonempty (extract_categories (Py.lower query))).
  { unfold classify_intent.
    destruct (classify_loop intent_patterns (Py.lower query)) as [[i m]|];
      reflexivity. }
  rewrite Hcat. unfold extract_categories. rewrite Hsemi, Hcrit.
  exists (if Py.contains "safe" (Py.lower query) then ["Safe"] else []),
         (if Py.contains "over" (Py.lower query)
             || Py.contains "exploited" (Py.lower query)
          then ["Over-Exploited"] else []).
  split; [|split].
  - destruct (Py.contains "safe" (Py.lower query)); reflexivity.
  - destruct (Py.contains "safe" (Py.lower query)); auto.
  - destruct (Py.contains "over" (Py.lower query)
              || Py.contains "exploited" (Py.lower query)); auto.
Qed.

Lemma semi_critical_gives_two_categories_witness :
  Py.contains "semi-critical" (Py.lower "Which blocks are Semi-Critical?") = true
  /\ exists before after,
       categories (snd (classify_intent Sample.insertion_order Sample.st
                          "Which blocks are Semi-Critical?"))
       = Some (before ++ ["Critical"; "Semi-Critical"] ++ after).
Proof.
  assert (H : Py.contains "semi-critical"
                (Py.lower "Which blocks are Semi-Critical?") = true) by reflexivity.
  split; [exact H|].
  destruct (proj2 (semi_critical_gives_two_categories Sample.insertion_order
                     Sample.st "Which blocks are Semi-Critical?" H))
    as (before & after & Hc & _).
  exists before, after. exact Hc.
Defined.

(** X16.  The [categories] entity, when present, is a non-empty list
    without repetition of the four category names, always in the order
    Safe, Critical, Semi-Critical, Over-Exploited — the order of the
    checks, not the order in which the query names them. *)
Theorem categories_in_fixed_order {N : Numeric} (o : SetOrder) (st : store)
    (query : string) (cats : list string) :
  categories (snd (classify_intent o st query)) = Some cats ->
  cats <> []
  /\ incl cats ["Safe"; "Critical"; "Semi-Critical"; "Over-Exploited"]
  /\ StronglySorted lt (map category_rank cats).
Proof.
  assert (Hcat : categories (snd (classify_intent o st query))
                 = if_nonempty (extract_categories (Py.lower query))).
  { unfold classify_intent.
    destruct (classify_loop intent_patterns (Py.lower query)) as [[i m]|];
      reflexivity. }
  rewrite Hcat. unfold extract_categories.
  destruct (Py.contains "safe" (Py.lower query)),
    (Py.contains "critical" (Py.lower query)),
    (Py.contains "semi" (Py.lower query) || Py.contains "semi-critical" (Py.lower query)),
    (Py.contains "over" (Py.lower query) || Py.contains "exploited" (Py.lower query));
    cbn [app if_nonempty]; intro H; try discriminate; injection H as <-;
    (split; [discriminate|]); (split; [intros x Hx; simpl in *; tauto|]);
    cbn [map]; repeat (constructor; [|repeat constructor]); constructor.
Qed.

Lemma categories_in_fixed_order_witness :
  categories (snd (classify_intent Sample.insertion_order Sample.st
                     "over-exploited or safe?"))
  = Some ["Safe"; "Over-Exploited"]
  /\ StronglySorted lt (map category_rank ["Safe"; "Over-Exploited"]).
Proof.
  assert (H : categories (snd (classify_intent Sample.insertion_order Sample.st
                                 "over-exploited or safe?"))
              = Some ["Safe"; "Over-Exploited"]) by (vm_compute; reflexivity).
  split; [exact H|].
  exact (proj2 (proj2 (categories_in_fixed_order Sample.insertion_order Sample.st
                         "over-exploited or safe?" _ H))).
Defined.

(* ------------------------------------------------------------------ *)
(** ** A pattern that decides nothing *)

Lemma first_two_patterns :
  exists lead,
    pattern_at 0 = Re.Seq (Pat.group ["what"; "show"; "tell"])
                     (Re.Seq Pat.any
                        (Re.Seq (Pat.group ["groundwater"; "water"])
                           (Re.Seq Pat.any lead)))
    /\ pattern_at 1 = lead.
Proof. eexists. split; reflexivity. Qed.

Lemma matches_anywhere_tail (a b c d lead : Re.regex) (text : string) :
  matches_anywhere (Re.Seq a (Re.Seq b (Re.Seq c (Re.Seq d lead)))) text ->
  matches_anywhere lead text.
Proof.
  intros (pre & mid & post & Htext & Hm).
  apply ReFacts.seq_inv in Hm as (u1 & v1 & -> & _ & Hm).
  apply ReFacts.seq_inv in Hm as (u2 & v2 & -> & _ & Hm).
  apply ReFacts.seq_inv in Hm as (u3 & v3 & -> & _ & Hm).
  apply ReFacts.seq_inv in Hm as (u4 & v4 & -> & _ & Hm).
  exists (pre ++ u1 ++ u2 ++ u3 ++ u4), v4, post. split; [|exact Hm].
  rewrite Htext. rewrite <- !app_assoc. reflexivity.
Qed.

(** X17.  The first pattern of the table,
    [(what|show|tell).*(groundwater|water).*status.*(of|in|for)\s+(\w+)],
    decides nothing: whenever it matches a text, so does the second,
    [status.*(of|in|for)\s+(\w+)], which belongs to the same intent; the
    table without its first pattern classifies every query alike. *)
Theorem first_pattern_is_redundant (text : string) :
  (matches_anywhere (pattern_at 0) text -> matches_anywhere (pattern_at 1) text)
  /\ option_map fst (classify_loop (without_first_pattern intent_patterns) text)
     = option_map fst (classify_loop intent_patterns text).
Proof.
  destruct first_two_patterns as (lead & H0 & H1).
  assert (Himp : matches_anywhere (pattern_at 0) text ->
                 matches_anywhere (pattern_at 1) text).
  { rewrite H0, H1. apply matches_anywhere_tail. }
  split; [exact Himp|].
  change (classify_loop (without_first_pattern intent_patterns) text)
    with (match (if Re.search (pattern_at 1) text
                 then Some (pattern_at 1, "location_query")
                 else first_matching [(pattern_at 2, "location_query")] text) with
          | Some m => Some ("groundwater_status", m)
          | None => classify_loop (tl intent_patterns) text
          end).
  change (classify_loop intent_patterns text)
    with (match (if Re.search (pattern_at 0) text
                 then Some (pattern_at 0, "location_query")
                 else if Re.search (pattern_at 1) text
                 then Some (pattern_at 1, "location_query")
                 else first_matching [(pattern_at 2, "location_query")] text) with
          | Some m => Some ("groundwater_status", m)
          | None => classify_loop (tl intent_patterns) text
          end).
  destruct (Re.search (pattern_at 0) text) eqn:Hs0; [|reflexivity].
  apply search_spec, Himp, search_spec in Hs0. rewrite Hs0. reflexivity.
Qed.

(* ------------------------------------------------------------------ *)
(** ** From extraction to resolution *)

Lemma char_lower_upper (c : ascii) :
  Py.char_lower (Py.char_upper c) = Py.char_lower c.
Proof. destruct c as [[] [] [] [] [] [] [] []]; reflexivity. Qed.

Lemma lower_title_from (name : string) : forall prev_cased,
  Py.lower (Py.title_from prev_cased name) = Py.lower name.
Proof.
  induction name as [|c name IH]; intro prev_cased; [reflexivity|].
  cbn [Py.title_from]. destruct (Py.isalpha c).
  - cbn [Py.lower]. rewrite IH.
    destruct prev_cased;
      [rewrite SqliteFacts.char_lower_idem | rewrite char_lower_upper]; reflexivity.
  - cbn [Py.lower]. rewrite IH. reflexivity.
Qed.

Lemma lower_idem (name : string) : Py.lower (Py.lower name) = Py.lower name.
Proof.
  induction name as [|c name IH]; [reflexivity|].
  cbn [Py.lower]. rewrite SqliteFacts.char_lower_idem, IH. reflexivity.
Qed.

Lemma like_percent_skip (pat x : string) :
  Sqlite.LIKE_pat pat x = true -> Sqlite.LIKE_pat (String "%" pat) x = true.
Proof. intro H. rewrite SqliteFacts.like_percent, H. reflexivity. Qed.

(** A text matches itself as a LIKE pattern, wildcards or not. *)
Lemma like_self (p : string) : forall pat x,
  Sqlite.LIKE_pat pat x = true -> Sqlite.LIKE_pat (p ++ pat) (p ++ x) = true.
Proof.
  induction p as [|c p IH]; intros pat x H; [exact H|].
  cbn [append].
  destruct (Ascii.eqb_spec c "%") as [-> | Hp].
  - rewrite SqliteFacts.like_percent.
    rewrite (like_percent_skip (p ++ pat) (p ++ x) (IH pat x H)).
    apply orb_true_r.
  - cbn [Sqlite.LIKE_pat].
    destruct (Ascii.eqb c "%") eqn:E1; [apply Ascii.eqb_eq in E1; contradiction|].
    destruct (Ascii.eqb c "_"); [apply IH, H|].
    rewrite Ascii.eqb_refl. apply IH, H.
Qed.

Lemma append_empty_r (x : string) : (x ++ "")%string = x.
Proof. induction x as [|c x IH]; simpl; [reflexivity | rewrite IH; reflexivity]. Qed.

Lemma like_own_name (name location : string) :
  Py.lower location = Py.lower name ->
  Sqlite.LIKE (Sqlite.LOWER name) (like_param location) = true.
Proof.
  intro H. unfold Sqlite.LIKE, Sqlite.LOWER, like_param. rewrite H.
  change ("%" ++ Py.lower name ++ "%")%string
    with (String "%" (Py.lower name ++ "%")).
  apply like_percent_skip.
  pose proof (like_self (Py.lower name) "%" "" eq_refl) as Hself.
  rewrite append_empty_r in Hself. exact Hself.
Qed.

(** X18.  Title-casing an extracted name loses nothing at resolution: the
    location that extraction makes of a state or district name — and any
    location equal to the name up to letter case — passes the LIKE filter
    on the rows of that state or district, so the scoped SELECT for a year
    in which the state or district has a joined row is not empty. *)
Theorem extracted_name_matches_its_rows {N : Numeric} (db : database)
    (rows0 : list joined) (r : joined) (name location : string) (y : Z) :
  JOIN db = Ok rows0 ->
  In r rows0 ->
  assessment_year (ga r) = y ->
  state_name (s r) = name \/ district_name (d r) = name ->
  Py.lower location = Py.lower name ->
  Py.lower (Py.title (Py.lower name)) = Py.lower name
  /\ location_filter location r = true
  /\ exists r0 rows, scoped_rows db location y = Ok (r0 :: rows).
Proof.
  intros Hjoin Hin Hy Hname Hloc.
  assert (Hf : location_filter location r = true).
  { unfold location_filter. apply orb_true_iff.
    destruct Hname as [<- | <-]; [left | right]; apply like_own_name, Hloc. }
  split; [|split; [exact Hf|]].
  - unfold Py.title. rewrite lower_title_from. apply lower_idem.
  - rewrite (scoped_rows_ok db rows0 location y Hjoin).
    assert (Hsel : In r (filter (fun r1 => location_filter location r1 && year_is y r1)
                                rows0)).
    { apply filter_In. split; [exact Hin|]. rewrite Hf. unfold year_is.
      apply Z.eqb_eq, Hy. }
    destruct (filter (fun r1 => location_filter location r1 && year_is y r1) rows0)
      as [|r0 rest]; [destruct Hsel|].
    exists r0, (firstn 9 rest). reflexivity.
Qed.

Lemma extracted_name_matches_its_rows_witness :
  JOIN Sample.db_new_town = Ok [SampleRows.new_town]
  /\ Py.lower "NEW TOWN" = Py.lower "New Town"
  /\ exists r0 rows, scoped_rows Sample.db_new_town "NEW TOWN" 2024 = Ok (r0 :: rows).
Proof.
  assert (Hjoin : JOIN Sample.db_new_town = Ok [SampleRows.new_town])
    by (vm_compute; reflexivity).
  split; [exact Hjoin|]. split; [reflexivity|].
  exact (proj2 (proj2 (extracted_name_matches_its_rows Sample.db_new_town
                         [SampleRows.new_town] SampleRows.new_town
                         "New Town" "NEW TOWN" 2024%Z
                         Hjoin (or_introl eq_refl) eq_refl
                         (or_intror eq_refl) eq_refl))).
Defined.

(* ------------------------------------------------------------------ *)
(** ** Missing tables *)

Section MissingTables.
Context {N : Numeric}.

Lemma join_missing (db : database) :
  table_missing db -> JOIN db = Raise OperationalError.
Proof.
  unfold JOIN, table_missing.
  destruct (groundwater_assessment db); cbn [table bind]; [|reflexivity].
  destruct (blocks db); cbn [table bind]; [|reflexivity].
  destruct (districts db); cbn [table bind]; [|reflexivity].
  destruct (states db); cbn [table bind]; [|reflexivity].
  intros [H | [H | [H | H]]]; discriminate.
Qed.

Lemma scoped_rows_missing (db : database) (l : string) (y : Z) :
  table_missing db -> scoped_rows db l y = Raise OperationalError.
Proof. intro H. unfold scoped_rows. rewrite (join_missing db H). reflexivity. Qed.

End MissingTables.

(** X19.  A missing table fails every resolution whose SELECT names it,
    whatever the entities and the rows of the other tables.  Without the
    assessment table every intent but [help] raises OperationalError, and so
    does [process_query] for every query not classified [help].  Without
    any one of the four tables the same holds of the listings, of the
    overview and of the location branches of [water_level], [historical],
    [recharge] and [extraction], whose SELECTs join the four. *)
Theorem missing_table_fails_resolution {N : Numeric} (db : database)
    (intent : string) (e : entities) :
  (groundwater_assessment db = None -> intent <> "help" ->
   _get_response_data (Connected db) intent e = Raise OperationalError)
  /\ (table_missing db -> intent <> "help" ->
      truthy (first_location e) <> None
      \/ ~ In intent ["water_level"; "historical"; "recharge"; "extraction"] ->
      _get_response_data (Connected db) intent e = Raise OperationalError)
  /\ (forall (o : SetOrder) (query : string),
        groundwater_assessment db = None ->
        fst (classify_intent o (Connected db) query) <> "help" ->
        process_query o (Connected db) query = Raise OperationalError).
Proof.
  assert (Hjoined : forall intent0 e0,
            table_missing db -> intent0 <> "help" ->
            truthy (first_location e0) <> None
            \/ ~ In intent0 ["water_level"; "historical"; "recharge"; "extraction"] ->
            _get_response_data (Connected db) intent0 e0 = Raise OperationalError).
  { intros intent0 e0 Hm Hh Hscope.
    unfold _get_response_data. cbn [connect bind].
    assert (Hloc : forall P : Prop,
               In intent0 ["water_level"; "historical"; "recharge"; "extraction"] ->
               (forall l, truthy (first_location e0) = Some l -> P) -> P).
    { intros P Hin HP. destruct Hscope as [Hl | Hn]; [|contradiction].
      destruct (truthy (first_location e0)) as [l|]; [|contradiction Hl; reflexivity].
      apply (HP l). reflexivity. }
    destruct (String.eqb_spec intent0 "groundwater_status") as [-> | H1].
    { unfold _get_groundwater_status. rewrite (scoped_rows_missing db _ _ Hm).
      reflexivity. }
    destruct (String.eqb_spec intent0 "critical_areas") as [-> | H2].
    { unfold _get_critical_areas, critical_rows. rewrite (join_missing db Hm).
      reflexivity. }
    destruct (String.eqb_spec intent0 "safe_areas") as [-> | H3].
    { unfold _get_safe_areas, safe_rows. rewrite (join_missing db Hm). reflexivity. }
    destruct (String.eqb_spec intent0 "water_level") as [-> | H4].
    { apply Hloc; [simpl; auto|]. intros l Hl.
      unfold _get_water_levels. rewrite Hl, (scoped_rows_missing db _ _ Hm).
      reflexivity. }
    destruct (String.eqb_spec intent0 "historical") as [-> | H5].
    { apply Hloc; [simpl; auto|]. intros l Hl.
      unfold _get_historical_data. rewrite Hl, (join_missing db Hm). reflexivity. }
    destruct (String.eqb_spec intent0 "recharge") as [-> | H6].
    { apply Hloc; [simpl; auto|]. intros l Hl.
      unfold _get_recharge_data. rewrite Hl, (scoped_rows_missing db _ _ Hm).
      reflexivity. }
    destruct (String.eqb_spec intent0 "extraction") as [-> | H7].
    { apply Hloc; [simpl; auto|]. intros l Hl.
      unfold _get_extraction_data. rewrite Hl, (scoped_rows_missing db _ _ Hm).
      reflexivity. }
    destruct (String.eqb_spec intent0 "help") as [-> | H8]; [contradiction Hh; reflexivity|].
    unfold _get_general_stats. rewrite (join_missing db Hm). reflexivity. }
  assert (Hga : forall intent0 e0,
            groundwater_assessment db = None -> intent0 <> "help" ->
            _get_response_data (Connected db) intent0 e0 = Raise OperationalError).
  { intros intent0 e0 Hnone Hh.
    assert (Hm : table_missing db) by (left; exact Hnone).
    destruct (truthy (first_location e0)) as [l|] eqn:Hl.
    { apply Hjoined; [exact Hm | exact Hh |]. left. rewrite Hl. discriminate. }
    unfold _get_response_data. cbn [connect bind].
    destruct (String.eqb_spec intent0 "groundwater_status") as [-> | H1].
    { unfold _get_groundwater_status. rewrite (scoped_rows_missing db _ _ Hm).
      reflexivity. }
    destruct (String.eqb_spec intent0 "critical_areas") as [-> | H2].
    { unfold _get_critical_areas, critical_rows. rewrite (join_missing db Hm).
      reflexivity. }
    destruct (String.eqb_spec intent0 "safe_areas") as [-> | H3].
    { unfold _get_safe_areas, safe_rows. rewrite (join_missing db Hm). reflexivity. }
    destruct (String.eqb_spec intent0 "water_level") as [-> | H4].
    { unfold _get_water_levels, assessments_2024. rewrite Hl, Hnone. reflexivity. }
    destruct (String.eqb_spec intent0 "historical") as [-> | H5].
    { unfold _get_historical_data. rewrite Hl, Hnone. reflexivity. }
    destruct (String.eqb_spec intent0 "recharge") as [-> | H6].
    { unfold _get_recharge_data, assessments_2024. rewrite Hl, Hnone. reflexivity. }
    destruct (String.eqb_spec intent0 "extraction") as [-> | H7].
    { unfold _get_extraction_data, assessments_2024. rewrite Hl, Hnone. reflexivity. }
    destruct (String.eqb_spec intent0 "help") as [-> | H8]; [contradiction Hh; reflexivity|].
    unfold _get_general_stats. rewrite (join_missing db Hm). reflexivity. }
  split; [apply Hga|]. split; [apply Hjoined|].
  intros o query Hnone Hh. unfold process_query.
  destruct (classify_intent o (Connected db) query) as [i e0]. cbn [fst] in Hh.
  rewrite (Hga i e0 Hnone Hh). reflexivity.
Qed.

Lemma missing_table_fails_resolution_witness :
  table_missing {| states := None;
                   districts := districts Sample.db;
                   blocks := blocks Sample.db;
                   groundwater_assessment := groundwater_assessment Sample.db |}
  /\ _get_response_data
       (Connected {| states := None;
                     districts := districts Sample.db;
                     blocks := blocks Sample.db;
                     groundwater_assessment := groundwater_assessment Sample.db |})
       "recharge"
       {| locations := Some ["Punjab"]; years := None; categories := None |}
     = Raise OperationalError.
Proof.
  assert (Hm : table_missing
                 {| states := None;
                    districts := districts Sample.db;
                    blocks := blocks Sample.db;
                    groundwater_assessment := groundwater_assessment Sample.db |})
    by (right; right; right; reflexivity).
  assert (Hh : "recharge" <> "help") by discriminate.
  split; [exact Hm|].
  apply (proj1 (proj2 (missing_table_fails_resolution _ "recharge"
                  {| locations := Some ["Punjab"]; years := None;
                     categories := None |}))); [exact Hm | exact Hh |].
  left. discriminate.
Defined.

(* ================================================================== *)
(** * Properties of the application *)

Section FormatterFacts.
Context {N : Numeric} {T : RealText N}.

(** No resolver puts these keys in its dict. *)
Lemma keys_never_there (data : response) :
  dict_get data "capabilities" = None
  /\ dict_get data "sample_queries" = None
  /\ dict_get data "coverage" = None
  /\ dict_get data "category_distribution" = None.
Proof. destruct data; repeat split; reflexivity. Qed.

Lemma format_help (data : response) : format_response "help" data = help_text.
Proof.
  destruct (keys_never_there data) as (Hc & Hs & _).
  unfold format_response, get_strings. rewrite Hc, Hs. reflexivity.
Qed.

Lemma format_fallback (intent : string) (data : response) :
  String.eqb intent "groundwater_status" = false ->
  String.eqb intent "critical_areas" = false ->
  String.eqb intent "safe_areas" = false ->
  String.eqb intent "water_level" = false ->
  String.eqb intent "historical" = false ->
  String.eqb intent "recharge" = false ->
  String.eqb intent "extraction" = false ->
  String.eqb intent "help" = false ->
  format_response intent data = overview_text.
Proof.
  intros H1 H2 H3 H4 H5 H6 H7 H8.
  destruct (keys_never_there data) as (_ & _ & Hc & Hd).
  unfold format_response, get_counts.
  rewrite H1, H2, H3, H4, H5, H6, H7, H8, Hc, Hd. reflexivity.
Qed.

Lemma listing_shown {A : Type} (items : list A) (heading nothing : string)
    (k : nat) (format : A -> string) :
  (0 < k)%nat ->
  listing items heading k format nothing
  = listing (firstn k items) heading k format nothing.
Proof.
  intro Hk. unfold listing.
  destruct items as [|x items]; [rewrite firstn_nil; reflexivity|].
  destruct k as [|k]; [lia|].
  rewrite firstn_firstn, Nat.min_id. reflexivity.
Qed.

End FormatterFacts.

(** X20.  Two answers of the chat never show what the processor computed.
    The formatter looks for the keys [capabilities] and [sample_queries],
    [coverage] and [category_distribution], and the processor's dicts have
    [help] and [general_stats]: every [help] chat is answered by the same
    text, which lists no capability and no sample, and every [general] or
    [comparison] chat by the same overview, with 0 states, 0 districts,
    0 blocks and no distribution, whatever the store holds. *)
Theorem chat_texts_that_ignore_the_data {N : Numeric} {T : RealText N}
    (o : SetOrder) (st : store) (message : option string) (now : string)
    (history history' : list chat_entry)
    (text intent : string) (e : entities) (stamp : string) :
  chat o st message now history = (ChatOk text intent e stamp, history') ->
  (intent = "help" -> text = help_text)
  /\ (intent = "general" \/ intent = "comparison" -> text = overview_text).
Proof.
  unfold chat.
  destruct (String.eqb (match message with Some m => m | None => "" end) "");
    [discriminate|].
  destruct (process_query o st _) as [out|err]; [|discriminate].
  intro H. injection H as <- <- _ _ _. split.
  - intros ->. apply format_help.
  - intros [-> | ->]; apply format_fallback; reflexivity.
Qed.

Lemma chat_texts_that_ignore_the_data_witness :
  chat Sample.insertion_order Sample.st (Some "compare extraction between states")
    "2024-01-01T00:00:00" []
  = (ChatOk overview_text "comparison"
       {| locations := None; years := None; categories := None |}
       "2024-01-01T00:00:00",
     [ {| timestamp := "2024-01-01T00:00:00";
          user_message := "compare extraction between states";
          bot_response := overview_text;
          entry_intent := "comparison";
          entry_entities := {| locations := None; years := None; categories := None |} |} ])
  /\ overview_text = overview_text.
Proof.
  match goal with
  | |- ?A /\ _ => assert (H : A) by (vm_compute; reflexivity)
  end.
  split; [exact H|].
  exact (proj2 (chat_texts_that_ignore_the_data Sample.insertion_order Sample.st
                  (Some "compare extraction between states") "2024-01-01T00:00:00"
                  [] _ overview_text "comparison" _ _ H) (or_intror eq_refl)).
Defined.

(** X21.  The formatter shows a bounded part of each listing: of the
    blocks of a groundwater status, of the water levels, and of the
    recharge and extraction items the first 5 — the resolver returns up
    to 10 —, of the critical and of the safe areas the first 10 — the
    resolver returns up to 15; what comes after changes nothing in the
    text. *)
Theorem formatter_shows_first_items {N : Numeric} {T : RealText N}
    (location : string) (year : Z)
    (blocks0 : list status_record) (critical : list critical_record)
    (safe : list safe_record) (levels : list level_record)
    (recharge : list recharge_record) (extraction : list extraction_record) :
  format_response "groundwater_status" (Groundwater_status location year blocks0)
  = format_response "groundwater_status"
      (Groundwater_status location year (firstn 5 blocks0))
  /\ format_response "critical_areas" (Critical_areas critical)
     = format_response "critical_areas" (Critical_areas (firstn 10 critical))
  /\ format_response "safe_areas" (Safe_areas safe)
     = format_response "safe_areas" (Safe_areas (firstn 10 safe))
  /\ format_response "water_level" (Water_levels location levels)
     = format_response "water_level" (Water_levels location (firstn 5 levels))
  /\ format_response "recharge" (Recharge_data location recharge)
     = format_response "recharge" (Recharge_data location (firstn 5 recharge))
  /\ format_response "extraction" (Extraction_data location extraction)
     = format_response "extraction" (Extraction_data location (firstn 5 extraction)).
Proof.
  repeat split; unfold format_response; cbn [String.eqb Ascii.eqb Bool.eqb dict_get get_str];
    apply listing_shown; lia.
Qed.

Section RouteFacts.
Context {N : Numeric} {T : RealText N}.
Variable o : SetOrder.
Variable st : store.

Lemma process_query_echo (query : string) (out : result) :
  process_query o st query = Ok out -> res_query out = query.
Proof.
  unfold process_query. destruct (classify_intent o st query) as [i e].
  destruct (_get_response_data st i e); simpl; [|discriminate].
  intro H. injection H as <-. reflexivity.
Qed.

(** What one chat request does to the history *)
Lemma chat_cases (message : option string) (now : string)
    (history : list chat_entry) :
  (fst (chat o st message now history) = NoMessage
   /\ snd (chat o st message now history) = history
   /\ (message = None \/ message = Some ""))
  \/ (exists e, fst (chat o st message now history) = ServerError e
                /\ snd (chat o st message now history) = history)
  \/ (exists m entry,
        message = Some m
        /\ snd (chat o st message now history) = history ++ [entry]
        /\ fst (chat o st message now history)
           = ChatOk (bot_response entry) (entry_intent entry)
                    (entry_entities entry) now
        /\ timestamp entry = now
        /\ user_message entry = m
        /\ recorded o st entry).
Proof.
  unfold chat.
  destruct (String.eqb_spec (match message with Some m => m | None => "" end) "")
    as [Hempty | Hne].
  - left. split; [reflexivity|]. split; [reflexivity|].
    destruct message as [m|]; [right; f_equal; exact Hempty | left; reflexivity].
  - destruct message as [m|]; [|contradiction Hne; reflexivity].
    destruct (process_query o st m) as [out|err] eqn:Hq.
    + right. right. eexists. eexists. split; [reflexivity|].
      split; [reflexivity|]. split; [reflexivity|].
      split; [reflexivity|]. split; [reflexivity|].
      split; [exact Hne|]. exists out. cbn.
      repeat split; [exact Hq | apply (process_query_echo m out Hq)].
    + right. left. exists err. split; reflexivity.
Qed.

Lemma last_50_suffix (history : list chat_entry) :
  exists older, history = older ++ last_50 history
  /\ length (last_50 history) = Nat.min 50 (length history).
Proof.
  unfold last_50. exists (firstn (length history - 50) history). split.
  - symmetry. apply firstn_skipn.
  - rewrite length_skipn. lia.
Qed.

End RouteFacts.

(** X22.  The chat history is a faithful record.  Starting empty and
    whatever requests are served, against an unchanged store, every entry
    of the history has a non-empty message, and carries the intent, the
    entities and the formatted answer of a successful [process_query] of
    that very message; there are never more entries than chat requests. *)
Theorem history_records_successful_chats {N : Numeric} {T : RealText N}
    (o : SetOrder) (st : store) (rs : list request) :
  Forall (recorded o st) (serve_all o st [] rs)
  /\ (length (serve_all o st [] rs) <= length (filter is_chat rs))%nat.
Proof.
  assert (Hgen : forall history,
            Forall (recorded o st) history ->
            Forall (recorded o st) (serve_all o st history rs)
            /\ (length (serve_all o st history rs)
                <= length history + length (filter is_chat rs))%nat).
  { induction rs as [|r rs IH]; intros history Hh; [split; [exact Hh | simpl; lia]|].
    cbn [serve_all].
    destruct r as [message now| | | | |]; cbn [serve filter is_chat snd];
      try (destruct (IH history Hh) as [Ha Hb]; split; [exact Ha | exact Hb]).
    - destruct (chat_cases o st message now history)
        as [(_ & Hs & _) | [(e & _ & Hs) | (m & entry & _ & Hs & _ & _ & _ & Hrec)]];
        rewrite Hs.
      + destruct (IH history Hh) as [Ha Hb]. split; [exact Ha | simpl; lia].
      + destruct (IH history Hh) as [Ha Hb]. split; [exact Ha | simpl; lia].
      + destruct (IH (history ++ [entry])) as [Ha Hb].
        { apply Forall_app. split; [exact Hh | constructor; [exact Hrec | constructor]]. }
        split; [exact Ha|]. rewrite length_app in Hb. simpl in *. lia.
    - cbn [clear_history snd]. destruct (IH [] (Forall_nil _)) as [Ha Hb].
      split; [exact Ha | simpl in *; lia]. }
  destruct (Hgen [] (Forall_nil _)) as [Ha Hb]. split; [exact Ha | exact Hb].
Qed.

(** X23.  The other routes and the history.  [/api/history] returns the
    latest entries, at most 50, in the order they were recorded; a request
    that is neither a chat nor a clear leaves the history as it is, and so
    does a chat that is refused (no message: 400) or that fails (500); a
    chat that succeeds appends exactly one entry, stamped with the time of
    the request; after [/api/clear] the history stays empty until a chat
    succeeds. *)
Theorem history_routes {N : Numeric} {T : RealText N} (o : SetOrder) (st : store)
    (history : list chat_entry) :
  (exists older, history = older ++ last_50 history
                 /\ get_history history = History (last_50 history)
                 /\ length (last_50 history) = Nat.min 50 (length history))
  /\ (forall r, is_chat r = false -> is_clear r = false ->
                snd (serve o st history r) = history)
  /\ (forall message now,
        (exists entry, snd (chat o st message now history) = history ++ [entry]
                       /\ timestamp entry = now
                       /\ Some (user_message entry) = message
                       /\ fst (chat o st message now history)
                          = ChatOk (bot_response entry) (entry_intent entry)
                                   (entry_entities entry) now)
        \/ (snd (chat o st message now history) = history
            /\ (fst (chat o st message now history) = NoMessage
                \/ exists e, fst (chat o st message now history) = ServerError e)))
  /\ (forall rs, forallb (fun r => negb (is_chat r)) rs = true ->
                 serve_all o st history (PostClear :: rs) = []).
Proof.
  split; [|split; [|split]].
  - destruct (last_50_suffix history) as (older & Hh & Hl).
    exists older. repeat split; assumption.
  - intros [message now| | | | |] Hc Hl; try discriminate; reflexivity.
  - intros message now.
    destruct (chat_cases o st message now history)
      as [(Hf & Hs & _) | [(e & Hf & Hs) | (m & entry & -> & Hs & Hf & Ht & Hm & _)]].
    + right. split; [exact Hs | left; exact Hf].
    + right. split; [exact Hs | right; exists e; exact Hf].
    + left. exists entry. repeat split; try assumption. f_equal. exact Hm.
  - intros rs Hrs. cbn [serve_all serve clear_history snd].
    induction rs as [|r rs IH]; [reflexivity|].
    cbn [forallb] in Hrs. apply andb_true_iff in Hrs as [Hr Hrs].
    destruct r; try discriminate; cbn [serve_all serve clear_history snd];
      apply IH, Hrs.
Qed.

(** X24.  [/api/stats] answers with the general statistics, whatever the
    catalog holds: its fixed query, "show me statistics", matches no
    pattern of the table, and the locations it might extract are not read.
    It answers 500 when the store cannot be opened, a table is missing, or
    the join has no row of 2024. *)
Theorem stats_route_is_general {N : Numeric} {T : RealText N} (o : SetOrder)
    (st : store) :
  classify_loop intent_patterns (Py.lower "show me statistics") = None
  /\ get_stats o st
     = match (db <- connect st ;; _get_general_stats db) with
       | Ok data => Stats data
       | Raise e => ServerError e
       end.
Proof.
  assert (Hc : classify_loop intent_patterns (Py.lower "show me statistics") = None)
    by (vm_compute; reflexivity).
  split; [exact Hc|].
  unfold get_stats, process_query, classify_intent. rewrite Hc.
  change (_get_response_data st "general"
            (_extract_entities o st (Py.lower "show me statistics") "general" None))
    with (db <- connect st ;; _get_general_stats db).
  destruct (db <- connect st ;; _get_general_stats db); reflexivity.
Qed.

(* ------------------------------------------------------------------ *)
(** ** What resolution reads of the entities *)

(** X25.  Resolution reads two things of the entities: the first location
    and the first year.  Entity maps that agree on these get the same
    result for every intent — further locations and years, and the
    categories altogether, are never read; and for every intent but
    [groundwater_status] the years do not matter either. *)
Theorem resolution_reads_first_location_and_year {N : Numeric} (st : store)
    (intent : string) (e1 e2 : entities) :
  first_location e1 = first_location e2 ->
  (first_year e1 = first_year e2 \/ intent <> "groundwater_status") ->
  _get_response_data st intent e1 = _get_response_data st intent e2.
Proof.
  intros Hl Hy. unfold _get_response_data.
  destruct (connect st) as [db|]; cbn [bind]; [|reflexivity].
  destruct (String.eqb_spec intent "groundwater_status") as [-> | Hne].
  - destruct Hy as [Hy | Hy]; [|contradiction Hy; reflexivity].
    unfold _get_groundwater_status. rewrite Hl, Hy. reflexivity.
  - unfold _get_water_levels, _get_historical_data, _get_recharge_data,
      _get_extraction_data. rewrite Hl. reflexivity.
Qed.

Lemma resolution_reads_first_location_and_year_witness :
  first_location {| locations := Some ["Delhi"; "Punjab"]; years := Some [2021%Z];
                    categories := Some ["Safe"] |}
  = first_location {| locations := Some ["Delhi"]; years := None; categories := None |}
  /\ _get_response_data Sample.st "recharge"
       {| locations := Some ["Delhi"; "Punjab"]; years := Some [2021%Z];
          categories := Some ["Safe"] |}
     = _get_response_data Sample.st "recharge"
         {| locations := Some ["Delhi"]; years := None; categories := None |}.
Proof.
  split; [reflexivity|].
  assert (Hne : "recharge" <> "groundwater_status") by discriminate.
  apply resolution_reads_first_location_and_year; [reflexivity | right; exact Hne].
Defined.

(* ------------------------------------------------------------------ *)
(** ** The application on a store that is down *)

Lemma process_query_unreachable {N : Numeric} (o : SetOrder) (query : string) :
  process_query o Unreachable query = Raise OperationalError.
Proof.
  unfold process_query. destruct (classify_intent o Unreachable query) as [i e].
  reflexivity.
Qed.

(** X26.  While the store cannot be opened the application records
    nothing: every chat is answered 400 (no message) or 500 with
    OperationalError, [/api/stats] is answered 500, and the history, empty
    at the start, is empty after any sequence of requests. *)
Theorem nothing_recorded_while_store_is_down {N : Numeric} {T : RealText N}
    (o : SetOrder) (message : option string) (now : string)
    (history : list chat_entry) (rs : list request) :
  (fst (chat o Unreachable message now history) = NoMessage
   \/ fst (chat o Unreachable message now history) = ServerError OperationalError)
  /\ snd (chat o Unreachable message now history) = history
  /\ get_stats o Unreachable = ServerError OperationalError
  /\ serve_all o Unreachable [] rs = [].
Proof.
  assert (Hchat : forall m t h,
            (fst (chat o Unreachable m t h) = NoMessage
             \/ fst (chat o Unreachable m t h) = ServerError OperationalError)
            /\ snd (chat o Unreachable m t h) = h).
  { intros m t h. unfold chat.
    destruct (String.eqb (match m with Some m0 => m0 | None => "" end) "");
      [split; [left|]; reflexivity|].
    rewrite process_query_unreachable. split; [right|]; reflexivity. }
  split; [apply Hchat|]. split; [apply Hchat|]. split.
  - unfold get_stats. rewrite process_query_unreachable. reflexivity.
  - induction rs as [|r rs IH]; [reflexivity|].
    cbn [serve_all]. destruct r as [m t| | | | |]; cbn [serve snd clear_history];
      try exact IH.
    rewrite (proj2 (Hchat m t [])). exact IH.
Qed.
